(** * Campus cafeteria ordering: cart, checkout and order status

    A shallow embedding of the order workflow of the repository:

    - [src/pages/Cart.tsx]   : [loadCart], [updateQuantity], [removeItem],
                               [calculateTotal], [handleCheckout];
    - [src/pages/Menu.tsx]   : [handleAddToCart];
    - [src/pages/Orders.tsx] : [loadOrders], [updateOrderStatus] and the
                               status buttons rendered for an order;
    - the database schema shipped with the sources (tables, CHECK and
      UNIQUE constraints, row-level security policies, the [updated_at]
      trigger).

    The pages are React components: every handler reads the component
    state, talks to the managed backend and reports through toasts, the
    console and the router.  A handler is embedded as a function from the
    component state and the database to the new state, the new database
    and the list of events it emitted.  A backend call can fail for reasons
    the page cannot see (network, a constraint that is not modelled); each
    such call takes a boolean [fault] that forces its error branch.

    JavaScript numbers are IEEE 754 doubles: prices and totals are the
    binary64 floats of the kernel, with its rounded [+] and [*].  An
    amount travels to the store as a JSON number and rests in a [numeric]
    column as the decimal that prints the double; it reads back as the
    same double, so a stored amount is modelled by the double itself.
    Quantities are integers (the [integer] columns hold 32 bits), clock
    readings are milliseconds. *)

From Stdlib Require Import List Bool Arith ZArith NArith QArith Lia.
From Stdlib Require Import Ascii String.
From Stdlib Require Import Sorted Permutation.
From Stdlib Require Import Floats.
Import ListNotations.

Close Scope Q_scope.
(* A decimal literal denotes the nearest double, as in JavaScript. *)
Set Warnings "-inexact-float".
Local Open Scope string_scope.
Local Open Scope list_scope.

(* ================================================================== *)
(** ** JavaScript helpers *)

Module Js.

(** Decimal digit of a number below ten. *)
Definition digit_char (d : N) : ascii :=
  ascii_of_N (48 + d).

(** Decimal digits, least significant first.  [fuel] bounds the number
    of digits produced. *)
Fixpoint digits_le (fuel : nat) (n : N) : list N :=
  match fuel with
  | O => []
  | S fuel' =>
      if (n <? 10)%N then [n]
      else (n mod 10)%N :: digits_le fuel' (n / 10)%N
  end.

(** The number that a list of digits, least significant first, writes. *)
Fixpoint value_le (ds : list N) : N :=
  match ds with
  | [] => 0
  | d :: rest => d + 10 * value_le rest
  end%N.

(** [Number.prototype.toString()] on a non-negative integer. *)
Definition toString (n : N) : string :=
  string_of_list_ascii
    (rev (map digit_char (digits_le (S (N.to_nat (N.log2 n))) n))).

(** [s.slice(-k)]: the last [k] characters of [s], all of [s] when it is
    shorter. *)
Definition slice_last (k : nat) (s : string) : string :=
  substring (String.length s - k) k s.

(** The number that an integer denotes: the nearest double (every integer
    below 2^53 in magnitude is a double). *)
Definition of_int (z : Z) : float :=
  SF2Prim (binary_normalize prec emax z 0 false).

(** [Number.isFinite]: neither NaN nor an infinity. *)
Definition isFinite (x : float) : bool :=
  (neg_infinity <? x)%float && (x <? infinity)%float.


(** The rational that a finite double is, bit for bit. *)
Definition exact (x : float) : option Q :=
  match Prim2SF x with
  | S754_zero _ => Some 0%Q
  | S754_finite s m e =>
      Some (Qmult (inject_Z (if s then Zneg m else Zpos m)) (Qpower (2 # 1) e))
  | S754_infinity _ | S754_nan => None
  end.

End Js.

(* ================================================================== *)
(** ** Events a handler emits *)

Inductive Event : Type :=
| ToastError (msg : string)
| ToastSuccess (msg : string)
| ConsoleError (msg : string)
| Navigate (path : string).

Definition is_toast_error (e : Event) : bool :=
  match e with ToastError _ => true | _ => false end.

Definition is_toast_success (e : Event) : bool :=
  match e with ToastSuccess _ => true | _ => false end.

(* ================================================================== *)
(** ** The database schema *)

(** Primary keys are [uuid]s drawn by the store; they are modelled as
    numbers handed out by a counter. *)
Definition Uuid := N.
Bind Scope N_scope with Uuid.

Inductive PaymentMethod : Type := upi | card | razorpay.

Module Profile.
Record row : Type := mk
  { id : Uuid;
    role : string }.
End Profile.

(** [interface MenuItem] of Menu.tsx, a row of [menu_items]. *)
Module MenuItem.
Record row : Type := mk
  { id : Uuid;
    name : string;
    description : string;
    price : float;
    category : string;
    is_vegetarian : bool;
    image_url : string;
    is_available : bool }.
End MenuItem.

Module CartRow.
Record row : Type := mk
  { id : Uuid;
    student_id : Uuid;
    menu_item_id : Uuid;
    quantity : Z;
    created_at : N;
    updated_at : N }.
End CartRow.

Module OrderRow.
Record row : Type := mk
  { id : Uuid;
    order_number : string;
    student_id : Uuid;
    status : string;
    subtotal : float;
    tax : float;
    total : float;
    payment_method : PaymentMethod;
    payment_status : string;
    created_at : N;
    updated_at : N;
    completed_at : option N }.
End OrderRow.

Module OrderItemRow.
Record row : Type := mk
  { id : Uuid;
    order_id : Uuid;
    menu_item_id : Uuid;
    quantity : Z;
    price_at_order : float;
    subtotal : float }.
End OrderItemRow.

Record Db : Type := mkDb
  { profiles : list Profile.row;
    menu_items : list MenuItem.row;
    cart_items : list CartRow.row;
    orders : list OrderRow.row;
    order_items : list OrderItemRow.row;
    next_uuid : Uuid }.

(** What a backend call answers besides its data. *)
Inductive PgError : Type :=
| Fault             (* the call failed for a reason outside the model *)
| UniqueViolation
| CheckViolation
| OutOfRange        (* a value that the column's type cannot hold *)
| PolicyViolation   (* a row-level security WITH CHECK refused the row *)
| NoSingleRow.      (* [.single()] on zero or several rows *)

Definition Result (A : Type) : Type := (A + PgError)%type.

(* ================================================================== *)
(** ** What the pages hold in their component state *)

(** [interface CartItem] of Cart.tsx: a cart row with its menu item
    embedded by the select of [loadCart]. *)
Module CartItem.
Record menu_item_t : Type := mkMenuItem
  { mid : Uuid;
    name : string;
    price : float;
    image_url : string;
    is_vegetarian : bool }.

Record t : Type := mk
  { id : Uuid;
    quantity : Z;
    menu_item : menu_item_t }.
End CartItem.

(** [interface Order] of Orders.tsx. *)
Module Order.
Record menu_item_t : Type := mkMenuItem
  { name : string;
    is_vegetarian : bool }.

Record order_item_t : Type := mkItem
  { quantity : Z;
    price_at_order : float;
    menu_item : option menu_item_t }.

Record t : Type := mk
  { id : Uuid;
    order_number : string;
    status : string;
    total : float;
    created_at : N;
    order_items : list order_item_t }.
End Order.

(** The object literal that [handleCheckout] builds for each cart item. *)
Record NewOrderItem : Type := mkNewOrderItem
  { noi_order_id : Uuid;
    noi_menu_item_id : Uuid;
    noi_quantity : Z;
    noi_price_at_order : float;
    noi_subtotal : float }.

(* ================================================================== *)
(** ** The backend: tables, constraints and policies

    Every operation takes the session user ([auth.uid()] of the policies)
    and a [fault] flag; an operation that writes takes the reading [now]
    of the store's clock.  Constraints that are modelled: the range of
    the [integer] columns, the CHECKs on quantities, amounts, [status]
    and [payment_status], UNIQUE [order_number], UNIQUE [(student_id,
    menu_item_id)] on the cart, the row-level security policies of
    [cart_items], [orders] and [order_items], and the [updated_at]
    triggers of [cart_items] and [orders].  Foreign keys are not
    modelled: a violation is a [fault]. *)

Module Pg.

Definition is_uid (auth : option Uuid) (u : Uuid) : bool :=
  match auth with
  | Some a => (a =? u)%N
  | None => false
  end.

(** [EXISTS (SELECT 1 FROM profiles WHERE id = auth.uid() AND role = 'admin')] *)
Definition is_admin (auth : option Uuid) (db : Db) : bool :=
  existsb (fun p => is_uid auth (Profile.id p) && (Profile.role p =? "admin")%string)
          (profiles db).

(** CHECK (x >= 0) on a NOT NULL [numeric] column.  A JSON body cannot
    carry NaN or an infinity: they are sent as [null], which NOT NULL
    refuses. *)
Definition nonneg (x : float) : bool := Js.isFinite x && (0 <=? x)%float.

(** The values of an [integer] column. *)
Definition int4_ok (z : Z) : bool :=
  (-2147483648 <=? z)%Z && (z <=? 2147483647)%Z.

Definition status_ok (s : string) : bool :=
  existsb (String.eqb s) ["pending"; "preparing"; "ready"; "completed"; "cancelled"].

Definition payment_status_ok (s : string) : bool :=
  existsb (String.eqb s) ["pending"; "completed"; "failed"].

(* ---------------------------------------------------------------- *)
(** *** cart_items *)

(** Policy "Students can view own cart". *)
Definition cart_visible (auth : option Uuid) (r : CartRow.row) : bool :=
  is_uid auth (CartRow.student_id r).

(** Policy "Anyone can view available menu items". *)
Definition menu_visible (auth : option Uuid) (m : MenuItem.row) : bool :=
  MenuItem.is_available m || match auth with Some _ => true | None => false end.

Definition find_menu_item (auth : option Uuid) (mid : Uuid) (db : Db)
  : option MenuItem.row :=
  find (fun m => (MenuItem.id m =? mid)%N && menu_visible auth m) (menu_items db).

(** The embedded resource [menu_item:menu_items (id, name, price,
    image_url, is_vegetarian)].  [menu_item_id] is NOT NULL and
    references [menu_items], so the item is there; a row whose item
    cannot be read is left out. *)
Definition embed_menu_item (auth : option Uuid) (db : Db) (r : CartRow.row)
  : list CartItem.t :=
  match find_menu_item auth (CartRow.menu_item_id r) db with
  | Some m =>
      [ CartItem.mk (CartRow.id r) (CartRow.quantity r)
          (CartItem.mkMenuItem (MenuItem.id m) (MenuItem.name m)
             (MenuItem.price m) (MenuItem.image_url m)
             (MenuItem.is_vegetarian m)) ]
  | None => []
  end.

(** [from('cart_items').select(`id, quantity, menu_item:menu_items (...)`)
     .eq('student_id', student)] *)
Definition select_cart (auth : option Uuid) (student : Uuid) (fault : bool)
    (db : Db) : Result (list CartItem.t) :=
  if fault then inr Fault
  else inl (flat_map (embed_menu_item auth db)
              (filter (fun r => cart_visible auth r
                                && (CartRow.student_id r =? student)%N)
                      (cart_items db))).

(** [from('cart_items').select('*').eq('student_id', student)
     .eq('menu_item_id', item).single()] *)
Definition select_cart_single (auth : option Uuid) (student item : Uuid)
    (fault : bool) (db : Db) : Result CartRow.row :=
  if fault then inr Fault
  else
    match filter (fun r => cart_visible auth r
                           && (CartRow.student_id r =? student)%N
                           && (CartRow.menu_item_id r =? item)%N)
                 (cart_items db) with
    | [r] => inl r
    | _ => inr NoSingleRow
    end.

Definition set_cart_items (db : Db) (c : list CartRow.row) : Db :=
  mkDb (profiles db) (menu_items db) c (orders db) (order_items db)
       (next_uuid db).

(** The row after [SET quantity = q]; the trigger
    [update_cart_items_updated_at] stamps [updated_at]. *)
Definition set_quantity (q : Z) (now : N) (r : CartRow.row) : CartRow.row :=
  CartRow.mk (CartRow.id r) (CartRow.student_id r) (CartRow.menu_item_id r) q
    (CartRow.created_at r) now.

(** [from('cart_items').update({ quantity: q }).eq('id', itemId)].
    A value outside the [integer] range is refused before any row is
    looked at.  Policy "Students can update own cart items" hides the
    rows of other students from the update; CHECK (quantity > 0) is
    evaluated on the rows that are written. *)
Definition update_cart_quantity (auth : option Uuid) (itemId : Uuid) (q : Z)
    (now : N) (fault : bool) (db : Db) : Result Db :=
  let hit r := cart_visible auth r && (CartRow.id r =? itemId)%N in
  if fault then inr Fault
  else if negb (int4_ok q) then inr OutOfRange
  else if existsb hit (cart_items db) && negb (0 <? q)%Z then inr CheckViolation
  else inl (set_cart_items db
              (map (fun r => if hit r then set_quantity q now r else r)
                   (cart_items db))).

(** [from('cart_items').delete().eq('id', itemId)]. *)
Definition delete_cart_item (auth : option Uuid) (itemId : Uuid)
    (fault : bool) (db : Db) : Result Db :=
  if fault then inr Fault
  else inl (set_cart_items db
              (filter (fun r => negb (cart_visible auth r
                                      && (CartRow.id r =? itemId)%N))
                      (cart_items db))).

(** [from('cart_items').delete().eq('student_id', student)]. *)
Definition delete_cart_of (auth : option Uuid) (student : Uuid)
    (fault : bool) (db : Db) : Result Db :=
  if fault then inr Fault
  else inl (set_cart_items db
              (filter (fun r => negb (cart_visible auth r
                                      && (CartRow.student_id r =? student)%N))
                      (cart_items db))).

(** [from('cart_items').insert({ student_id, menu_item_id, quantity })].
    The uniqueness constraint ranges over the whole table, not over the
    rows the session can see.  [created_at] and [updated_at] take their
    default, the clock. *)
Definition insert_cart_item (auth : option Uuid) (student item : Uuid) (q : Z)
    (now : N) (fault : bool) (db : Db) : Result Db :=
  if fault then inr Fault
  else if negb (int4_ok q) then inr OutOfRange
  else if negb (is_uid auth student) then inr PolicyViolation
  else if negb (0 <? q)%Z then inr CheckViolation
  else if existsb (fun r => (CartRow.student_id r =? student)%N
                            && (CartRow.menu_item_id r =? item)%N)
                  (cart_items db)
       then inr UniqueViolation
  else inl (mkDb (profiles db) (menu_items db)
              (cart_items db
               ++ [CartRow.mk (next_uuid db) student item q now now])
              (orders db) (order_items db) (N.succ (next_uuid db))).

(* ---------------------------------------------------------------- *)
(** *** orders and order_items *)

(** Policy "Students can view own orders" (admins see every order). *)
Definition order_visible (auth : option Uuid) (db : Db) (o : OrderRow.row) : bool :=
  is_uid auth (OrderRow.student_id o) || is_admin auth db.

(** [from('orders').insert({...}).select().single()].  The store draws
    the id, stamps [created_at] and [updated_at] (its clock is taken to
    read what [Date.now()] reads) and leaves [completed_at] NULL (the
    column has no default). *)
Definition insert_order (auth : option Uuid) (now : N)
    (order_number : string) (student : Uuid) (status : string)
    (subtotal tax total : float) (pm : PaymentMethod) (payment_status : string)
    (fault : bool) (db : Db) : Result (OrderRow.row * Db) :=
  if fault then inr Fault
  else if negb (is_uid auth student) then inr PolicyViolation
  else if negb (status_ok status && payment_status_ok payment_status
                && nonneg subtotal && nonneg tax && nonneg total)
       then inr CheckViolation
  else if existsb (fun o => (OrderRow.order_number o =? order_number)%string)
                  (orders db)
       then inr UniqueViolation
  else
    let o := OrderRow.mk (next_uuid db) order_number student status
               subtotal tax total pm payment_status now now None in
    inl (o, mkDb (profiles db) (menu_items db) (cart_items db)
                 (orders db ++ [o]) (order_items db) (N.succ (next_uuid db))).

(** The store numbers the rows of one insert statement in order. *)
Fixpoint number_items (next : Uuid) (l : list NewOrderItem)
  : list OrderItemRow.row :=
  match l with
  | [] => []
  | x :: l' =>
      OrderItemRow.mk next (noi_order_id x) (noi_menu_item_id x)
        (noi_quantity x) (noi_price_at_order x) (noi_subtotal x)
      :: number_items (N.succ next) l'
  end.

(** Policy "Users can insert order items": the order of the row belongs
    to the session user. *)
Definition order_item_allowed (auth : option Uuid) (db : Db) (x : NewOrderItem) : bool :=
  existsb (fun o => (OrderRow.id o =? noi_order_id x)%N
                    && is_uid auth (OrderRow.student_id o))
          (orders db).

Definition order_item_checks (x : NewOrderItem) : bool :=
  (0 <? noi_quantity x)%Z && nonneg (noi_price_at_order x)
  && nonneg (noi_subtotal x).

(** [from('order_items').insert(rows)]: one statement, all rows or
    none. *)
Definition insert_order_items (auth : option Uuid) (rows : list NewOrderItem)
    (fault : bool) (db : Db) : Result Db :=
  if fault then inr Fault
  else if negb (forallb (fun x => int4_ok (noi_quantity x)) rows)
       then inr OutOfRange
  else if negb (forallb (order_item_allowed auth db) rows) then inr PolicyViolation
  else if negb (forallb order_item_checks rows) then inr CheckViolation
  else inl (mkDb (profiles db) (menu_items db) (cart_items db) (orders db)
              (order_items db ++ number_items (next_uuid db) rows)
              (next_uuid db + N.of_nat (List.length rows))%N).

Definition set_status (s : string) (now : N) (o : OrderRow.row) : OrderRow.row :=
  OrderRow.mk (OrderRow.id o) (OrderRow.order_number o) (OrderRow.student_id o)
    s (OrderRow.subtotal o) (OrderRow.tax o) (OrderRow.total o)
    (OrderRow.payment_method o) (OrderRow.payment_status o)
    (OrderRow.created_at o) now (OrderRow.completed_at o).

(** [from('orders').update({ status: newStatus }).eq('id', orderId)].
    Policy "Admins can update orders" hides every row from a session
    that is not an admin: the statement then writes nothing and reports
    no error.  The CHECK on [status] is evaluated on the rows written;
    the trigger [update_orders_updated_at] stamps [updated_at]. *)
Definition update_order_status (auth : option Uuid) (orderId : Uuid)
    (newStatus : string) (now : N) (fault : bool) (db : Db) : Result Db :=
  let hit o := is_admin auth db && (OrderRow.id o =? orderId)%N in
  if fault then inr Fault
  else if existsb hit (orders db) && negb (status_ok newStatus)
       then inr CheckViolation
  else inl (mkDb (profiles db) (menu_items db) (cart_items db)
              (map (fun o => if hit o then set_status newStatus now o else o)
                   (orders db))
              (order_items db) (next_uuid db)).

(** The embedded [order_items (quantity, price_at_order,
    menu_item:menu_items (name, is_vegetarian))] of one order. *)
Definition embed_order_items (auth : option Uuid) (db : Db) (o : OrderRow.row)
  : list Order.order_item_t :=
  map (fun it =>
         Order.mkItem (OrderItemRow.quantity it) (OrderItemRow.price_at_order it)
           (option_map (fun m => Order.mkMenuItem (MenuItem.name m)
                                   (MenuItem.is_vegetarian m))
              (find_menu_item auth (OrderItemRow.menu_item_id it) db)))
      (filter (fun it => (OrderItemRow.order_id it =? OrderRow.id o)%N)
              (order_items db)).

Definition order_view (auth : option Uuid) (db : Db) (o : OrderRow.row) : Order.t :=
  Order.mk (OrderRow.id o) (OrderRow.order_number o) (OrderRow.status o)
    (OrderRow.total o) (OrderRow.created_at o) (embed_order_items auth db o).

(** [.order('created_at', { ascending: false })] *)
Fixpoint insert_newest (o : Order.t) (l : list Order.t) : list Order.t :=
  match l with
  | [] => [o]
  | x :: l' =>
      if (Order.created_at x <? Order.created_at o)%N then o :: l
      else x :: insert_newest o l'
  end.

Definition newest_first (l : list Order.t) : list Order.t :=
  fold_right insert_newest [] l.

(** [from('orders').select(...).order('created_at', { ascending: false })],
    with [.eq('student_id', student)] when [only] names a student. *)
Definition select_orders (auth : option Uuid) (only : option Uuid)
    (fault : bool) (db : Db) : Result (list Order.t) :=
  if fault then inr Fault
  else inl (newest_first
              (map (order_view auth db)
                 (filter (fun o => order_visible auth db o
                                   && match only with
                                      | Some u => (OrderRow.student_id o =? u)%N
                                      | None => true
                                      end)
                         (orders db)))).

(** The catalog is edited through an admin path that is not part of the
    pages under study: a later state of the catalog is any other list of
    menu items. *)
Definition set_menu_items (db : Db) (ms : list MenuItem.row) : Db :=
  mkDb (profiles db) ms (cart_items db) (orders db) (order_items db)
       (next_uuid db).

End Pg.

(* ================================================================== *)
(** ** Cart.tsx *)

Module Cart.

Record state : Type := mkState
  { cartItems : list CartItem.t;
    loading : bool;
    paymentMethod : PaymentMethod }.

Record totals : Type := mkTotals
  { subtotal : float;
    tax : float;
    total : float }.

(** The three backend calls of [handleCheckout] that can fail. *)
Record checkout_faults : Type := mkFaults
  { orderError : bool;
    itemsError : bool;
    clearError : bool }.

Definition loadCart (user : option Uuid) (fault : bool) (st : state) (db : Db)
  : state * list Event :=
  match user with
  | None => (st, [])
  | Some uid =>
      match Pg.select_cart user uid fault db with
      | inr _ =>
          (mkState (cartItems st) false (paymentMethod st),
           [ToastError "Failed to load cart"])
      | inl data => (mkState data false (paymentMethod st), [])
      end
  end.

Definition updateQuantity (user : option Uuid) (now : N) (itemId : Uuid)
    (newQuantity : Z) (fault reload_fault : bool) (st : state) (db : Db)
  : state * Db * list Event :=
  if (newQuantity <? 1)%Z then (st, db, [])
  else
    match Pg.update_cart_quantity user itemId newQuantity now fault db with
    | inr _ => (st, db, [ToastError "Failed to update quantity"])
    | inl db' =>
        let (st', ev) := loadCart user reload_fault st db' in
        (st', db', ev)
    end.

Definition removeItem (user : option Uuid) (itemId : Uuid)
    (fault reload_fault : bool) (st : state) (db : Db)
  : state * Db * list Event :=
  match Pg.delete_cart_item user itemId fault db with
  | inr _ => (st, db, [ToastError "Failed to remove item"])
  | inl db' =>
      let (st', ev) := loadCart user reload_fault st db' in
      (st', db', ToastSuccess "Item removed from cart" :: ev)
  end.

(** [item.menu_item.price * item.quantity] *)
Definition line (item : CartItem.t) : float :=
  (CartItem.price (CartItem.menu_item item)
   * Js.of_int (CartItem.quantity item))%float.

Definition calculateTotal (cartItems : list CartItem.t) : totals :=
  let subtotal :=
    fold_left (fun sum item => (sum + line item)%float) cartItems 0%float in
  let tax := (subtotal * 0.05)%float in
  mkTotals subtotal tax (subtotal + tax)%float.

(** [`ORD-${Date.now().toString().slice(-6)}`] *)
Definition orderNumber (now : N) : string :=
  "ORD-" ++ Js.slice_last 6 (Js.toString now).

Definition orderItems (order : OrderRow.row) (cartItems : list CartItem.t)
  : list NewOrderItem :=
  map (fun item =>
         mkNewOrderItem (OrderRow.id order)
           (CartItem.mid (CartItem.menu_item item))
           (CartItem.quantity item)
           (CartItem.price (CartItem.menu_item item))
           (line item))
      cartItems.

Definition handleCheckout (user : option Uuid) (now : N)
    (net : checkout_faults) (st : state) (db : Db) : Db * list Event :=
  match user with
  | None => (db, [])
  | Some uid =>
      if (List.length (cartItems st) =? 0)%nat
      then (db, [ToastError "Your cart is empty"])
      else
        let t := calculateTotal (cartItems st) in
        match Pg.insert_order user now (orderNumber now) uid "pending"
                (subtotal t) (tax t) (total t) (paymentMethod st) "completed"
                (orderError net) db with
        | inr _ => (db, [ToastError "Failed to create order"])
        | inl (order, db1) =>
            match Pg.insert_order_items user (orderItems order (cartItems st))
                    (itemsError net) db1 with
            | inr _ => (db1, [ToastError "Failed to create order items"])
            | inl db2 =>
                match Pg.delete_cart_of user uid (clearError net) db2 with
                | inr _ =>
                    (db2, [ConsoleError "Failed to clear cart";
                           ToastSuccess "Order placed successfully!";
                           Navigate "/orders"])
                | inl db3 =>
                    (db3, [ToastSuccess "Order placed successfully!";
                           Navigate "/orders"])
                end
            end
        end
  end.

End Cart.

(* ================================================================== *)
(** ** Menu.tsx *)

Module Menu.

(** [handleAddToCart] awaits the store twice: it reads the entry of the
    pair, then writes.  Between the two the page yields, and another
    call can run.  [lookupExisting] is the first await ([existingItem] is
    [null] when the read gives no single row); [writeCart] is the rest of
    the handler, on the store as it is when the write arrives. *)
Definition lookupExisting (user : option Uuid) (uid : Uuid) (item : MenuItem.row)
    (lookup_fault : bool) (db : Db) : option CartRow.row :=
  match Pg.select_cart_single user uid (MenuItem.id item) lookup_fault db with
  | inl data => Some data
  | inr _ => None
  end.

Definition writeCart (user : option Uuid) (now : N) (uid : Uuid)
    (item : MenuItem.row) (existingItem : option CartRow.row)
    (write_fault : bool) (db : Db) : Db * list Event :=
  match existingItem with
  | Some existingItem =>
      match Pg.update_cart_quantity user (CartRow.id existingItem)
              (CartRow.quantity existingItem + 1)%Z now write_fault db with
      | inr _ => (db, [ToastError "Failed to update cart"])
      | inl db' => (db', [ToastSuccess "Added to cart!"])
      end
  | None =>
      match Pg.insert_cart_item user uid (MenuItem.id item) 1%Z now
              write_fault db with
      | inr _ => (db, [ToastError "Failed to add to cart"])
      | inl db' => (db', [ToastSuccess "Added to cart!"])
      end
  end.

(** A call that runs alone: the write arrives at the store that the read
    saw. *)
Definition handleAddToCart (isAuthenticated : bool) (user : option Uuid)
    (now : N) (item : MenuItem.row) (lookup_fault write_fault : bool) (db : Db)
  : Db * list Event :=
  if negb isAuthenticated
  then (db, [ToastError "Please sign in to add items to cart"; Navigate "/auth"])
  else
    match user with
    | None => (db, [])
    | Some uid =>
        writeCart user now uid item
          (lookupExisting user uid item lookup_fault db) write_fault db
    end.

End Menu.

(* ================================================================== *)
(** ** Orders.tsx *)

Module OrdersPage.

Record state : Type := mkState
  { orders : list Order.t;
    loading : bool;
    isAdmin : bool }.

Definition loadOrders (user : option Uuid) (isAdminUser : bool) (fault : bool)
    (st : state) (db : Db) : state * list Event :=
  match user with
  | None => (st, [])
  | Some uid =>
      match Pg.select_orders user (if isAdminUser then None else Some uid)
              fault db with
      | inr _ =>
          (mkState (orders st) false (isAdmin st),
           [ToastError "Failed to load orders"])
      | inl data => (mkState data false (isAdmin st), [])
      end
  end.

Definition updateOrderStatus (user : option Uuid) (now : N) (orderId : Uuid)
    (newStatus : string) (fault reload_fault : bool) (st : state) (db : Db)
  : state * Db * list Event :=
  match Pg.update_order_status user orderId newStatus now fault db with
  | inr _ => (st, db, [ToastError "Failed to update order status"])
  | inl db' =>
      let (st', ev) := loadOrders user (isAdmin st) reload_fault st db' in
      (st', db', ToastSuccess "Order status updated" :: ev)
  end.

(** The [newStatus] arguments of the buttons rendered under an order
    whose displayed status is [status] (Orders.tsx, lines 186-219). *)
Definition statusButtons (isAdmin : bool) (status : string) : list string :=
  if isAdmin && negb (status =? "completed") && negb (status =? "cancelled")
  then (if status =? "pending" then ["preparing"] else [])
       ++ (if status =? "preparing" then ["ready"] else [])
       ++ (if status =? "ready" then ["completed"] else [])
       ++ ["cancelled"]
  else [].

(** What an order line shows (line 181). *)
Definition lineTotal (item : Order.order_item_t) : float :=
  (Order.price_at_order item * Js.of_int (Order.quantity item))%float.

End OrdersPage.

(* ================================================================== *)
(** ** The specification's own vocabulary *)

Module Spec.

(** The legal-transition table of the fulfillment state machine. *)
Definition legal (from to : string) : bool :=
  if from =? "pending" then (to =? "preparing") || (to =? "cancelled")
  else if from =? "preparing" then (to =? "ready") || (to =? "cancelled")
  else if from =? "ready" then (to =? "completed") || (to =? "cancelled")
  else false.

End Spec.

(* ================================================================== *)
(** ** Observations on the store *)

(** The cart rows of one (student, menu item) pair, as the lookup of
    [handleAddToCart] sees them. *)
Definition pair_rows (uid item : Uuid) (db : Db) : list CartRow.row :=
  filter (fun r => Pg.cart_visible (Some uid) r
                   && (CartRow.student_id r =? uid)%N
                   && (CartRow.menu_item_id r =? item)%N)
         (cart_items db).

(** The order items of one order. *)
Definition items_of (oid : Uuid) (db : Db) : list OrderItemRow.row :=
  filter (fun it => (OrderItemRow.order_id it =? oid)%N) (order_items db).

(** Σ lineSubtotal over order items: the doubles are added from 0 in
    storage order, each sum rounded. *)
Definition sum_subtotals (l : list OrderItemRow.row) : float :=
  fold_left (fun sum it => (sum + OrderItemRow.subtotal it)%float) l 0%float.

(** Whether the amounts of an order, taken as the exact numbers that the
    doubles are, satisfy tax = subtotal × 5/100 and total = subtotal + tax
    ([None] when an amount is not finite). *)
Definition exact_identities (o : OrderRow.row) : option (bool * bool) :=
  match Js.exact (OrderRow.subtotal o), Js.exact (OrderRow.tax o),
        Js.exact (OrderRow.total o) with
  | Some subtotal, Some tax, Some total =>
      Some (Qeq_bool tax (subtotal * (5 # 100)),
            Qeq_bool total (subtotal + tax))
  | _, _, _ => None
  end.

(** CHECK (quantity > 0) on every cart row. *)
Definition cart_quantities_ok (db : Db) : Prop :=
  Forall (fun r => (1 <= CartRow.quantity r)%Z) (cart_items db).

(** No order item refers to an order id that the store has not drawn
    yet. *)
Definition order_ids_drawn (db : Db) : Prop :=
  Forall (fun it => (OrderItemRow.order_id it < next_uuid db)%N) (order_items db).

(** [p] is the price that the session reads for menu item [item] in the
    catalog of [db]. *)
Definition catalog_price (auth : option Uuid) (db : Db) (item : Uuid) (p : float)
  : Prop :=
  exists m, Pg.find_menu_item auth item db = Some m /\ p = MenuItem.price m.

(** The quantity column of an entry added [k] times: no row for zero,
    one row holding [k] otherwise. *)
Definition entry_after (k : nat) : list Z :=
  match k with
  | O => []
  | S _ => [Z.of_nat k]
  end.

(** A checkout or an add-to-cart call succeeded when it raised its success
    toast. *)
Definition succeeded (ev : list Event) : bool := existsb is_toast_success ev.

Definition reported_error (ev : list Event) : bool := existsb is_toast_error ev.

(** [handleAddToCart] called once per element of [calls] (the clock and
    the lookup and write faults of that call), one call after the other:
    each call has written before the next one reads.  The number counts
    the calls that succeeded. *)
Fixpoint addToCartTimes (calls : list (N * bool * bool)) (uid : Uuid)
    (item : MenuItem.row) (db : Db) : Db * nat :=
  match calls with
  | [] => (db, 0%nat)
  | (now, lookup_fault, write_fault) :: rest =>
      let (db1, ev) :=
        Menu.handleAddToCart true (Some uid) now item lookup_fault write_fault
          db in
      let (db2, k) := addToCartTimes rest uid item db1 in
      (db2, if succeeded ev then S k else k)
  end.

(** Two calls of [handleAddToCart] by a signed-in user that overlap: both
    have read the entry before either writes; the first write arrives at
    [now1], the second at [now2]. *)
Definition addToCartOverlapped (uid : Uuid) (now1 now2 : N)
    (item : MenuItem.row) (db : Db) : Db * list Event * list Event :=
  let existing1 := Menu.lookupExisting (Some uid) uid item false db in
  let existing2 := Menu.lookupExisting (Some uid) uid item false db in
  let (db1, ev1) := Menu.writeCart (Some uid) now1 uid item existing1 false db in
  let (db2, ev2) := Menu.writeCart (Some uid) now2 uid item existing2 false db1 in
  (db2, ev1, ev2).

(* ================================================================== *)
(** ** More of the backend: the reads of the other pages *)

Module PgRead.

(** [from('profiles').select(...).eq('id', id).single()].  Policy "Users
    can view all profiles" shows every row. *)
Definition select_profile (id : Uuid) (fault : bool) (db : Db)
  : Result Profile.row :=
  if fault then inr Fault
  else
    match filter (fun p => (Profile.id p =? id)%N) (profiles db) with
    | [p] => inl p
    | _ => inr NoSingleRow
    end.

(** [.order('category')]: ascending.  The CHECK on [category] leaves four
    values whose first letters differ, so every collation orders them as
    the byte-wise comparison does. *)
Fixpoint insert_by_category (m : MenuItem.row) (l : list MenuItem.row)
  : list MenuItem.row :=
  match l with
  | [] => [m]
  | x :: l' =>
      if String.leb (MenuItem.category m) (MenuItem.category x) then m :: l
      else x :: insert_by_category m l'
  end.

Definition by_category (l : list MenuItem.row) : list MenuItem.row :=
  fold_right insert_by_category [] l.

(** [from('menu_items').select('*').eq('is_available', true)
     .order('category')] *)
Definition select_available_menu (auth : option Uuid) (fault : bool) (db : Db)
  : Result (list MenuItem.row) :=
  if fault then inr Fault
  else inl (by_category
              (filter (fun m => Pg.menu_visible auth m
                                && Bool.eqb (MenuItem.is_available m) true)
                      (menu_items db))).



(** [from('cart_items').select('*').eq('student_id', student)] *)
Definition select_cart_rows (auth : option Uuid) (student : Uuid) (fault : bool)
    (db : Db) : Result (list CartRow.row) :=
  if fault then inr Fault
  else inl (filter (fun r => Pg.cart_visible auth r
                             && (CartRow.student_id r =? student)%N)
                   (cart_items db)).

Fixpoint insert_newest_row (o : OrderRow.row) (l : list OrderRow.row)
  : list OrderRow.row :=
  match l with
  | [] => [o]
  | x :: l' =>
      if (OrderRow.created_at x <? OrderRow.created_at o)%N then o :: l
      else x :: insert_newest_row o l'
  end.

Definition newest_rows_first (l : list OrderRow.row) : list OrderRow.row :=
  fold_right insert_newest_row [] l.

(** [from('orders').select('*').eq('student_id', student)
     .order('created_at', { ascending: false }).limit(n)] *)
Definition select_recent_orders (auth : option Uuid) (student : Uuid) (n : nat)
    (fault : bool) (db : Db) : Result (list OrderRow.row) :=
  if fault then inr Fault
  else inl (firstn n
              (newest_rows_first
                 (filter (fun o => Pg.order_visible auth db o
                                   && (OrderRow.student_id o =? student)%N)
                         (orders db)))).

End PgRead.

(* ================================================================== *)
(** ** lib/auth.ts *)

Module AuthLib.

(** [getCurrentProfile]: the profile row of the signed-in user, [null]
    when nobody is signed in or the read gives no single row. *)
Definition getCurrentProfile (user : option Uuid) (fault : bool) (db : Db)
  : option Profile.row :=
  match user with
  | None => None
  | Some uid =>
      match PgRead.select_profile uid fault db with
      | inl profile => Some profile
      | inr _ => None
      end
  end.

End AuthLib.

(* ================================================================== *)
(** ** JavaScript strings *)

Module JsString.

(** [s.includes(sub)] *)
Fixpoint includes (s sub : string) : bool :=
  String.prefix sub s
  || match s with
     | EmptyString => false
     | String _ s' => includes s' sub
     end.

(** [toLowerCase] on the letters A to Z; the other characters are kept. *)
Definition lower_ascii (c : ascii) : ascii :=
  let n := N_of_ascii c in
  if ((65 <=? n) && (n <=? 90))%N then ascii_of_N (n + 32) else c.

Fixpoint toLowerCaseAscii (s : string) : string :=
  match s with
  | EmptyString => EmptyString
  | String c s' => String (lower_ascii c) (toLowerCaseAscii s')
  end.

End JsString.

(* ================================================================== *)
(** ** Menu.tsx: the list of dishes *)

Module MenuList.

Record state : Type := mkState
  { menuItems : list MenuItem.row;
    filteredItems : list MenuItem.row;
    searchQuery : string;
    selectedCategory : string;
    loading : bool }.

Definition loadMenuItems (session : option Uuid) (fault : bool) (st : state)
    (db : Db) : state * list Event :=
  match PgRead.select_available_menu session fault db with
  | inr _ =>
      (mkState (menuItems st) (filteredItems st) (searchQuery st)
         (selectedCategory st) false,
       [ToastError "Failed to load menu"])
  | inl data =>
      (mkState data data (searchQuery st) (selectedCategory st) false, [])
  end.

Section Filter.

(** [String.prototype.toLowerCase], which depends on the Unicode tables of
    the engine. *)
Variable toLowerCase : string -> string.

(** The test of the search filter.  [interface MenuItem] types
    [description] as a string; the optional chaining of the source guards
    a [null] that this type leaves out. *)
Definition matches (searchQuery : string) (item : MenuItem.row) : bool :=
  JsString.includes (toLowerCase (MenuItem.name item)) (toLowerCase searchQuery)
  || JsString.includes (toLowerCase (MenuItem.description item))
       (toLowerCase searchQuery).

(** The list that [filterItems] hands to [setFilteredItems]. *)
Definition filterItems (menuItems : list MenuItem.row)
    (selectedCategory searchQuery : string) : list MenuItem.row :=
  let filtered := menuItems in
  let filtered :=
    if negb (selectedCategory =? "All")
    then filter (fun item => MenuItem.category item =? selectedCategory) filtered
    else filtered in
  let filtered :=
    if negb (searchQuery =? "")
    then filter (matches searchQuery) filtered
    else filtered in
  filtered.

End Filter.

End MenuList.

(* ================================================================== *)
(** ** The page mounts: who is signed in, and where to go *)

Module Mount.

(** [checkAuthAndLoadCart] of Cart.tsx. *)
Definition checkAuthAndLoadCart (session : option Uuid) (fault : bool)
    (st : Cart.state) (db : Db) : Cart.state * list Event :=
  match session with
  | None => (st, [Navigate "/auth"])
  | Some _ => Cart.loadCart session fault st db
  end.

(** [checkAuthAndLoadOrders] of Orders.tsx. *)
Definition checkAuthAndLoadOrders (session : option Uuid)
    (profile_fault fault : bool) (st : OrdersPage.state) (db : Db)
  : OrdersPage.state * list Event :=
  match session with
  | None => (st, [Navigate "/auth"])
  | Some _ =>
      let profile := AuthLib.getCurrentProfile session profile_fault db in
      let admin :=
        match profile with
        | Some p => Profile.role p =? "admin"
        | None => false
        end in
      OrdersPage.loadOrders session admin fault
        (OrdersPage.mkState (OrdersPage.orders st) (OrdersPage.loading st) admin)
        db
  end.

(** [checkSession] of Auth.tsx: where a visitor of the sign-in page is
    sent. *)
Definition checkSession (session : option Uuid) (fault : bool) (db : Db)
  : list Event :=
  match session with
  | None => []
  | Some uid =>
      match PgRead.select_profile uid fault db with
      | inl profile =>
          if Profile.role profile =? "admin" then [Navigate "/admin"]
          else [Navigate "/student"]
      | inr _ => [Navigate "/student"]
      end
  end.

(** [checkAuth] of StudentDashboard.tsx. *)
Definition studentCheckAuth (session : option Uuid) (fault : bool) (db : Db)
  : option Profile.row * list Event :=
  match session with
  | None => (None, [Navigate "/auth"])
  | Some _ =>
      match AuthLib.getCurrentProfile session fault db with
      | Some userProfile =>
          (Some userProfile,
           if negb (Profile.role userProfile =? "student")
           then [Navigate "/admin"] else [])
      | None => (None, [])
      end
  end.

(** [checkAuth] of the admin dashboard. *)
Definition adminCheckAuth (session : option Uuid) (fault : bool) (db : Db)
  : option Profile.row * list Event :=
  match session with
  | None => (None, [Navigate "/auth"])
  | Some _ =>
      match AuthLib.getCurrentProfile session fault db with
      | Some userProfile =>
          (Some userProfile,
           if negb (Profile.role userProfile =? "admin")
           then [Navigate "/student"] else [])
      | None => (None, [])
      end
  end.

End Mount.

(* ================================================================== *)
(** ** The dashboards *)

Module AdminDashboard.



End AdminDashboard.

Module StudentDashboard.

Record state : Type := mkState
  { cartCount : nat;
    recentOrders : list OrderRow.row;
    loading : bool }.

Definition loadDashboardData (user : option Uuid) (cart_fault orders_fault : bool)
    (st : state) (db : Db) : state :=
  match user with
  | None => st
  | Some uid =>
      let cartCount :=
        match PgRead.select_cart_rows user uid cart_fault db with
        | inl cartItems => List.length cartItems
        | inr _ => 0%nat
        end in
      let recentOrders :=
        match PgRead.select_recent_orders user uid 3 orders_fault db with
        | inl orders => orders
        | inr _ => []
        end in
      mkState cartCount recentOrders false
  end.

End StudentDashboard.

(* ================================================================== *)
(** ** More observations *)

(** [a] may stand before [b] in a list that is newest first. *)
Definition newer_view (a b : Order.t) : Prop :=
  (Order.created_at b <= Order.created_at a)%N.

Definition newer_row (a b : OrderRow.row) : Prop :=
  (OrderRow.created_at b <= OrderRow.created_at a)%N.

(** The orders that a session may read. *)
Definition visible_orders (auth : option Uuid) (db : Db) : list OrderRow.row :=
  filter (Pg.order_visible auth db) (orders db).

(** CHECK (status IN (...)) on every order. *)
Definition statuses_ok (db : Db) : Prop :=
  Forall (fun o => Pg.status_ok (OrderRow.status o) = true) (orders db).

(** What [updateOrderStatus] must not touch in an order. *)
Definition order_core (o : OrderRow.row)
  : Uuid * string * Uuid * (float * float * float) * PaymentMethod * string
    * N * option N :=
  (OrderRow.id o, OrderRow.order_number o, OrderRow.student_id o,
   (OrderRow.subtotal o, OrderRow.tax o, OrderRow.total o),
   OrderRow.payment_method o, OrderRow.payment_status o,
   OrderRow.created_at o, OrderRow.completed_at o).

(** The status that the Orders page displays for the order [orderId],
    when it lists that order. *)
Definition shownStatus (orderId : Uuid) (st : OrdersPage.state) : option string :=
  option_map Order.status
    (find (fun v => (Order.id v =? orderId)%N) (OrdersPage.orders st)).

(** A run of status buttons pressed under the order [orderId], each at
    its time, on a backend that answers: a press needs its button, that
    is, the page lists the order and offers the new status for the status
    it displays; the press runs [updateOrderStatus], whose reload gives
    the page of the next press.  [None] when some press finds no such
    button. *)
Fixpoint pressAll (user : option Uuid) (orderId : Uuid)
    (presses : list (N * string)) (st : OrdersPage.state) (db : Db)
  : option (OrdersPage.state * Db) :=
  match presses with
  | [] => Some (st, db)
  | (now, newStatus) :: rest =>
      match shownStatus orderId st with
      | Some status =>
          if existsb (String.eqb newStatus)
               (OrdersPage.statusButtons (OrdersPage.isAdmin st) status)
          then
            let r := OrdersPage.updateOrderStatus user now orderId newStatus
                       false false st db in
            pressAll user orderId rest (fst (fst r)) (snd (fst r))
          else None
      | None => None
      end
  end.

(** The cart table without its time stamps. *)
Definition cart_core (r : CartRow.row) : Uuid * Uuid * Uuid * Z * N :=
  (CartRow.id r, CartRow.student_id r, CartRow.menu_item_id r,
   CartRow.quantity r, CartRow.created_at r).

(** [sub] occurs in [s]. *)
Definition contains (s sub : string) : Prop :=
  exists before after : string, s = (before ++ sub ++ after)%string.

(** [a] may stand before [b] in a list ordered by category. *)
Definition category_le (a b : MenuItem.row) : Prop :=
  String.leb (MenuItem.category a) (MenuItem.category b) = true.

(** UNIQUE (student_id, menu_item_id) on the cart. *)
Definition cart_pairs_unique (db : Db) : Prop :=
  NoDup (map (fun r => (CartRow.student_id r, CartRow.menu_item_id r))
             (cart_items db)).

(** PRIMARY KEY (id) on the cart. *)
Definition cart_ids_unique (db : Db) : Prop :=
  NoDup (map CartRow.id (cart_items db)).

(* ================================================================== *)
(** ** A concrete campus: one student, one admin, two dishes *)

Module Scenario.

Definition student : Uuid := 1.
Definition admin : Uuid := 2.

Definition biryani : MenuItem.row :=
  MenuItem.mk 10 "Chicken Biryani" "Aromatic basmati rice" 100
    "Main Course" false "biryani.jpg" true.
Definition pizza : MenuItem.row :=
  MenuItem.mk 11 "Pizza Margherita" "Classic Italian pizza" 150
    "Fast Food" true "pizza.jpg" true.
Definition thali : MenuItem.row :=
  MenuItem.mk 12 "Thali Special" "Complete Indian meal" 101
    "Main Course" true "thali.jpg" true.

Definition empty_db : Db :=
  mkDb [Profile.mk student "student"; Profile.mk admin "admin"]
       [biryani; pizza] [] [] [] 100.

(** Clock readings, in milliseconds. *)
Definition morning : N := 1700000000000.
Definition noon : N := 1700000123456.

Definition add (now : N) (item : MenuItem.row) (db : Db) : Db :=
  fst (Menu.handleAddToCart true (Some student) now item false false db).

(** One biryani in the student's cart. *)
Definition db_one : Db := add morning biryani empty_db.

(** Two biryanis and one pizza in the student's cart. *)
Definition db_cart : Db :=
  add (morning + 2000) pizza (add (morning + 1000) biryani db_one).

Definition page : Cart.state :=
  fst (Cart.loadCart (Some student) false (Cart.mkState [] true upi) db_cart).

Definition no_faults : Cart.checkout_faults := Cart.mkFaults false false false.

Definition clear_down : Cart.checkout_faults := Cart.mkFaults false false true.

(** The store after the student's checkout went through. *)
Definition db_ordered : Db :=
  fst (Cart.handleCheckout (Some student) noon no_faults page db_cart).

(** The store after a checkout that went through but could not clear
    the cart: the order is placed, the cart rows are still there. *)
Definition db_uncleared : Db :=
  fst (Cart.handleCheckout (Some student) noon clear_down page db_cart).

Definition orders_page : OrdersPage.state :=
  fst (OrdersPage.loadOrders (Some admin) true false
         (OrdersPage.mkState [] true true) db_ordered).

(** The admin presses a status button under order 102. *)
Definition press (now : N) (newStatus : string) (db : Db) : Db :=
  snd (fst (OrdersPage.updateOrderStatus (Some admin) now 102 newStatus
              false false orders_page db)).

Definition db_ready : Db :=
  press (noon + 900000) "ready" (press (noon + 60000) "preparing" db_ordered).


(** A second checkout, 1000 seconds after the one that left the cart
    uncleared. *)
Definition later : N := noon + 1000000.

Definition checkout_again : Db * list Event :=
  Cart.handleCheckout (Some student) later no_faults page db_uncleared.

(** The admin presses "Mark as Completed" under the ready order 102. *)
Definition completion_time : N := noon + 1800000.

Definition mark_completed : OrdersPage.state * Db * list Event :=
  OrdersPage.updateOrderStatus (Some admin) completion_time 102 "completed"
    false false orders_page db_ready.

Definition db_completed : Db := snd (fst mark_completed).

(** A second admin has kept the Orders page open since the order was
    placed: it still displays order 102 as pending, and offers "Cancel
    Order" under it.  The admin presses it after the order has been
    completed. *)
Definition stale_cancel : OrdersPage.state * Db * list Event :=
  OrdersPage.updateOrderStatus (Some admin) (completion_time + 60000) 102
    "cancelled" false false orders_page db_completed.

(** The student has kept a second Cart page open since before the order
    was placed: it still holds the two entries.  A minute after the
    checkout emptied the cart in the store, the student presses "Place
    Order" there. *)
Definition stale_checkout : Db * list Event :=
  Cart.handleCheckout (Some student) (noon + 60000) no_faults page db_ordered.

(** The biryani gets dearer after the Cart page has loaded the cart and
    before the student places the order. *)
Definition db_dearer : Db :=
  Pg.set_menu_items db_cart
    [MenuItem.mk 10 "Chicken Biryani" "Aromatic basmati rice" 120
       "Main Course" false "biryani.jpg" true;
     pizza].

Definition checkout_dearer : Db * list Event :=
  Cart.handleCheckout (Some student) noon no_faults page db_dearer.

(** The student presses "minus" on the single pizza (cart row 101). *)
Definition minus_on_pizza : Cart.state * Db * list Event :=
  Cart.updateQuantity (Some student) noon 101 (1 - 1) false false page db_cart.

(** A cart with one thali, at 101. *)
Definition db_thali : Db :=
  add morning thali (Pg.set_menu_items empty_db [biryani; pizza; thali]).

Definition page_thali : Cart.state :=
  fst (Cart.loadCart (Some student) false (Cart.mkState [] true upi) db_thali).

Definition checkout_thali : Db * list Event :=
  Cart.handleCheckout (Some student) noon no_faults page_thali db_thali.

(** With one biryani in the cart, the student presses "Add to Cart" on
    the biryani twice in a row: the second call reads the cart before
    the first one has written. *)
Definition add_twice_quickly : Db * list Event * list Event :=
  addToCartOverlapped student (morning + 1000) (morning + 1001) biryani db_one.

(** "Place Order" pressed when the session has gone. *)
Definition checkout_signed_out : Db * list Event :=
  Cart.handleCheckout None noon no_faults page db_cart.

End Scenario.

(* ================================================================== *)
(** * Properties *)

(* ------------------------------------------------------------------ *)
(** ** IEEE doubles: signs and overflow *)

Section Doubles.

(** The sign and the class of a double, read on its specification. *)
Let sf_nonneg (x : spec_float) : bool :=
  match x with
  | S754_zero _ => true
  | S754_infinity s | S754_finite s _ _ => negb s
  | S754_nan => false
  end.

Let sf_finite (x : spec_float) : bool :=
  match x with
  | S754_zero _ | S754_finite _ _ _ => true
  | S754_infinity _ | S754_nan => false
  end.

Lemma leb0_spec : forall x, (0 <=? x)%float = sf_nonneg (Prim2SF x).
Proof.
  intros x. rewrite leb_spec. change (Prim2SF 0) with (S754_zero false).
  destruct (Prim2SF x) as [s|s| |s m e]; try destruct s; reflexivity.
Qed.

Lemma isFinite_spec : forall x, Js.isFinite x = sf_finite (Prim2SF x).
Proof.
  intros x. unfold Js.isFinite. rewrite !ltb_spec.
  change (Prim2SF neg_infinity) with (S754_infinity true).
  change (Prim2SF infinity) with (S754_infinity false).
  destruct (Prim2SF x) as [s|s| |s m e]; try destruct s; reflexivity.
Qed.

Lemma iter_shr_nonneg :
  forall p mrs, (0 <= shr_m mrs)%Z -> (0 <= shr_m (iter_pos shr_1 p mrs))%Z.
Proof.
  assert (H1 : forall mrs, (0 <= shr_m mrs)%Z -> (0 <= shr_m (shr_1 mrs))%Z).
  { intros [m r s] H. cbn in *. destruct m as [|[p|p|]|p]; cbn; lia. }
  induction p as [p IH|p IH|]; intros mrs H; cbn [iter_pos]; auto.
Qed.

Lemma shr_fexp_nonneg :
  forall m e l, (0 <= m)%Z -> (0 <= shr_m (fst (shr_fexp prec emax m e l)))%Z.
Proof.
  intros m e l H. unfold shr_fexp, shr.
  assert (H0 : (0 <= shr_m (shr_record_of_loc m l))%Z)
    by (destruct l as [|[| |]]; exact H).
  destruct (fexp prec emax (Zdigits2 m + e) - e)%Z; cbn [fst]; auto.
  apply iter_shr_nonneg, H0.
Qed.

Lemma binary_round_aux_nonneg :
  forall m e l, (0 <= m)%Z ->
    sf_nonneg (binary_round_aux prec emax false m e l) = true.
Proof.
  intros m e l H. unfold binary_round_aux.
  pose proof (shr_fexp_nonneg m e l H) as H1.
  destruct (shr_fexp prec emax m e l) as [mrs' e']. cbn [fst] in H1.
  assert (H1' : (0 <= round_nearest_even (shr_m mrs') (loc_of_shr_record mrs'))%Z).
  { unfold round_nearest_even.
    destruct (loc_of_shr_record mrs') as [|[| |]];
      try destruct (Z.even (shr_m mrs')); lia. }
  pose proof (shr_fexp_nonneg _ e' loc_Exact H1') as H2.
  destruct (shr_fexp prec emax _ e' loc_Exact) as [mrs'' e'']. cbn [fst] in H2.
  destruct (shr_m mrs'') as [|p|p]; [reflexivity| |lia].
  destruct (e'' <=? emax - prec)%Z; reflexivity.
Qed.

Lemma add_sign :
  forall a b, sf_nonneg a = true -> sf_nonneg b = true ->
    sf_nonneg (SF64add a b) = true.
Proof.
  intros a b. unfold SF64add.
  destruct a as [sa|sa| |sa ma ea], b as [sb|sb| |sb mb eb];
    cbn [sf_nonneg SFadd]; try discriminate;
    try (destruct sa; try discriminate); try (destruct sb; try discriminate);
    try reflexivity.
  intros _ _. cbn [cond_Zopp].
  destruct (shl_align ma ea (Z.min ea eb)) as [m1 e1].
  destruct (shl_align mb eb (Z.min ea eb)) as [m2 e2].
  cbn [fst Z.add binary_normalize]. unfold binary_round.
  destruct (shl_align _ _ _) as [mz ez]. apply binary_round_aux_nonneg. lia.
Qed.

Lemma add_nonneg :
  forall a b, (0 <=? a)%float = true -> (0 <=? b)%float = true ->
    (0 <=? a + b)%float = true.
Proof.
  intros a b. rewrite !leb0_spec, add_spec. apply add_sign.
Qed.

(** A sum of numbers that are not negative is finite only when both
    are. *)
Lemma add_finite_inv :
  forall a b, (0 <=? a)%float = true -> (0 <=? b)%float = true ->
    Js.isFinite (a + b) = true ->
    Js.isFinite a = true /\ Js.isFinite b = true.
Proof.
  intros a b. rewrite !leb0_spec, !isFinite_spec, add_spec. unfold SF64add.
  destruct (Prim2SF a) as [sa|sa| |sa ma ea], (Prim2SF b) as [sb|sb| |sb mb eb];
    cbn [sf_nonneg sf_finite SFadd]; try discriminate;
    try (destruct sa; try discriminate); try (destruct sb; try discriminate);
    cbn [sf_finite]; try discriminate; split; reflexivity.
Qed.

(** *** Integers as doubles *)

Lemma digits2_bounds :
  forall q, (2 ^ (Zpos (digits2_pos q) - 1) <= Zpos q < 2 ^ Zpos (digits2_pos q))%Z.
Proof.
  induction q as [q IH|q IH|]; cbn [digits2_pos].
  - rewrite Pos2Z.inj_succ. replace (Z.succ (Zpos (digits2_pos q)) - 1)%Z
      with (Z.succ (Zpos (digits2_pos q) - 1))%Z by lia.
    rewrite !Z.pow_succ_r by lia. lia.
  - rewrite Pos2Z.inj_succ. replace (Z.succ (Zpos (digits2_pos q)) - 1)%Z
      with (Z.succ (Zpos (digits2_pos q) - 1))%Z by lia.
    rewrite !Z.pow_succ_r by lia. lia.
  - cbn. lia.
Qed.

Lemma digits2_iter :
  forall k q, digits2_pos (Pos.iter xO q k) = (digits2_pos q + k)%positive.
Proof.
  induction k as [|k IH] using Pos.peano_ind; intros q.
  - cbn. lia.
  - rewrite Pos.iter_succ. cbn [digits2_pos]. rewrite IH. lia.
Qed.

Lemma digits2_small :
  forall q, (Zpos q < 2 ^ 53)%Z -> (Zpos (digits2_pos q) <= 53)%Z.
Proof.
  intros q Hq. destruct (digits2_bounds q) as [Hlo _].
  destruct (Z.le_gt_cases (Zpos (digits2_pos q)) 53) as [H|H]; [exact H|].
  exfalso. assert (2 ^ 53 <= 2 ^ (Zpos (digits2_pos q) - 1))%Z
    by (apply Z.pow_le_mono_r; lia). lia.
Qed.

(** A mantissa of 53 digits with an exponent from -52 to 0 is a double
    as it stands. *)
Lemma binary_round_aux_exact :
  forall s mz ez,
    Zpos (digits2_pos mz) = 53%Z -> (-52 <= ez <= 0)%Z ->
    binary_round_aux prec emax s (Zpos mz) ez loc_Exact = S754_finite s mz ez.
Proof.
  intros s mz ez Hd He. unfold binary_round_aux, shr_fexp.
  cbn [Zdigits2 shr_record_of_loc]. rewrite Hd.
  assert (Hf : (fexp prec emax (53 + ez) - ez = 0)%Z).
  { unfold fexp, SpecFloat.emin, prec, emax. lia. }
  rewrite Hf. cbn [shr shr_m loc_of_shr_record round_nearest_even Zdigits2
                     shr_record_of_loc].
  rewrite Hd, Hf. cbn [shr shr_m].
  assert (Hle : (ez <=? emax - prec)%Z = true)
    by (apply Z.leb_le; unfold emax, prec; lia).
  rewrite Hle. reflexivity.
Qed.

Lemma binary_round_small :
  forall s q, (Zpos q < 2 ^ 53)%Z ->
    exists mz ez,
      binary_round prec emax s q 0 = S754_finite s mz ez
      /\ Zpos (digits2_pos mz) = 53%Z /\ (-52 <= ez <= 0)%Z.
Proof.
  intros s q Hq. pose proof (digits2_small q Hq) as Hd.
  assert (Hd1 : (1 <= Zpos (digits2_pos q))%Z) by lia.
  unfold binary_round.
  assert (Hf : fexp prec emax (Zpos (digits2_pos q) + 0)
               = (Zpos (digits2_pos q) - 53)%Z).
  { unfold fexp, SpecFloat.emin, prec, emax. lia. }
  rewrite Hf. unfold shl_align. rewrite Z.sub_0_r.
  destruct (Zpos (digits2_pos q) - 53)%Z as [|k|k] eqn:Hk; [|lia|].
  - exists q, 0%Z. rewrite binary_round_aux_exact by lia.
    repeat split; lia.
  - exists (Pos.iter xO q k), (Zneg k).
    assert (Hd' : Zpos (digits2_pos (Pos.iter xO q k)) = 53%Z)
      by (rewrite digits2_iter; lia).
    rewrite binary_round_aux_exact by lia. repeat split; lia.
Qed.

Lemma of_int_pos :
  forall z, (1 <= z < 2 ^ 53)%Z ->
    exists m e, Prim2SF (Js.of_int z) = S754_finite false m e.
Proof.
  intros z Hz. destruct z as [|q|q]; try lia. unfold Js.of_int.
  cbn [binary_normalize].
  destruct (binary_round_small false q) as (mz & ez & Hr & Hd & He); [lia|].
  rewrite Hr. exists mz, ez. apply Prim2SF_SF2Prim.
  cbn [valid_binary]. unfold bounded, canonical_mantissa. rewrite Hd.
  apply andb_true_iff. split.
  - apply Z.eqb_eq. unfold fexp, SpecFloat.emin, prec, emax. lia.
  - apply Z.leb_le. unfold emax, prec. lia.
Qed.

Lemma mul_sign :
  forall a m e, sf_nonneg a = true ->
    sf_nonneg (SF64mul a (S754_finite false m e)) = true.
Proof.
  intros a m e. unfold SF64mul.
  destruct a as [sa|sa| |sa ma ea]; cbn [sf_nonneg SFmul]; try discriminate;
    try (destruct sa; try discriminate); try reflexivity.
  intros _. cbn [xorb]. apply binary_round_aux_nonneg. lia.
Qed.

(** A price that is not negative times a quantity from 1 to 2^53 - 1. *)
Lemma mul_of_int_nonneg :
  forall p q, (0 <=? p)%float = true -> (1 <= q < 2 ^ 53)%Z ->
    (0 <=? p * Js.of_int q)%float = true.
Proof.
  intros p q Hp Hq. rewrite leb0_spec in *. rewrite mul_spec.
  destruct (of_int_pos q Hq) as (m & e & ->). apply mul_sign, Hp.
Qed.

(** A finite price that is not negative times a quantity from 0 to
    2^53 - 1. *)
Lemma mul_of_int_nonneg0 :
  forall p q, Pg.nonneg p = true -> (0 <= q < 2 ^ 53)%Z ->
    (0 <=? p * Js.of_int q)%float = true.
Proof.
  intros p q Hp Hq. unfold Pg.nonneg in Hp. apply andb_true_iff in Hp.
  destruct Hp as [Hfin Hp].
  destruct (Z.eq_dec q 0) as [->|Hpos];
    [|apply mul_of_int_nonneg; [exact Hp | lia]].
  rewrite isFinite_spec in Hfin. rewrite leb0_spec in *. rewrite mul_spec.
  change (Prim2SF (Js.of_int 0)) with (S754_zero false). unfold SF64mul.
  destruct (Prim2SF p) as [sa|sa| |sa ma ea]; cbn [sf_finite sf_nonneg SFmul] in *;
    try discriminate; reflexivity.
Qed.

Lemma mul_of_int_finite_inv :
  forall p q, (1 <= q < 2 ^ 53)%Z ->
    Js.isFinite (p * Js.of_int q) = true -> Js.isFinite p = true.
Proof.
  intros p q Hq. rewrite !isFinite_spec, mul_spec.
  destruct (of_int_pos q Hq) as (m & e & ->). unfold SF64mul.
  destruct (Prim2SF p) as [sa|sa| |sa ma ea]; cbn [sf_finite SFmul];
    try discriminate; reflexivity.
Qed.

Lemma mul_rate_nonneg :
  forall s, (0 <=? s)%float = true -> (0 <=? s * 0.05)%float = true.
Proof.
  intros s Hs. rewrite leb0_spec in *. rewrite mul_spec.
  assert (Hrate : exists m e, Prim2SF 0.05 = S754_finite false m e)
    by (eexists; eexists; vm_compute; reflexivity).
  destruct Hrate as (m & e & ->). apply mul_sign, Hs.
Qed.

Lemma nonneg_spec :
  forall x, Pg.nonneg x = true
            <-> Js.isFinite x = true /\ (0 <=? x)%float = true.
Proof. intros x. unfold Pg.nonneg. apply andb_true_iff. Qed.


(** *** Rounding never takes a sum below its first term *)

Lemma shr_1_m :
  forall mrs, (0 <= shr_m mrs)%Z -> shr_m (shr_1 mrs) = (shr_m mrs / 2)%Z.
Proof.
  intros [m r s] H. cbn [shr_m] in *. unfold shr_1.
  destruct m as [|[p|p|]|p]; cbn [shr_m]; try lia; try reflexivity.
  - apply Z.div_unique with (r := 1%Z); lia.
  - apply Z.div_unique with (r := 0%Z); lia.
Qed.

Lemma iter_shr_m :
  forall p mrs, (0 <= shr_m mrs)%Z ->
    shr_m (iter_pos shr_1 p mrs) = (shr_m mrs / 2 ^ Zpos p)%Z.
Proof.
  induction p as [p IH|p IH|]; intros mrs H; cbn [iter_pos].
  - assert (Hp : (0 < 2 ^ Zpos p)%Z) by (apply Z.pow_pos_nonneg; lia).
    assert (H1 : (0 <= shr_m (shr_1 mrs))%Z)
      by (rewrite shr_1_m by exact H; apply Z.div_pos; lia).
    rewrite IH by (apply iter_shr_nonneg, H1).
    rewrite IH by exact H1. rewrite shr_1_m by exact H.
    rewrite !Z.div_div by lia.
    f_equal. rewrite (Pos2Z.inj_xI p).
    replace (2 * Zpos p + 1)%Z with (Z.succ (Zpos p + Zpos p)) by lia.
    rewrite Z.pow_succ_r, Z.pow_add_r by lia. reflexivity.
  - assert (Hp : (0 < 2 ^ Zpos p)%Z) by (apply Z.pow_pos_nonneg; lia).
    rewrite IH by (apply iter_shr_nonneg, H).
    rewrite IH by exact H.
    rewrite !Z.div_div by lia.
    f_equal. rewrite (Pos2Z.inj_xO p).
    replace (2 * Zpos p)%Z with (Zpos p + Zpos p)%Z by lia.
    rewrite Z.pow_add_r by lia. reflexivity.
  - rewrite shr_1_m by exact H. reflexivity.
Qed.

Lemma digits2_unique :
  forall q k, (2 ^ (k - 1) <= Zpos q < 2 ^ k)%Z -> (1 <= k)%Z ->
    Zpos (digits2_pos q) = k.
Proof.
  intros q k [Hlo Hhi] Hk. destruct (digits2_bounds q) as [Dlo Dhi].
  destruct (Z.lt_trichotomy (Zpos (digits2_pos q)) k) as [H|[H|H]]; [|exact H|].
  - exfalso. assert (2 ^ Zpos (digits2_pos q) <= 2 ^ (k - 1))%Z
      by (apply Z.pow_le_mono_r; lia). lia.
  - exfalso. assert (2 ^ k <= 2 ^ (Zpos (digits2_pos q) - 1))%Z
      by (apply Z.pow_le_mono_r; lia). lia.
Qed.

Lemma iter_xO :
  forall k m, Zpos (Pos.iter xO m k) = (Zpos m * 2 ^ Zpos k)%Z.
Proof.
  induction k as [|k IH] using Pos.peano_ind; intros m.
  - cbn. lia.
  - rewrite Pos.iter_succ, (Pos2Z.inj_xO (Pos.iter xO m k)), IH, Pos2Z.inj_succ,
      Z.pow_succ_r by lia.
    lia.
Qed.


Lemma canonical_inv :
  forall m e, canonical_mantissa prec emax m e = true ->
    (-1074 <= e)%Z /\ (Zpos (digits2_pos m) <= 53)%Z
    /\ ((-1074 < e)%Z -> Zpos (digits2_pos m) = 53%Z).
Proof.
  intros m e H. unfold canonical_mantissa in H. apply Z.eqb_eq in H.
  unfold fexp, SpecFloat.emin, prec, emax in H. lia.
Qed.

Lemma mantissa_bounds :
  forall m e, canonical_mantissa prec emax m e = true ->
    (Zpos m < 2 ^ 53)%Z /\ ((-1074 < e)%Z -> (2 ^ 52 <= Zpos m)%Z).
Proof.
  intros m e H. destruct (canonical_inv m e H) as (_ & Hd & Hn).
  destruct (digits2_bounds m) as [Hlo Hhi]. split.
  - assert (2 ^ Zpos (digits2_pos m) <= 2 ^ 53)%Z
      by (apply Z.pow_le_mono_r; lia). lia.
  - intros He. rewrite (Hn He) in Hlo. exact Hlo.
Qed.

(** Doubles written in canonical form compare as their values do. *)
Lemma compare_canonical :
  forall m1 e1 m2 e2,
    canonical_mantissa prec emax m1 e1 = true ->
    canonical_mantissa prec emax m2 e2 = true ->
    (Zpos m1 * 2 ^ (e1 + 1074) <= Zpos m2 * 2 ^ (e2 + 1074))%Z ->
    SFleb (S754_finite false m1 e1) (S754_finite false m2 e2) = true.
Proof.
  intros m1 e1 m2 e2 H1 H2 Hle. unfold SFleb, SFcompare.
  destruct (canonical_inv m1 e1 H1) as (He1 & _).
  destruct (canonical_inv m2 e2 H2) as (He2 & _).
  destruct (Z.compare_spec e1 e2) as [Heq|Hlt|Hgt]; [|reflexivity|].
  - subst e2. change (Pos.compare_cont Eq m1 m2) with (Pos.compare m1 m2).
    destruct (Pos.compare_spec m1 m2) as [E|L|G]; try reflexivity.
    exfalso. assert (0 < 2 ^ (e1 + 1074))%Z by (apply Z.pow_pos_nonneg; lia).
    nia.
  - exfalso.
    destruct (mantissa_bounds m1 e1 H1) as (_ & Hbig).
    destruct (mantissa_bounds m2 e2 H2) as (Hsmall & _).
    specialize (Hbig ltac:(lia)).
    assert (HP : (0 < 2 ^ (e2 + 1074))%Z) by (apply Z.pow_pos_nonneg; lia).
    assert (HX : (2 * 2 ^ (e2 + 1074) <= 2 ^ (e1 + 1074))%Z).
    { rewrite <- Z.pow_succ_r by lia. apply Z.pow_le_mono_r; lia. }
    change (2 ^ 53)%Z with (2 * 2 ^ 52)%Z in Hsmall.
    nia.
Qed.

Lemma round_nearest_even_bounds :
  forall m l, (m <= round_nearest_even m l <= m + 1)%Z.
Proof.
  intros m l. unfold round_nearest_even.
  destruct l as [|[| |]]; try destruct (Z.even m); lia.
Qed.

(** What [binary_round_aux] gives for an exact positive mantissa: an
    infinity, or a double that is at least the mantissa cut to the
    precision. *)
Lemma binary_round_aux_lower :
  forall m e, (-1074 <= e)%Z ->
    let n := Z.max 0 (fexp prec emax (Zpos (digits2_pos m) + e) - e) in
    binary_round_aux prec emax false (Zpos m) e loc_Exact = S754_infinity false
    \/ exists mr er,
         binary_round_aux prec emax false (Zpos m) e loc_Exact
         = S754_finite false mr er
         /\ (Zpos m / 2 ^ n * 2 ^ (e + n + 1074) <= Zpos mr * 2 ^ (er + 1074))%Z.
Proof.
  intros m e He n. unfold binary_round_aux, shr_fexp.
  cbn [Zdigits2 shr_record_of_loc]. subst n.
  destruct (digits2_bounds m) as [Dlo Dhi].
  set (d := Zpos (digits2_pos m)) in *.
  destruct (fexp prec emax (d + e) - e)%Z as [|p|p] eqn:Hn.
  - (* no shift *)
    cbn [shr shr_m loc_of_shr_record round_nearest_even Zdigits2
           shr_record_of_loc]. fold d. rewrite Hn. cbn [shr shr_m].
    destruct (e <=? emax - prec)%Z; [right|left; reflexivity].
    exists m, e. split; [reflexivity|].
    change (Z.max 0 0) with 0%Z. rewrite Z.pow_0_r, Z.div_1_r, Z.add_0_r. lia.
  - (* a shift to the right by [p] digits *)
    assert (Hp : Zpos p = (d - 53)%Z).
    { unfold fexp, SpecFloat.emin, prec, emax in Hn. lia. }
    cbn [shr].
    set (mrs := iter_pos shr_1 p _).
    assert (Hm' : shr_m mrs = (Zpos m / 2 ^ Zpos p)%Z)
      by (subst mrs; rewrite iter_shr_m; cbn [shr_m]; [reflexivity | lia]).
    assert (H2p : (0 < 2 ^ Zpos p)%Z) by (apply Z.pow_pos_nonneg; lia).
    assert (Hsplit : (2 ^ d = 2 ^ Zpos p * 2 ^ 53)%Z).
    { rewrite <- Z.pow_add_r by lia. f_equal. lia. }
    assert (Hsplit' : (2 ^ (d - 1) = 2 ^ Zpos p * 2 ^ 52)%Z).
    { rewrite <- Z.pow_add_r by lia. f_equal. lia. }
    assert (Hlo : (2 ^ 52 <= shr_m mrs)%Z).
    { rewrite Hm'. apply Z.div_le_lower_bound; lia. }
    assert (Hhi : (shr_m mrs < 2 ^ 53)%Z).
    { rewrite Hm'. apply Z.div_lt_upper_bound; lia. }
    pose proof (round_nearest_even_bounds (shr_m mrs) (loc_of_shr_record mrs))
      as Hr.
    set (m1 := round_nearest_even (shr_m mrs) (loc_of_shr_record mrs)) in *.
    replace (Z.max 0 (Zpos p)) with (Zpos p) by lia.
    rewrite <- Hm'.
    destruct m1 as [|q1|q1] eqn:Hm1; try lia.
    cbn [Zdigits2 shr_record_of_loc].
    destruct (Z_lt_le_dec (Zpos q1) (2 ^ 53)) as [Hsmall|Hbig].
    + (* still 53 digits *)
      assert (Hd1 : Zpos (digits2_pos q1) = 53%Z)
        by (apply digits2_unique; [change (53 - 1)%Z with 52%Z|]; lia).
      rewrite Hd1.
      assert (Hn2 : (fexp prec emax (53 + (e + Zpos p)) - (e + Zpos p) = 0)%Z).
      { unfold fexp, SpecFloat.emin, prec, emax. lia. }
      rewrite Hn2. cbn [shr shr_m].
      destruct (e + Zpos p <=? emax - prec)%Z; [right|left; reflexivity].
      exists q1, (e + Zpos p)%Z. split; [reflexivity|].
      assert (0 < 2 ^ (e + Zpos p + 1074))%Z by (apply Z.pow_pos_nonneg; lia).
      nia.
    + (* the mantissa was rounded up to 2^53 *)
      assert (Hq1 : Zpos q1 = (2 ^ 53)%Z) by lia.
      assert (Hd1 : Zpos (digits2_pos q1) = 54%Z).
      { apply digits2_unique; [|lia]. rewrite Hq1.
        change (54 - 1)%Z with 53%Z. split; [lia|].
        apply Z.pow_lt_mono_r; lia. }
      rewrite Hd1.
      assert (Hn2 : (fexp prec emax (54 + (e + Zpos p)) - (e + Zpos p) = 1)%Z).
      { unfold fexp, SpecFloat.emin, prec, emax. lia. }
      rewrite Hn2. cbn [shr iter_pos].
      assert (Hhalf : shr_m (shr_1 {| shr_m := Zpos q1; shr_r := false;
                                      shr_s := false |})
                      = (2 ^ 52)%Z).
      { rewrite shr_1_m by (cbn [shr_m]; lia). cbn [shr_m]. rewrite Hq1.
        reflexivity. }
      rewrite Hhalf. change (2 ^ 52)%Z with (Zpos (2 ^ 52)%positive).
      destruct (e + Zpos p + 1 <=? emax - prec)%Z; [right|left; reflexivity].
      eexists. eexists. split; [reflexivity|].
      replace (e + Zpos p + 1 + 1074)%Z with (Z.succ (e + Zpos p + 1074)) by lia.
      rewrite Z.pow_succ_r by lia.
      assert (0 < 2 ^ (e + Zpos p + 1074))%Z by (apply Z.pow_pos_nonneg; lia).
      change (Zpos (2 ^ 52)%positive) with (2 ^ 52)%Z.
      change (2 ^ 53)%Z with (2 * 2 ^ 52)%Z in Hhi. nia.
  - (* the exponent is already high enough *)
    cbn [shr shr_m loc_of_shr_record round_nearest_even Zdigits2
           shr_record_of_loc]. fold d. rewrite Hn. cbn [shr shr_m].
    destruct (e <=? emax - prec)%Z; [right|left; reflexivity].
    exists m, e. split; [reflexivity|].
    replace (Z.max 0 (Zneg p)) with 0%Z by lia.
    rewrite Z.pow_0_r, Z.div_1_r, Z.add_0_r. lia.
Qed.


(** Rounding a sum that is at least the double [ma * 2^ea] gives at least
    that double. *)
Lemma binary_round_ge :
  forall M ez ma ea,
    (-1074 <= ez <= ea)%Z ->
    canonical_mantissa prec emax ma ea = true ->
    (Zpos ma * 2 ^ (ea - ez) <= Zpos M)%Z ->
    binary_round prec emax false M ez = S754_infinity false
    \/ exists mr er,
         binary_round prec emax false M ez = S754_finite false mr er
         /\ (Zpos ma * 2 ^ (ea + 1074) <= Zpos mr * 2 ^ (er + 1074))%Z.
Proof.
  intros M ez ma ea Hez Hcan HM. unfold binary_round.
  destruct (digits2_bounds M) as [Dlo Dhi].
  destruct (mantissa_bounds ma ea Hcan) as (Hma & _).
  set (d := Zpos (digits2_pos M)) in *.
  set (e0 := fexp prec emax (d + ez)).
  assert (He0 : e0 = Z.max (d + ez - 53) (-1074)) by reflexivity.
  assert (Hval : (Zpos ma * 2 ^ (ea + 1074) <= Zpos M * 2 ^ (ez + 1074))%Z).
  { replace (ea + 1074)%Z with ((ea - ez) + (ez + 1074))%Z by lia.
    rewrite Z.pow_add_r by lia.
    assert (0 < 2 ^ (ez + 1074))%Z by (apply Z.pow_pos_nonneg; lia). nia. }
  unfold shl_align.
  destruct (e0 - ez)%Z as [|k|k] eqn:Hk.
  - (* the exponent is the canonical one *)
    destruct (binary_round_aux_lower M ez ltac:(lia)) as [Hinf|(mr & er & Hr & Hle)];
      [left; exact Hinf|right].
    exists mr, er. split; [exact Hr|].
    fold d in Hle. fold e0 in Hle. rewrite Hk in Hle.
    change (Z.max 0 0) with 0%Z in Hle.
    rewrite Z.pow_0_r, Z.div_1_r, Z.add_0_r in Hle. lia.
  - (* digits to drop *)
    destruct (binary_round_aux_lower M ez ltac:(lia)) as [Hinf|(mr & er & Hr & Hle)];
      [left; exact Hinf|right].
    exists mr, er. split; [exact Hr|].
    fold d in Hle. fold e0 in Hle. rewrite Hk in Hle.
    replace (Z.max 0 (Zpos k)) with (Zpos k) in Hle by lia.
    eapply Z.le_trans; [|exact Hle].
    assert (Hd : (d = 53 + Zpos k)%Z) by lia.
    assert (H2k : (0 < 2 ^ Zpos k)%Z) by (apply Z.pow_pos_nonneg; lia).
    assert (HP : (0 < 2 ^ (ez + Zpos k + 1074))%Z)
      by (apply Z.pow_pos_nonneg; lia).
    destruct (Z_le_gt_dec (ez + Zpos k) ea) as [Hbelow|Habove].
    + (* the cut keeps the first term *)
      assert (Hcut : (Zpos ma * 2 ^ (ea - (ez + Zpos k)) <= Zpos M / 2 ^ Zpos k)%Z).
      { apply Z.div_le_lower_bound; [lia|].
        replace (ea - ez)%Z with (Zpos k + (ea - (ez + Zpos k)))%Z in HM by lia.
        rewrite Z.pow_add_r in HM by lia. lia. }
      replace (ea + 1074)%Z with ((ea - (ez + Zpos k)) + (ez + Zpos k + 1074))%Z
        by lia.
      rewrite Z.pow_add_r by lia. nia.
    + (* the sum has a larger exponent *)
      assert (Hbig : (2 ^ 52 <= Zpos M / 2 ^ Zpos k)%Z).
      { apply Z.div_le_lower_bound; [lia|].
        replace (d - 1)%Z with (Zpos k + 52)%Z in Dlo by lia.
        rewrite Z.pow_add_r in Dlo by lia. lia. }
      assert (HX : (2 * 2 ^ (ea + 1074) <= 2 ^ (ez + Zpos k + 1074))%Z).
      { rewrite <- Z.pow_succ_r by lia. apply Z.pow_le_mono_r; lia. }
      assert (0 < 2 ^ (ea + 1074))%Z by (apply Z.pow_pos_nonneg; lia).
      change (2 ^ 53)%Z with (2 * 2 ^ 52)%Z in Hma. nia.
  - (* room to the left: the mantissa is shifted, nothing is lost *)
    assert (He0' : (-1074 <= e0)%Z) by lia.
    destruct (binary_round_aux_lower (Pos.iter xO M k) e0 He0')
      as [Hinf|(mr & er & Hr & Hle)]; [left; exact Hinf|right].
    exists mr, er. split; [exact Hr|].
    rewrite digits2_iter in Hle.
    replace (Zpos (digits2_pos M + k) + e0)%Z with (d + ez)%Z in Hle
      by (rewrite Pos2Z.inj_add; fold d; lia).
    fold e0 in Hle. rewrite Z.sub_diag in Hle.
    change (Z.max 0 0) with 0%Z in Hle.
    rewrite Z.pow_0_r, Z.div_1_r, Z.add_0_r, iter_xO in Hle.
    eapply Z.le_trans; [exact Hval|]. eapply Z.le_trans; [|exact Hle].
    replace (ez + 1074)%Z with (Zpos k + (e0 + 1074))%Z by lia.
    rewrite Z.pow_add_r by lia. lia.
Qed.

Lemma shl_align_fst :
  forall m e ez, (ez <= e)%Z ->
    Zpos (fst (shl_align m e ez)) = (Zpos m * 2 ^ (e - ez))%Z.
Proof.
  intros m e ez H. unfold shl_align.
  destruct (ez - e)%Z as [|k|k] eqn:Hk; cbn [fst]; try lia.
  - replace (e - ez)%Z with 0%Z by lia. rewrite Z.pow_0_r. lia.
  - rewrite iter_xO. f_equal. f_equal. lia.
Qed.

Lemma valid_canonical :
  forall s m e, valid_binary (S754_finite s m e) = true ->
    canonical_mantissa prec emax m e = true.
Proof.
  intros s m e H. cbn [valid_binary] in H. unfold bounded in H.
  apply andb_true_iff in H. tauto.
Qed.

Lemma SFleb_refl_finite :
  forall m e, SFleb (S754_finite false m e) (S754_finite false m e) = true.
Proof.
  intros m e. unfold SFleb, SFcompare. rewrite Z.compare_refl.
  change (Pos.compare_cont Eq m m) with (Pos.compare m m).
  rewrite Pos.compare_refl. reflexivity.
Qed.

(** A sum of two numbers that are not negative is at least the first. *)
Lemma add_ge_left :
  forall a b, (0 <=? a)%float = true -> (0 <=? b)%float = true ->
    (a <=? a + b)%float = true.
Proof.
  intros a b Ha Hb.
  pose proof (Prim2SF_valid a) as Va. pose proof (Prim2SF_valid b) as Vb.
  pose proof (Prim2SF_valid (a + b)) as Vr.
  rewrite leb0_spec in Ha, Hb. rewrite leb_spec.
  rewrite add_spec in *. unfold SF64add in *.
  destruct (Prim2SF a) as [sa|sa| |sa ma ea], (Prim2SF b) as [sb|sb| |sb mb eb];
    cbn [sf_nonneg] in Ha, Hb; try discriminate;
    try (destruct sa; try discriminate); try (destruct sb; try discriminate);
    cbn [SFadd] in *;
    try reflexivity; try apply SFleb_refl_finite.
  (* two doubles *)
  cbn [cond_Zopp] in *.
  apply valid_canonical in Va, Vb.
  destruct (canonical_inv ma ea Va) as (Hea & _).
  destruct (canonical_inv mb eb Vb) as (Heb & _).
  set (ez := Z.min ea eb) in *.
  assert (Hm1 := shl_align_fst ma ea ez ltac:(lia)).
  assert (Hm2 := shl_align_fst mb eb ez ltac:(lia)).
  set (m1 := fst (shl_align ma ea ez)) in *.
  set (m2 := fst (shl_align mb eb ez)) in *.
  change (Zpos m1 + Zpos m2)%Z with (Zpos (m1 + m2)) in *.
  cbn [binary_normalize] in *.
  destruct (binary_round_ge (m1 + m2) ez ma ea ltac:(lia) Va)
    as [Hinf|(mr & er & Hr & Hle)].
  - rewrite Pos2Z.inj_add, Hm1. lia.
  - rewrite Hinf. reflexivity.
  - rewrite Hr in *. apply valid_canonical in Vr.
    apply compare_canonical; assumption.
Qed.

End Doubles.

(* ------------------------------------------------------------------ *)
(** ** Checkout on an empty cart *)

Lemma checkout_page_empty :
  forall (uid : Uuid) (now : N) (net : Cart.checkout_faults)
         (st : Cart.state) (db : Db),
    Cart.cartItems st = [] ->
    Cart.handleCheckout (Some uid) now net st db
    = (db, [ToastError "Your cart is empty"]).
Proof.
  intros uid now net st db Hempty.
  unfold Cart.handleCheckout. rewrite Hempty. reflexivity.
Qed.

(** The same from the store's side: a student without cart rows, whose
    Cart page has loaded the cart, cannot check out. *)
Lemma checkout_after_loading_no_rows :
  forall (uid : Uuid) (now : N) (net : Cart.checkout_faults)
         (st0 : Cart.state) (db : Db),
    filter (fun r => (CartRow.student_id r =? uid)%N) (cart_items db) = [] ->
    Cart.handleCheckout (Some uid) now net
      (fst (Cart.loadCart (Some uid) false st0 db)) db
    = (db, [ToastError "Your cart is empty"]).
Proof.
  intros uid now net st0 db Hnone.
  assert (Hloaded : Cart.cartItems (fst (Cart.loadCart (Some uid) false st0 db)) = []).
  { unfold Cart.loadCart, Pg.select_cart. cbn [fst Cart.cartItems].
    induction (cart_items db) as [|r l IH]; [reflexivity|].
    cbn [filter] in Hnone |- *.
    destruct (CartRow.student_id r =? uid)%N; [discriminate|].
    rewrite andb_false_r. apply IH, Hnone. }
  unfold Cart.handleCheckout. rewrite Hloaded. reflexivity.
Qed.

(** C3 (as the code has it). [handleCheckout] looks at the cart that the
    Cart page holds, not at the cart rows of the store.  When the page
    holds no entries, the checkout of a signed-in student stops with the
    toast "Your cart is empty" and leaves the whole store, hence the
    [orders] table, as it was.  So it is for every student without cart
    rows in the store, once the page has loaded the cart from that
    store. *)
Theorem checkout_empty_cart :
  forall (uid : Uuid) (now : N) (net : Cart.checkout_faults) (db : Db),
    (forall st : Cart.state,
        Cart.cartItems st = [] ->
        Cart.handleCheckout (Some uid) now net st db
        = (db, [ToastError "Your cart is empty"]))
    /\ (forall st0 : Cart.state,
           filter (fun r => (CartRow.student_id r =? uid)%N) (cart_items db) = [] ->
           Cart.handleCheckout (Some uid) now net
             (fst (Cart.loadCart (Some uid) false st0 db)) db
           = (db, [ToastError "Your cart is empty"])).
Proof.
  intros uid now net db. split.
  - intros st. apply checkout_page_empty.
  - intros st0. apply checkout_after_loading_no_rows.
Qed.

Lemma checkout_empty_cart_witness :
  Cart.handleCheckout (Some Scenario.student) Scenario.noon Scenario.no_faults
    (Cart.mkState [] false upi) Scenario.empty_db
  = (Scenario.empty_db, [ToastError "Your cart is empty"])
  /\ Cart.handleCheckout (Some Scenario.student) (Scenario.noon + 60000)
       Scenario.no_faults
       (fst (Cart.loadCart (Some Scenario.student) false Scenario.page
               Scenario.db_ordered))
       Scenario.db_ordered
     = (Scenario.db_ordered, [ToastError "Your cart is empty"]).
Proof.
  split.
  - apply (checkout_empty_cart Scenario.student Scenario.noon Scenario.no_faults
             Scenario.empty_db). reflexivity.
  - apply (checkout_empty_cart Scenario.student (Scenario.noon + 60000)
             Scenario.no_faults Scenario.db_ordered). reflexivity.
Defined.

(** C3, the claim as stated, fails: the student's cart has no entries in
    the store (the checkout at noon emptied it), but a Cart page opened
    before still holds the two entries.  "Place Order" on that page does
    not fail with "Your cart is empty": it succeeds and creates a second
    order, 105, with two order items. *)
Lemma stale_page_checkout_counterexample :
  filter (fun r => (CartRow.student_id r =? Scenario.student)%N)
    (cart_items Scenario.db_ordered) = []
  /\ map CartItem.id (Cart.cartItems Scenario.page) = [100%N; 101%N]
  /\ map OrderRow.id (orders Scenario.db_ordered) = [102%N]
  /\ snd Scenario.stale_checkout
     = [ToastSuccess "Order placed successfully!"; Navigate "/orders"]
  /\ reported_error (snd Scenario.stale_checkout) = false
  /\ map OrderRow.id (orders (fst Scenario.stale_checkout)) = [102%N; 105%N]
  /\ List.length (items_of 105 (fst Scenario.stale_checkout)) = 2%nat.
Proof.
  vm_compute. repeat split; reflexivity.
Qed.

(* ------------------------------------------------------------------ *)
(** ** What an accepted backend call has done *)

Lemma insert_order_inv :
  forall auth now num student status sub tx tot pm ps fault db o db1,
    Pg.insert_order auth now num student status sub tx tot pm ps fault db
    = inl (o, db1) ->
    o = OrderRow.mk (next_uuid db) num student status sub tx tot pm ps now now None
    /\ db1 = mkDb (profiles db) (menu_items db) (cart_items db) (orders db ++ [o])
               (order_items db) (N.succ (next_uuid db))
    /\ fault = false
    /\ Pg.is_uid auth student = true
    /\ existsb (fun o' => (OrderRow.order_number o' =? num)%string) (orders db)
       = false.
Proof.
  intros auth now num student status sub tx tot pm ps fault db o db1.
  unfold Pg.insert_order.
  destruct fault; [discriminate|].
  destruct (Pg.is_uid auth student); [|discriminate]. cbn [negb].
  destruct (negb _); [discriminate|].
  destruct (existsb _ (orders db)); [discriminate|].
  intros H. injection H as Ho Hdb. subst o. subst db1. repeat split.
Qed.

Lemma insert_order_items_inv :
  forall auth rows fault db db2,
    Pg.insert_order_items auth rows fault db = inl db2 ->
    db2 = mkDb (profiles db) (menu_items db) (cart_items db) (orders db)
            (order_items db ++ Pg.number_items (next_uuid db) rows)
            (next_uuid db + N.of_nat (List.length rows))%N
    /\ fault = false
    /\ forallb Pg.order_item_checks rows = true
    /\ forallb (fun x => Pg.int4_ok (noi_quantity x)) rows = true.
Proof.
  intros auth rows fault db db2. unfold Pg.insert_order_items.
  destruct fault; [discriminate|].
  destruct (forallb (fun x => Pg.int4_ok (noi_quantity x)) rows); [|discriminate].
  destruct (forallb (Pg.order_item_allowed auth db) rows); [|discriminate].
  destruct (forallb Pg.order_item_checks rows); [|discriminate].
  cbn [negb]. intros H. injection H as <-. repeat split.
Qed.

Lemma items_of_fresh :
  forall db, order_ids_drawn db ->
    filter (fun it => (OrderItemRow.order_id it =? next_uuid db)%N) (order_items db)
    = [].
Proof.
  intros db H. unfold order_ids_drawn in H.
  induction (order_items db) as [|it l IH]; [reflexivity|].
  inversion H as [|? ? Hit Hl]; subst. cbn [filter].
  destruct (N.eqb_spec (OrderItemRow.order_id it) (next_uuid db)) as [E|E].
  - rewrite E in Hit. exfalso. revert Hit. apply N.lt_irrefl.
  - apply IH, Hl.
Qed.

(* ------------------------------------------------------------------ *)
(** ** Checkout when the order items cannot be written *)




(* ------------------------------------------------------------------ *)
(** ** Checkout when the cart cannot be cleared *)

Lemma delete_cart_of_fault :
  forall auth student db, Pg.delete_cart_of auth student true db = inr Fault.
Proof. reflexivity. Qed.

(** What a checkout that raises its success toast has written: the order
    and its items. *)
Lemma handleCheckout_success :
  forall uid now net st db db' ev,
    Cart.handleCheckout (Some uid) now net st db = (db', ev) ->
    succeeded ev = true ->
    let t := Cart.calculateTotal (Cart.cartItems st) in
    let order :=
      OrderRow.mk (next_uuid db) (Cart.orderNumber now) uid "pending"
        (Cart.subtotal t) (Cart.tax t) (Cart.total t) (Cart.paymentMethod st)
        "completed" now now None in
    orders db' = orders db ++ [order]
    /\ order_items db'
       = order_items db
         ++ Pg.number_items (N.succ (next_uuid db))
              (Cart.orderItems order (Cart.cartItems st))
    /\ menu_items db' = menu_items db
    /\ existsb (fun o => (OrderRow.order_number o =? Cart.orderNumber now)%string)
         (orders db) = false
    /\ forallb Pg.order_item_checks (Cart.orderItems order (Cart.cartItems st))
       = true.
Proof.
  intros uid now net st db db' ev. unfold Cart.handleCheckout.
  destruct (List.length (Cart.cartItems st) =? 0)%nat;
    [intros H; injection H as <- <-; discriminate|].
  destruct (Pg.insert_order _ _ _ _ _ _ _ _ _ _ _ _) as [[order db1]|e] eqn:Ho;
    [|intros H; injection H as <- <-; discriminate].
  destruct (Pg.insert_order_items _ _ _ _) as [db2|e] eqn:Hi;
    [|intros H; injection H as <- <-; discriminate].
  apply insert_order_inv in Ho. destruct Ho as (Horder & Hdb1 & _ & _ & Hnum).
  apply insert_order_items_inv in Hi. destruct Hi as (Hdb2 & _ & Hchk & _).
  intros Hrun _. cbv zeta. rewrite <- Horder.
  assert (Hdone : orders db' = orders db2 /\ order_items db' = order_items db2
                  /\ menu_items db' = menu_items db2).
  { unfold Pg.delete_cart_of in Hrun.
    destruct (Cart.clearError net); injection Hrun as <- _; repeat split. }
  destruct Hdone as (-> & -> & ->). subst db2 db1. cbn [orders order_items
    menu_items next_uuid]. repeat split; assumption.
Qed.

(** Whether the cart can be cleared has no part in what comes before. *)
Lemma handleCheckout_clear_fault :
  forall uid now oe ie st db,
    succeeded (snd (Cart.handleCheckout (Some uid) now (Cart.mkFaults oe ie false)
                      st db)) = true ->
    exists db2,
      Cart.handleCheckout (Some uid) now (Cart.mkFaults oe ie true) st db
      = (db2, [ConsoleError "Failed to clear cart";
               ToastSuccess "Order placed successfully!";
               Navigate "/orders"])
      /\ cart_items db2 = cart_items db
      /\ Cart.cartItems st <> [].
Proof.
  intros uid now oe ie st db. unfold Cart.handleCheckout.
  cbn [Cart.orderError Cart.itemsError Cart.clearError].
  destruct (Cart.cartItems st) as [|x l] eqn:Hcart; [discriminate|].
  cbn [List.length Nat.eqb].
  destruct (Pg.insert_order _ _ _ _ _ _ _ _ _ _ _ _) as [[order db1]|e] eqn:Ho;
    [|discriminate].
  destruct (Pg.insert_order_items _ _ _ _) as [db2|e] eqn:Hi; [|discriminate].
  intros _. rewrite delete_cart_of_fault. exists db2.
  apply insert_order_inv in Ho. destruct Ho as (_ & Hdb1 & _).
  apply insert_order_items_inv in Hi. destruct Hi as (Hdb2 & _).
  repeat split; [subst db2 db1; reflexivity | discriminate].
Qed.

(** C10 (as the code has it). Take any checkout of a signed-in student
    that succeeds when the cart-clear call works.  The same checkout with
    a failing cart-clear call still succeeds: it logs "Failed to clear
    cart" on the console, raises the success toast and navigates to the
    orders page, and reports no error; the order it created is the last
    row of [orders], its order items, one per cart entry and at least
    one, are the last rows of [order_items], and the cart rows are where
    they were.  For a signed-in student no other failure is swallowed: a
    checkout that does not succeed raises an error toast.  Without a
    signed-in user the checkout returns in silence: it writes nothing and
    reports nothing. *)
Theorem checkout_clear_failure_not_fatal :
  forall (uid : Uuid) (now : N) (oe ie : bool) (st : Cart.state) (db : Db),
    let run ce :=
      Cart.handleCheckout (Some uid) now (Cart.mkFaults oe ie ce) st db in
    let t := Cart.calculateTotal (Cart.cartItems st) in
    let order :=
      OrderRow.mk (next_uuid db) (Cart.orderNumber now) uid "pending"
        (Cart.subtotal t) (Cart.tax t) (Cart.total t) (Cart.paymentMethod st)
        "completed" now now None in
    (succeeded (snd (run false)) = true ->
     snd (run true) = [ConsoleError "Failed to clear cart";
                       ToastSuccess "Order placed successfully!";
                       Navigate "/orders"]
     /\ succeeded (snd (run true)) = true
     /\ reported_error (snd (run true)) = false
     /\ orders (fst (run true)) = orders db ++ [order]
     /\ order_items (fst (run true))
        = order_items db
          ++ Pg.number_items (N.succ (next_uuid db))
               (Cart.orderItems order (Cart.cartItems st))
     /\ Cart.cartItems st <> []
     /\ cart_items (fst (run true)) = cart_items db)
    /\ (forall ce, succeeded (snd (run ce)) = false ->
                   reported_error (snd (run ce)) = true)
    /\ (forall net, Cart.handleCheckout None now net st db = (db, [])).
Proof.
  intros uid now oe ie st db run t order. split; [|split].
  - intros Hok. subst run. cbv beta in *.
    destruct (handleCheckout_clear_fault uid now oe ie st db Hok)
      as (db2 & Hrun & Hcart & Hitems).
    destruct (handleCheckout_success uid now (Cart.mkFaults oe ie true) st db db2
                _ Hrun (eq_refl _)) as (Horders & Horder_items & _).
    rewrite Hrun. cbn [fst snd]. repeat split; assumption.
  - intros ce. subst run. cbv beta. unfold Cart.handleCheckout.
    destruct (List.length (Cart.cartItems st) =? 0)%nat; [reflexivity|].
    destruct (Pg.insert_order _ _ _ _ _ _ _ _ _ _ _ _) as [[o db1]|e];
      [|reflexivity].
    destruct (Pg.insert_order_items _ _ _ _) as [db2|e]; [|reflexivity].
    destruct (Pg.delete_cart_of _ _ _ _); cbn; discriminate.
  - reflexivity.
Qed.

Lemma checkout_clear_failure_not_fatal_witness :
  snd (Cart.handleCheckout (Some Scenario.student) Scenario.noon
         (Cart.mkFaults false false true) Scenario.page Scenario.db_cart)
  = [ConsoleError "Failed to clear cart";
     ToastSuccess "Order placed successfully!";
     Navigate "/orders"]
  /\ map OrderRow.order_number
       (orders (fst (Cart.handleCheckout (Some Scenario.student) Scenario.noon
                       (Cart.mkFaults false false true) Scenario.page
                       Scenario.db_cart)))
     = ["ORD-123456"]
  /\ cart_items (fst (Cart.handleCheckout (Some Scenario.student) Scenario.noon
                        (Cart.mkFaults false false true) Scenario.page
                        Scenario.db_cart))
     = cart_items Scenario.db_cart.
Proof.
  destruct (checkout_clear_failure_not_fatal Scenario.student Scenario.noon
              false false Scenario.page Scenario.db_cart) as [Hclear _].
  destruct Hclear as (Hev & _ & _ & Horders & _ & _ & Hcart);
    [vm_compute; reflexivity|].
  split; [exact Hev | split; [|exact Hcart]].
  rewrite Horders. vm_compute. reflexivity.
Defined.

(** C10, the claim as stated, fails in its last part: the cart-clear
    failure is not the only failure that the caller never hears of.  The
    student presses "Place Order" on a cart of two entries when the
    session has gone: [handleCheckout] returns at once, no order is
    created, and nothing is reported, neither a success nor an error. *)
Lemma checkout_signed_out_counterexample :
  map CartItem.id (Cart.cartItems Scenario.page) = [100%N; 101%N]
  /\ Scenario.checkout_signed_out = (Scenario.db_cart, [])
  /\ orders (fst Scenario.checkout_signed_out) = []
  /\ succeeded (snd Scenario.checkout_signed_out) = false
  /\ reported_error (snd Scenario.checkout_signed_out) = false.
Proof.
  vm_compute. repeat split; reflexivity.
Qed.

(* ------------------------------------------------------------------ *)
(** ** The fulfillment state machine *)

Lemma status_ok_inv :
  forall s, Pg.status_ok s = true ->
    s = "pending" \/ s = "preparing" \/ s = "ready" \/ s = "completed"
    \/ s = "cancelled".
Proof.
  intros s H. unfold Pg.status_ok in H. cbn [existsb] in H.
  repeat (apply orb_true_iff in H; destruct H as [H|H];
          [apply String.eqb_eq in H; tauto|]).
  discriminate.
Qed.

Lemma in_two : forall (a b x : string), In x [a; b] <-> ((x =? a) || (x =? b)) = true.
Proof.
  intros a b x. cbn [In]. rewrite orb_true_iff, !String.eqb_eq.
  intuition congruence.
Qed.

Lemma update_order_status_admin :
  forall admin orderId newStatus now db,
    Pg.is_admin (Some admin) db = true ->
    Pg.status_ok newStatus = true ->
    Pg.update_order_status (Some admin) orderId newStatus now false db
    = inl (mkDb (profiles db) (menu_items db) (cart_items db)
             (map (fun o => if (OrderRow.id o =? orderId)%N
                            then Pg.set_status newStatus now o else o)
                  (orders db))
             (order_items db) (next_uuid db)).
Proof.
  intros admin orderId newStatus now db Hadmin Hok.
  unfold Pg.update_order_status. rewrite Hadmin, Hok. cbn [negb andb].
  rewrite andb_false_r. reflexivity.
Qed.

Lemma insert_newest_perm :
  forall o l, Permutation (Pg.insert_newest o l) (o :: l).
Proof.
  intros o l. induction l as [|x l IH]; cbn [Pg.insert_newest].
  - apply Permutation_refl.
  - destruct (Order.created_at x <? Order.created_at o)%N.
    + apply Permutation_refl.
    + eapply Permutation_trans; [apply perm_skip, IH | apply perm_swap].
Qed.

Lemma newest_first_perm : forall l, Permutation (Pg.newest_first l) l.
Proof.
  induction l as [|o l IH]; [apply Permutation_refl|].
  cbn [Pg.newest_first fold_right]. fold (Pg.newest_first l).
  eapply Permutation_trans; [apply insert_newest_perm | apply perm_skip, IH].
Qed.

Lemma loadOrders_shown :
  forall uid isAdminUser st db,
    OrdersPage.orders (fst (OrdersPage.loadOrders (Some uid) isAdminUser false st db))
    = Pg.newest_first
        (map (Pg.order_view (Some uid) db)
           (filter (fun o => Pg.order_visible (Some uid) db o
                             && match (if isAdminUser then None else Some uid) with
                                | Some u => (OrderRow.student_id o =? u)%N
                                | None => true
                                end)
                   (orders db))).
Proof. reflexivity. Qed.

Lemma shown_order :
  forall auth db l v,
    In v (Pg.newest_first (map (Pg.order_view auth db) l)) ->
    exists o, In o l /\ v = Pg.order_view auth db o.
Proof.
  intros auth db l v Hv.
  apply (Permutation_in v (newest_first_perm _)) in Hv.
  apply in_map_iff in Hv. destruct Hv as (o & Heq & Ho).
  exists o. split; [exact Ho | symmetry; exact Heq].
Qed.

Lemma NoDup_map_eq :
  forall (A B : Type) (f : A -> B) (l : list A) (x y : A),
    NoDup (map f l) -> In x l -> In y l -> f x = f y -> x = y.
Proof.
  intros A B f l x y Hnodup Hx Hy Heq.
  induction l as [|z l IH]; [destruct Hx|].
  cbn [map] in Hnodup. inversion Hnodup as [|? ? Hnotin Hrest]; subst.
  destruct Hx as [->|Hx], Hy as [->|Hy].
  - reflexivity.
  - exfalso. apply Hnotin. rewrite Heq. apply in_map, Hy.
  - exfalso. apply Hnotin. rewrite <- Heq. apply in_map, Hx.
  - apply IH; assumption.
Qed.

Lemma buttons_are_legal_edges :
  forall from to,
    Pg.status_ok from = true ->
    (In to (OrdersPage.statusButtons true from) <-> Spec.legal from to = true).
Proof.
  intros from to Hfrom.
  destruct (status_ok_inv from Hfrom) as [E|[E|[E|[E|E]]]]; subst from;
    unfold OrdersPage.statusButtons, Spec.legal; cbn -[In String.eqb];
    repeat match goal with
      | |- context [String.eqb ?a ?b] =>
          match b with
          | String _ _ =>
              match a with
              | String _ _ =>
                  let v := eval vm_compute in (String.eqb a b) in
                  change (String.eqb a b) with v
              end
          end
      end;
    cbn -[In String.eqb];
    try apply in_two;
    split; intros H; try discriminate; destruct H.
Qed.

Lemma legal_target_ok :
  forall from to, Spec.legal from to = true -> Pg.status_ok to = true.
Proof.
  intros from to. unfold Spec.legal.
  destruct (from =? "pending"); [|destruct (from =? "preparing");
                                  [|destruct (from =? "ready"); [|discriminate]]];
    intros H; apply orb_true_iff in H; destruct H as [H|H];
    apply String.eqb_eq in H; subst to; reflexivity.
Qed.

(** C2 (as the code has it). [updateOrderStatus] enforces no state
    machine: called by an admin with any of the five status values, it
    writes that value into the order whatever its stored status is, and
    raises the toast "Order status updated".  The legal-transition table
    is only in what the Orders page renders: under an order that it
    displays with one of the five statuses, the page offers an admin
    exactly the edges of the table that leave the displayed status, and
    offers anyone else nothing.  So a button pressed on a page that has
    just been loaded from the store moves the order along a legal edge,
    from its stored status; nothing ties the displayed status to the
    stored one after that. *)
Theorem status_machine_is_in_the_buttons :
  (forall from to,
      Pg.status_ok from = true ->
      (In to (OrdersPage.statusButtons true from) <-> Spec.legal from to = true))
  /\ (forall from, OrdersPage.statusButtons false from = [])
  /\ (forall admin now orderId newStatus reload_fault st db,
         Pg.is_admin (Some admin) db = true ->
         Pg.status_ok newStatus = true ->
         let r := OrdersPage.updateOrderStatus (Some admin) now orderId newStatus
                    false reload_fault st db in
         orders (snd (fst r))
         = map (fun o => if (OrderRow.id o =? orderId)%N
                         then Pg.set_status newStatus now o else o)
               (orders db)
         /\ hd_error (snd r) = Some (ToastSuccess "Order status updated"))
  /\ (forall admin now reload_fault st db shown to,
         Pg.is_admin (Some admin) db = true ->
         statuses_ok db ->
         NoDup (map OrderRow.id (orders db)) ->
         let page := fst (OrdersPage.loadOrders (Some admin) true false st db) in
         In shown (OrdersPage.orders page) ->
         In to (OrdersPage.statusButtons (OrdersPage.isAdmin page)
                  (Order.status shown)) ->
         let r := OrdersPage.updateOrderStatus (Some admin) now (Order.id shown)
                    to false reload_fault page db in
         hd_error (snd r) = Some (ToastSuccess "Order status updated")
         /\ exists o,
              In o (orders db)
              /\ OrderRow.id o = Order.id shown
              /\ OrderRow.status o = Order.status shown
              /\ (forall x, In x (orders db) -> OrderRow.id x = OrderRow.id o ->
                            x = o)
              /\ Spec.legal (OrderRow.status o) to = true
              /\ orders (snd (fst r))
                 = map (fun x => if (OrderRow.id x =? OrderRow.id o)%N
                                 then Pg.set_status to now x else x)
                       (orders db)).
Proof.
  split; [exact buttons_are_legal_edges|split; [|split]].
  - reflexivity.
  - intros admin now orderId newStatus reload_fault st db Hadmin Hok r. subst r.
    unfold OrdersPage.updateOrderStatus.
    rewrite (update_order_status_admin admin orderId newStatus now db Hadmin Hok).
    destruct (OrdersPage.loadOrders _ _ _ _ _) as [st' ev].
    cbn. repeat split.
  - intros admin now reload_fault st db shown to Hadmin Hstatuses Hnodup page
           Hshown Hbutton r.
    subst r.
    assert (Hflag : OrdersPage.isAdmin page = OrdersPage.isAdmin st)
      by reflexivity.
    assert (Hlist : OrdersPage.orders page
                    = OrdersPage.orders
                        (fst (OrdersPage.loadOrders (Some admin) true false st db)))
      by reflexivity.
    clearbody page. rewrite Hlist, loadOrders_shown in Hshown. clear Hlist.
    apply shown_order in Hshown. destruct Hshown as (o & Ho & ->).
    apply filter_In in Ho. destruct Ho as [Ho _].
    rewrite Hflag in Hbutton. cbn [Pg.order_view Order.status Order.id] in *.
    destruct (OrdersPage.isAdmin st); [|destruct Hbutton].
    assert (Hfrom : Pg.status_ok (OrderRow.status o) = true).
    { unfold statuses_ok in Hstatuses. rewrite Forall_forall in Hstatuses.
      apply Hstatuses, Ho. }
    apply (buttons_are_legal_edges _ _ Hfrom) in Hbutton.
    pose proof (legal_target_ok _ _ Hbutton) as Hto.
    unfold OrdersPage.updateOrderStatus.
    rewrite (update_order_status_admin admin (OrderRow.id o) to now db Hadmin Hto).
    destruct (OrdersPage.loadOrders _ _ _ _ _) as [st' ev]. cbn [fst snd hd_error].
    split; [reflexivity|]. exists o. repeat split; try assumption.
    intros x Hx Hid. apply (NoDup_map_eq _ _ OrderRow.id (orders db)); assumption.
Qed.

Lemma status_machine_is_in_the_buttons_witness :
  In "preparing" (OrdersPage.statusButtons true "pending")
  /\ map OrderRow.status
       (orders (Scenario.press Scenario.noon "preparing" Scenario.db_ordered))
     = ["preparing"].
Proof.
  destruct status_machine_is_in_the_buttons as (Hbuttons & _ & Hwrite & _).
  split.
  - apply (Hbuttons "pending" "preparing"); reflexivity.
  - unfold Scenario.press.
    destruct (Hwrite Scenario.admin Scenario.noon 102%N "preparing" false
                Scenario.orders_page Scenario.db_ordered) as (Horders & _).
    + reflexivity.
    + reflexivity.
    + rewrite Horders. vm_compute. reflexivity.
Defined.

(** C2, the claim as stated, fails: (completed, cancelled) is not an edge
    of the table, the order is in a terminal state, and yet the call
    succeeds.  An admin's Orders page was loaded when order 102 was
    pending; it displays "pending" and offers "Cancel Order".  Meanwhile
    the order has been prepared, made ready and completed, each step a
    button of an up-to-date page.  The admin presses "Cancel Order" on
    the page loaded first: [updateOrderStatus] raises "Order status
    updated" and the completed order is cancelled. *)
Lemma stale_cancel_counterexample :
  map (fun v => (Order.id v, Order.status v))
    (OrdersPage.orders Scenario.orders_page) = [(102%N, "pending")]
  /\ In "cancelled"
       (OrdersPage.statusButtons (OrdersPage.isAdmin Scenario.orders_page)
          "pending")
  /\ map (fun o => (OrderRow.id o, OrderRow.status o))
       (orders Scenario.db_completed) = [(102%N, "completed")]
  /\ Spec.legal "completed" "cancelled" = false
  /\ snd Scenario.stale_cancel = [ToastSuccess "Order status updated"]
  /\ reported_error (snd Scenario.stale_cancel) = false
  /\ map (fun o => (OrderRow.id o, OrderRow.status o))
       (orders (snd (fst Scenario.stale_cancel))) = [(102%N, "cancelled")].
Proof.
  vm_compute. repeat split; try reflexivity. right. left. reflexivity.
Qed.

(* ------------------------------------------------------------------ *)
(** ** The completion timestamp *)

Lemma set_status_completed_at :
  forall s now o,
    OrderRow.completed_at (Pg.set_status s now o) = OrderRow.completed_at o.
Proof. reflexivity. Qed.

(** [updateOrderStatus] never touches [completed_at], whoever calls it and
    whatever the new status is. *)
Lemma updateOrderStatus_keeps_completed_at :
  forall user now orderId newStatus fault reload_fault st db,
    map OrderRow.completed_at
      (orders (snd (fst (OrdersPage.updateOrderStatus user now orderId newStatus
                           fault reload_fault st db))))
    = map OrderRow.completed_at (orders db).
Proof.
  intros user now orderId newStatus fault reload_fault st db.
  unfold OrdersPage.updateOrderStatus.
  destruct (Pg.update_order_status user orderId newStatus now fault db)
    as [db'|e] eqn:Hupd; [|reflexivity].
  destruct (OrdersPage.loadOrders _ _ _ _ _) as [st' ev]. cbn [fst snd].
  unfold Pg.update_order_status in Hupd.
  destruct fault; [discriminate|].
  destruct (existsb _ _ && negb _); [discriminate|].
  injection Hupd as <-. cbn [orders].
  rewrite map_map. apply map_ext. intros o.
  destruct (Pg.is_admin user db && (OrderRow.id o =? orderId)%N); reflexivity.
Qed.

(** C6 at the failing input: order 102 is ready and its [completed_at] is
    NULL; the admin presses "Mark as Completed"; the call succeeds, the
    order is completed, the trigger has stamped [updated_at], and
    [completed_at] is still NULL. *)
Theorem mark_completed_leaves_completed_at_null :
  map OrderRow.status (orders Scenario.db_ready) = ["ready"]
  /\ In "completed" (OrdersPage.statusButtons true "ready")
  /\ snd Scenario.mark_completed = [ToastSuccess "Order status updated"]
  /\ map OrderRow.status (orders (snd (fst Scenario.mark_completed)))
     = ["completed"]
  /\ map OrderRow.updated_at (orders (snd (fst Scenario.mark_completed)))
     = [Scenario.completion_time]
  /\ map OrderRow.completed_at (orders (snd (fst Scenario.mark_completed)))
     = [None].
Proof.
  vm_compute. repeat split; try reflexivity. left. reflexivity.
Qed.

(* ------------------------------------------------------------------ *)
(** ** Cart quantities stay positive *)

Lemma update_cart_quantity_inv :
  forall auth itemId q now fault db db',
    Pg.update_cart_quantity auth itemId q now fault db = inl db' ->
    db' = Pg.set_cart_items db
            (map (fun r => if Pg.cart_visible auth r && (CartRow.id r =? itemId)%N
                           then Pg.set_quantity q now r else r)
                 (cart_items db))
    /\ Pg.int4_ok q = true
    /\ (existsb (fun r => Pg.cart_visible auth r && (CartRow.id r =? itemId)%N)
          (cart_items db) = true ->
        (0 < q)%Z).
Proof.
  intros auth itemId q now fault db db'. unfold Pg.update_cart_quantity.
  destruct fault; [discriminate|].
  destruct (Pg.int4_ok q); [|discriminate]. cbn [negb].
  destruct (existsb _ (cart_items db)) eqn:Hhit; cbn [andb].
  - destruct (0 <? q)%Z eqn:Hq; cbn [negb]; [|discriminate].
    intros H. injection H as <-. repeat split. intros _. apply Z.ltb_lt, Hq.
  - intros H. injection H as <-. repeat split. discriminate.
Qed.

Lemma update_cart_quantity_ok :
  forall auth itemId q now fault db db',
    cart_quantities_ok db ->
    Pg.update_cart_quantity auth itemId q now fault db = inl db' ->
    cart_quantities_ok db'.
Proof.
  intros auth itemId q now fault db db' Hok Hupd.
  apply update_cart_quantity_inv in Hupd. destruct Hupd as (-> & _ & Hq).
  unfold cart_quantities_ok in *. cbn [cart_items Pg.set_cart_items].
  rewrite Forall_forall in *. intros r' Hin.
  apply in_map_iff in Hin. destruct Hin as (r & Hr & Hin).
  destruct (Pg.cart_visible auth r && (CartRow.id r =? itemId)%N) eqn:Hhit.
  - subst r'. cbn [Pg.set_quantity CartRow.quantity].
    assert (0 < q)%Z; [|lia].
    apply Hq, existsb_exists. exists r. split; assumption.
  - subst r'. apply Hok, Hin.
Qed.

Lemma filter_cart_ok :
  forall (keep : CartRow.row -> bool) db,
    cart_quantities_ok db ->
    cart_quantities_ok (Pg.set_cart_items db (filter keep (cart_items db))).
Proof.
  intros keep db Hok. unfold cart_quantities_ok in *.
  cbn [cart_items Pg.set_cart_items]. rewrite Forall_forall in *.
  intros r Hin. apply filter_In in Hin. apply Hok, Hin.
Qed.

Lemma insert_cart_item_inv :
  forall auth student item q now fault db db',
    Pg.insert_cart_item auth student item q now fault db = inl db' ->
    db' = mkDb (profiles db) (menu_items db)
            (cart_items db
             ++ [CartRow.mk (next_uuid db) student item q now now])
            (orders db) (order_items db) (N.succ (next_uuid db))
    /\ (0 < q)%Z
    /\ existsb (fun r => (CartRow.student_id r =? student)%N
                         && (CartRow.menu_item_id r =? item)%N)
         (cart_items db) = false.
Proof.
  intros auth student item q now fault db db'. unfold Pg.insert_cart_item.
  destruct fault; [discriminate|].
  destruct (Pg.int4_ok q); [|discriminate]. cbn [negb].
  destruct (Pg.is_uid auth student); [|discriminate]. cbn [negb].
  destruct (0 <? q)%Z eqn:Hq; [|discriminate]. cbn [negb].
  destruct (existsb _ (cart_items db)); [discriminate|].
  intros H. injection H as <-. repeat split. apply Z.ltb_lt, Hq.
Qed.

Lemma insert_cart_item_ok :
  forall auth student item q now fault db db',
    cart_quantities_ok db ->
    Pg.insert_cart_item auth student item q now fault db = inl db' ->
    cart_quantities_ok db'.
Proof.
  intros auth student item q now fault db db' Hok Hins.
  apply insert_cart_item_inv in Hins. destruct Hins as (-> & Hq & _).
  unfold cart_quantities_ok in *. cbn [cart_items].
  apply Forall_app. split; [assumption|].
  constructor; [|constructor]. cbn [CartRow.quantity]. lia.
Qed.

Lemma updateQuantity_ok :
  forall user now itemId q fault reload_fault st db,
    cart_quantities_ok db ->
    cart_quantities_ok
      (snd (fst (Cart.updateQuantity user now itemId q fault reload_fault st db))).
Proof.
  intros user now itemId q fault reload_fault st db Hok. unfold Cart.updateQuantity.
  destruct (q <? 1)%Z; [assumption|].
  destruct (Pg.update_cart_quantity user itemId q now fault db) as [db'|e] eqn:Hupd;
    [|assumption].
  destruct (Cart.loadCart user reload_fault st db'). cbn [fst snd].
  eapply update_cart_quantity_ok; eassumption.
Qed.

Lemma removeItem_ok :
  forall user itemId fault reload_fault st db,
    cart_quantities_ok db ->
    cart_quantities_ok
      (snd (fst (Cart.removeItem user itemId fault reload_fault st db))).
Proof.
  intros user itemId fault reload_fault st db Hok. unfold Cart.removeItem.
  unfold Pg.delete_cart_item. destruct fault; [assumption|].
  destruct (Cart.loadCart _ _ _ _). cbn [fst snd].
  apply filter_cart_ok, Hok.
Qed.

Lemma writeCart_ok :
  forall user now uid item existingItem write_fault db,
    cart_quantities_ok db ->
    cart_quantities_ok
      (fst (Menu.writeCart user now uid item existingItem write_fault db)).
Proof.
  intros user now uid item existingItem write_fault db Hok.
  unfold Menu.writeCart. destruct existingItem as [existingItem|].
  - destruct (Pg.update_cart_quantity _ _ _ _ _ _) as [db'|e] eqn:Hupd;
      [|assumption].
    cbn [fst]. eapply update_cart_quantity_ok; eassumption.
  - destruct (Pg.insert_cart_item _ _ _ _ _ _ _) as [db'|e'] eqn:Hins;
      [|assumption].
    cbn [fst]. eapply insert_cart_item_ok; eassumption.
Qed.

Lemma handleAddToCart_ok :
  forall isAuthenticated user now item lookup_fault write_fault db,
    cart_quantities_ok db ->
    cart_quantities_ok
      (fst (Menu.handleAddToCart isAuthenticated user now item lookup_fault
              write_fault db)).
Proof.
  intros isAuthenticated user now item lookup_fault write_fault db Hok.
  unfold Menu.handleAddToCart.
  destruct (negb isAuthenticated); [assumption|].
  destruct user as [uid|]; [|assumption].
  apply writeCart_ok, Hok.
Qed.

Lemma handleCheckout_ok :
  forall user now net st db,
    cart_quantities_ok db ->
    cart_quantities_ok (fst (Cart.handleCheckout user now net st db)).
Proof.
  intros user now net st db Hok. unfold Cart.handleCheckout.
  destruct user as [uid|]; [|assumption].
  destruct (List.length (Cart.cartItems st) =? 0)%nat; [assumption|].
  destruct (Pg.insert_order _ _ _ _ _ _ _ _ _ _ _ _) as [[order db1]|e] eqn:Ho;
    [|assumption].
  apply insert_order_inv in Ho. destruct Ho as (_ & Hdb1 & _).
  assert (Hok1 : cart_quantities_ok db1) by (subst db1; exact Hok).
  destruct (Pg.insert_order_items _ _ _ _) as [db2|e] eqn:Hi; [|assumption].
  apply insert_order_items_inv in Hi. destruct Hi as (Hdb2 & _).
  assert (Hok2 : cart_quantities_ok db2) by (subst db2; exact Hok1).
  unfold Pg.delete_cart_of. destruct (Cart.clearError net); [assumption|].
  cbn [fst]. apply filter_cart_ok, Hok2.
Qed.

(** C8 (as the code has it). [updateQuantity] with a new quantity below 1
    returns at once: it makes no backend call, changes neither the store
    nor the page, and reports nothing, neither an error toast nor any
    other event.  And no handler ever brings a cart quantity below 1: if
    every cart row has quantity at least 1, that is still so after
    [updateQuantity], [handleAddToCart], [removeItem] and
    [handleCheckout], whatever their arguments and faults. *)
Theorem updateQuantity_below_one_is_silent :
  (forall (user : option Uuid) (now : N) (itemId : Uuid) (newQuantity : Z)
          (fault reload_fault : bool) (st : Cart.state) (db : Db),
      (newQuantity < 1)%Z ->
      Cart.updateQuantity user now itemId newQuantity fault reload_fault st db
      = (st, db, []))
  /\ (forall (user : option Uuid) (st : Cart.state) (db : Db),
         cart_quantities_ok db ->
         (forall now itemId q f rf,
             cart_quantities_ok
               (snd (fst (Cart.updateQuantity user now itemId q f rf st db))))
         /\ (forall isAuthenticated now item lf wf,
                cart_quantities_ok
                  (fst (Menu.handleAddToCart isAuthenticated user now item lf wf
                          db)))
         /\ (forall itemId f rf,
                cart_quantities_ok
                  (snd (fst (Cart.removeItem user itemId f rf st db))))
         /\ (forall now net,
                cart_quantities_ok (fst (Cart.handleCheckout user now net st db)))).
Proof.
  split.
  - intros user now itemId newQuantity fault reload_fault st db Hlt.
    unfold Cart.updateQuantity.
    apply Z.ltb_lt in Hlt. rewrite Hlt. reflexivity.
  - intros user st db Hok. repeat split; intros.
    + apply updateQuantity_ok, Hok.
    + apply handleAddToCart_ok, Hok.
    + apply removeItem_ok, Hok.
    + apply handleCheckout_ok, Hok.
Qed.

Lemma updateQuantity_below_one_is_silent_witness :
  (0 < 1)%Z
  /\ Cart.updateQuantity (Some Scenario.student) Scenario.noon 101 0 false false
       Scenario.page Scenario.db_cart
     = (Scenario.page, Scenario.db_cart, [])
  /\ cart_quantities_ok
       (snd (fst (Cart.updateQuantity (Some Scenario.student) Scenario.noon 101 5
                    false false Scenario.page Scenario.db_cart))).
Proof.
  destruct updateQuantity_below_one_is_silent as [Hsilent Hkeeps].
  split; [lia|split].
  - apply Hsilent. lia.
  - apply (Hkeeps (Some Scenario.student) Scenario.page Scenario.db_cart).
    repeat constructor; vm_compute; discriminate.
Defined.

(** C8, the claim as stated, fails: the student presses "minus" on the
    single pizza (cart row 101, quantity 1), so [updateQuantity] is called
    with 0.  The call does not fail with an error: it emits no event at
    all.  (The quantity stays 1.) *)
Lemma updateQuantity_zero_counterexample :
  map CartRow.quantity (pair_rows Scenario.student 11 Scenario.db_cart) = [1%Z]
  /\ snd Scenario.minus_on_pizza = []
  /\ reported_error (snd Scenario.minus_on_pizza) = false
  /\ map CartRow.quantity
       (pair_rows Scenario.student 11 (snd (fst Scenario.minus_on_pizza)))
     = [1%Z].
Proof.
  vm_compute. repeat split; reflexivity.
Qed.

(* ------------------------------------------------------------------ *)
(** ** Adding to the cart *)

Section AddToCart.

Variable uid : Uuid.
Variable item : MenuItem.row.

Let mine (r : CartRow.row) : bool :=
  Pg.cart_visible (Some uid) r
  && (CartRow.student_id r =? uid)%N
  && (CartRow.menu_item_id r =? MenuItem.id item)%N.

Let taken (r : CartRow.row) : bool :=
  (CartRow.student_id r =? uid)%N
  && (CartRow.menu_item_id r =? MenuItem.id item)%N.

Lemma mine_taken : forall r, mine r = taken r.
Proof.
  intros r. unfold mine, taken, Pg.cart_visible, Pg.is_uid.
  rewrite (N.eqb_sym uid).
  destruct (CartRow.student_id r =? uid)%N; reflexivity.
Qed.

Lemma pair_rows_nil_free :
  forall db, pair_rows uid (MenuItem.id item) db = [] ->
    existsb taken (cart_items db) = false.
Proof.
  intros db Hnil. unfold pair_rows in Hnil. fold mine in Hnil.
  induction (cart_items db) as [|r l IH]; [reflexivity|].
  cbn [filter] in Hnil. cbn [existsb]. rewrite <- mine_taken.
  destruct (mine r); [discriminate|]. apply IH, Hnil.
Qed.

Lemma pair_rows_cons_taken :
  forall db r l, pair_rows uid (MenuItem.id item) db = r :: l ->
    existsb taken (cart_items db) = true
    /\ Pg.cart_visible (Some uid) r = true.
Proof.
  intros db r l Hcons.
  assert (Hin : In r (pair_rows uid (MenuItem.id item) db))
    by (rewrite Hcons; left; reflexivity).
  unfold pair_rows in Hin. fold mine in Hin.
  apply filter_In in Hin. destruct Hin as [Hin Hmine]. split.
  - apply existsb_exists. exists r. rewrite <- mine_taken. split; assumption.
  - unfold mine in Hmine. apply andb_true_iff in Hmine.
    destruct Hmine as [Hmine _]. apply andb_true_iff in Hmine. tauto.
Qed.

Lemma filter_map_same :
  forall (A : Type) (p : A -> bool) (f : A -> A) (l : list A),
    (forall x, p (f x) = p x) ->
    filter p (map f l) = map f (filter p l).
Proof.
  intros A p f l Hp. induction l as [|x l IH]; [reflexivity|].
  cbn [map filter]. rewrite Hp. destruct (p x); cbn [map]; congruence.
Qed.

Lemma lookupExisting_pair :
  forall lookup_fault db,
    Menu.lookupExisting (Some uid) uid item lookup_fault db
    = if lookup_fault then None
      else match pair_rows uid (MenuItem.id item) db with
           | [r] => Some r
           | _ => None
           end.
Proof.
  intros lookup_fault db. unfold Menu.lookupExisting, Pg.select_cart_single.
  destruct lookup_fault; [reflexivity|].
  change (filter _ (cart_items db)) with (pair_rows uid (MenuItem.id item) db).
  destruct (pair_rows uid (MenuItem.id item) db) as [|r [|r2 l]]; reflexivity.
Qed.

(** The write of a call that read the entry [e]: every row of the session
    user with the id of [e] gets the quantity that was read, plus 1,
    whatever it holds by now. *)
Lemma writeCart_existing :
  forall now e db,
    (1 <= CartRow.quantity e < 2147483647)%Z ->
    Menu.writeCart (Some uid) now uid item (Some e) false db
    = (Pg.set_cart_items db
         (map (fun r => if Pg.cart_visible (Some uid) r
                           && (CartRow.id r =? CartRow.id e)%N
                        then Pg.set_quantity (CartRow.quantity e + 1) now r
                        else r)
              (cart_items db)),
       [ToastSuccess "Added to cart!"]).
Proof.
  intros now e db Hq. unfold Menu.writeCart, Pg.update_cart_quantity.
  assert (Hrange : Pg.int4_ok (CartRow.quantity e + 1) = true).
  { unfold Pg.int4_ok. apply andb_true_iff. split; apply Z.leb_le; lia. }
  assert (Hpos : (0 <? CartRow.quantity e + 1)%Z = true)
    by (apply Z.ltb_lt; lia).
  rewrite Hrange, Hpos. cbn [negb]. rewrite andb_false_r. reflexivity.
Qed.

(** At the top of the [integer] range the write is refused. *)
Lemma writeCart_full :
  forall now e write_fault db,
    (2147483647 <= CartRow.quantity e)%Z ->
    Menu.writeCart (Some uid) now uid item (Some e) write_fault db
    = (db, [ToastError "Failed to update cart"]).
Proof.
  intros now e write_fault db Hq. unfold Menu.writeCart, Pg.update_cart_quantity.
  destruct write_fault; [reflexivity|].
  assert (Hrange : Pg.int4_ok (CartRow.quantity e + 1) = false).
  { unfold Pg.int4_ok. apply andb_false_iff. right. apply Z.leb_gt. lia. }
  rewrite Hrange. reflexivity.
Qed.

(** The entry is there: the call writes quantity + 1 into it. *)
Lemma add_existing :
  forall now db r,
    pair_rows uid (MenuItem.id item) db = [r] ->
    (1 <= CartRow.quantity r < 2147483647)%Z ->
    exists db',
      Menu.handleAddToCart true (Some uid) now item false false db
      = (db', [ToastSuccess "Added to cart!"])
      /\ pair_rows uid (MenuItem.id item) db'
         = [Pg.set_quantity (CartRow.quantity r + 1) now r].
Proof.
  intros now db r Hrows Hq.
  destruct (pair_rows_cons_taken db r [] Hrows) as [_ Hvis].
  unfold Menu.handleAddToCart. cbn [negb].
  rewrite lookupExisting_pair, Hrows, (writeCart_existing now r db Hq).
  eexists. split; [reflexivity|].
  unfold pair_rows. cbn [cart_items Pg.set_cart_items].
  rewrite filter_map_same.
  - change (filter _ (cart_items db)) with (pair_rows uid (MenuItem.id item) db).
    rewrite Hrows. cbn [map]. rewrite Hvis, N.eqb_refl. reflexivity.
  - intros x.
    destruct (Pg.cart_visible (Some uid) x && (CartRow.id x =? CartRow.id r)%N);
      reflexivity.
Qed.

Lemma add_full :
  forall now write_fault db r,
    pair_rows uid (MenuItem.id item) db = [r] ->
    (2147483647 <= CartRow.quantity r)%Z ->
    Menu.handleAddToCart true (Some uid) now item false write_fault db
    = (db, [ToastError "Failed to update cart"]).
Proof.
  intros now write_fault db r Hrows Hq.
  unfold Menu.handleAddToCart. cbn [negb].
  rewrite lookupExisting_pair, Hrows. apply writeCart_full, Hq.
Qed.

(** The entry is not there: the call inserts it with quantity 1. *)
Lemma add_new :
  forall now lookup_fault db,
    pair_rows uid (MenuItem.id item) db = [] ->
    exists db',
      Menu.handleAddToCart true (Some uid) now item lookup_fault false db
      = (db', [ToastSuccess "Added to cart!"])
      /\ pair_rows uid (MenuItem.id item) db'
         = [CartRow.mk (next_uuid db) uid (MenuItem.id item) 1 now now].
Proof.
  intros now lookup_fault db Hrows. unfold Menu.handleAddToCart. cbn [negb].
  rewrite lookupExisting_pair, Hrows.
  replace (if lookup_fault then None else None) with (@None CartRow.row)
    by (destruct lookup_fault; reflexivity).
  unfold Menu.writeCart, Pg.insert_cart_item.
  change (Pg.int4_ok 1) with true.
  cbn [Pg.is_uid]. rewrite N.eqb_refl. cbn [negb Z.ltb Z.compare].
  pose proof (pair_rows_nil_free db Hrows) as Hfree. unfold taken in Hfree.
  rewrite Hfree. eexists. split; [reflexivity|].
  unfold pair_rows. cbn [cart_items]. rewrite filter_app.
  change (filter _ (cart_items db)) with (pair_rows uid (MenuItem.id item) db).
  rewrite Hrows. cbn [filter app Pg.cart_visible Pg.is_uid CartRow.student_id
                        CartRow.menu_item_id].
  rewrite !N.eqb_refl. reflexivity.
Qed.

(** The entry is there and the call did not read it: the insert meets the
    uniqueness constraint. *)
Lemma add_blind :
  forall now write_fault db r l,
    pair_rows uid (MenuItem.id item) db = r :: l ->
    Menu.writeCart (Some uid) now uid item None write_fault db
    = (db, [ToastError "Failed to add to cart"]).
Proof.
  intros now write_fault db r l Hrows.
  destruct (pair_rows_cons_taken db r l Hrows) as [Htaken _].
  unfold Menu.writeCart, Pg.insert_cart_item.
  destruct write_fault; [reflexivity|].
  change (Pg.int4_ok 1) with true.
  cbn [Pg.is_uid]. rewrite N.eqb_refl. cbn [negb Z.ltb Z.compare].
  unfold taken in Htaken. rewrite Htaken. reflexivity.
Qed.

Lemma writeCart_write_fault :
  forall user now existingItem db,
    succeeded (snd (Menu.writeCart user now uid item existingItem true db)) = false
    /\ fst (Menu.writeCart user now uid item existingItem true db) = db.
Proof.
  intros user now existingItem db. unfold Menu.writeCart.
  destruct existingItem; split; reflexivity.
Qed.

(** One call, whatever its faults: the entry counts one more exactly
    when the call succeeded. *)
Lemma add_step :
  forall now lookup_fault write_fault db k,
    map CartRow.quantity (pair_rows uid (MenuItem.id item) db) = entry_after k ->
    let r := Menu.handleAddToCart true (Some uid) now item lookup_fault
               write_fault db in
    map CartRow.quantity (pair_rows uid (MenuItem.id item) (fst r))
    = entry_after (if succeeded (snd r) then S k else k).
Proof.
  intros now lookup_fault write_fault db k Hk r. subst r.
  destruct write_fault.
  { unfold Menu.handleAddToCart. cbn [negb].
    destruct (writeCart_write_fault (Some uid) now
                (Menu.lookupExisting (Some uid) uid item lookup_fault db) db)
      as [Hfail Hsame].
    rewrite Hfail, Hsame. exact Hk. }
  destruct k as [|k'].
  - (* no entry yet *)
    apply map_eq_nil in Hk.
    destruct (add_new now lookup_fault db Hk) as (db' & Hrun & Hrows).
    rewrite Hrun. cbn [fst snd]. rewrite Hrows. reflexivity.
  - (* one entry holding S k' *)
    destruct (pair_rows uid (MenuItem.id item) db) as [|r [|r2 l]] eqn:Hrows;
      try discriminate.
    cbn [map entry_after] in Hk. injection Hk as Hq.
    destruct lookup_fault.
    + (* the lookup fails, the insert meets the uniqueness constraint *)
      unfold Menu.handleAddToCart. cbn [negb].
      rewrite lookupExisting_pair, (add_blind now false db r [] Hrows).
      cbn [fst snd succeeded existsb is_toast_success orb].
      rewrite Hrows. cbn [map entry_after]. rewrite Hq. reflexivity.
    + destruct (Z_lt_le_dec (CartRow.quantity r) 2147483647) as [Hroom|Hfull].
      * assert (Hpos : (1 <= CartRow.quantity r < 2147483647)%Z) by lia.
        destruct (add_existing now db r Hrows Hpos) as (db' & Hrun & Hrows').
        rewrite Hrun. cbn [fst snd]. rewrite Hrows'.
        cbn [map Pg.set_quantity CartRow.quantity succeeded existsb
               is_toast_success orb entry_after].
        rewrite Hq. f_equal. lia.
      * rewrite (add_full now false db r Hrows Hfull).
        cbn [fst snd succeeded existsb is_toast_success orb].
        rewrite Hrows. cbn [map entry_after]. rewrite Hq. reflexivity.
Qed.

Lemma add_times :
  forall calls db k,
    map CartRow.quantity (pair_rows uid (MenuItem.id item) db) = entry_after k ->
    map CartRow.quantity
      (pair_rows uid (MenuItem.id item) (fst (addToCartTimes calls uid item db)))
    = entry_after (k + snd (addToCartTimes calls uid item db)).
Proof.
  induction calls as [|[[now lookup_fault] write_fault] rest IH]; intros db k Hk.
  - cbn. rewrite Nat.add_0_r. exact Hk.
  - cbn [addToCartTimes].
    pose proof (add_step now lookup_fault write_fault db k Hk) as Hstep.
    cbv zeta in Hstep.
    destruct (Menu.handleAddToCart true (Some uid) now item lookup_fault
                write_fault db) as [db1 ev].
    cbn [fst snd] in Hstep. specialize (IH db1 _ Hstep).
    destruct (addToCartTimes rest uid item db1) as [db2 n].
    cbn [fst snd] in *. rewrite IH. f_equal.
    destruct (succeeded ev); lia.
Qed.

End AddToCart.

(** C9 (as the code has it). [handleAddToCart] of a signed-in student
    reads the cart entry of the (student, menu item) pair and then
    writes, in two requests.  A call that runs alone, on a backend that
    answers: when the cart holds the entry with a quantity below
    2147483647, the call writes its quantity plus exactly 1; at
    2147483647, the largest value of the column, the store refuses the
    write and the call fails with "Failed to update cart"; when the cart
    holds no such entry, the call creates it with quantity 1.  Hence,
    starting from a cart without the entry, after any sequence of calls
    on that pair that run one after the other the entry's quantity is the
    number of calls that succeeded (no entry when none did); n successful
    calls leave quantity n.  The write of a call sets the quantity it has
    read plus 1, whatever the entry holds when the write arrives. *)
Theorem addToCart_increments_or_creates :
  forall (uid : Uuid) (item : MenuItem.row) (db : Db),
    (forall r now,
        pair_rows uid (MenuItem.id item) db = [r] ->
        (1 <= CartRow.quantity r < 2147483647)%Z ->
        exists db',
          Menu.handleAddToCart true (Some uid) now item false false db
          = (db', [ToastSuccess "Added to cart!"])
          /\ pair_rows uid (MenuItem.id item) db'
             = [CartRow.mk (CartRow.id r) (CartRow.student_id r)
                  (CartRow.menu_item_id r) (CartRow.quantity r + 1)
                  (CartRow.created_at r) now])
    /\ (forall r now write_fault,
           pair_rows uid (MenuItem.id item) db = [r] ->
           CartRow.quantity r = 2147483647%Z ->
           Menu.handleAddToCart true (Some uid) now item false write_fault db
           = (db, [ToastError "Failed to update cart"]))
    /\ (pair_rows uid (MenuItem.id item) db = [] ->
        (forall now,
            exists db',
              Menu.handleAddToCart true (Some uid) now item false false db
              = (db', [ToastSuccess "Added to cart!"])
              /\ pair_rows uid (MenuItem.id item) db'
                 = [CartRow.mk (next_uuid db) uid (MenuItem.id item) 1 now now])
        /\ (forall calls,
               let r := addToCartTimes calls uid item db in
               map CartRow.quantity (pair_rows uid (MenuItem.id item) (fst r))
               = entry_after (snd r))
        /\ (forall calls,
               let r := addToCartTimes calls uid item db in
               snd r = List.length calls ->
               (0 < List.length calls)%nat ->
               map CartRow.quantity (pair_rows uid (MenuItem.id item) (fst r))
               = [Z.of_nat (List.length calls)]))
    /\ (forall now e,
           (1 <= CartRow.quantity e < 2147483647)%Z ->
           Menu.writeCart (Some uid) now uid item (Some e) false db
           = (Pg.set_cart_items db
                (map (fun r => if Pg.cart_visible (Some uid) r
                                  && (CartRow.id r =? CartRow.id e)%N
                               then Pg.set_quantity (CartRow.quantity e + 1) now r
                               else r)
                     (cart_items db)),
              [ToastSuccess "Added to cart!"])).
Proof.
  intros uid item db. split; [|split; [|split]].
  - intros r now Hrows Hq. apply add_existing; assumption.
  - intros r now write_fault Hrows Hq. apply (add_full uid item now write_fault db r).
    + exact Hrows.
    + lia.
  - intros Hnil. split; [|split].
    + intros now. apply add_new, Hnil.
    + intros calls r. subst r.
      apply (add_times uid item calls db 0). rewrite Hnil. reflexivity.
    + intros calls r Hall Hpos. subst r.
      rewrite (add_times uid item calls db 0) by (rewrite Hnil; reflexivity).
      cbn [Nat.add]. cbv zeta in Hall. rewrite Hall.
      destruct (List.length calls); [inversion Hpos | reflexivity].
  - intros now e Hq. apply writeCart_existing, Hq.
Qed.

Lemma addToCart_increments_or_creates_witness :
  map CartRow.quantity
    (pair_rows Scenario.student 10
       (fst (addToCartTimes
               [(Scenario.morning, false, false);
                (Scenario.morning + 1000, false, false)%N;
                (Scenario.morning + 2000, false, false)%N]
               Scenario.student Scenario.biryani Scenario.empty_db)))
  = [3%Z].
Proof.
  destruct (addToCart_increments_or_creates Scenario.student Scenario.biryani
              Scenario.empty_db) as (_ & _ & Hfrom_nothing & _).
  destruct Hfrom_nothing as (_ & _ & Hall); [reflexivity|].
  apply (Hall [(Scenario.morning, false, false);
               (Scenario.morning + 1000, false, false)%N;
               (Scenario.morning + 2000, false, false)%N]).
  - vm_compute. reflexivity.
  - cbn. lia.
Defined.

(** C9, the claim as stated, fails: three successful calls from no entry
    can leave quantity 2.  The first "Add to Cart" on the biryani creates
    the entry with quantity 1.  The student then presses the button twice
    in a row, and the second of these calls reads the entry before the
    first has written: both read quantity 1, both write 2, both raise
    "Added to cart!". *)
Lemma addToCart_overlapping_counterexample :
  pair_rows Scenario.student 10 Scenario.empty_db = []
  /\ snd (Menu.handleAddToCart true (Some Scenario.student) Scenario.morning
            Scenario.biryani false false Scenario.empty_db)
     = [ToastSuccess "Added to cart!"]
  /\ map CartRow.quantity (pair_rows Scenario.student 10 Scenario.db_one) = [1%Z]
  /\ snd (fst Scenario.add_twice_quickly) = [ToastSuccess "Added to cart!"]
  /\ snd Scenario.add_twice_quickly = [ToastSuccess "Added to cart!"]
  /\ map CartRow.quantity
       (pair_rows Scenario.student 10 (fst (fst Scenario.add_twice_quickly)))
     = [2%Z].
Proof.
  vm_compute. repeat split; reflexivity.
Qed.

(* ------------------------------------------------------------------ *)
(** ** What a successful checkout has written *)

Lemma filter_numbered :
  forall order l n,
    filter (fun it => (OrderItemRow.order_id it =? OrderRow.id order)%N)
      (Pg.number_items n (Cart.orderItems order l))
    = Pg.number_items n (Cart.orderItems order l).
Proof.
  intros order l. induction l as [|x l IH]; intros n; [reflexivity|].
  cbn [Cart.orderItems map Pg.number_items filter OrderItemRow.order_id
         noi_order_id].
  rewrite N.eqb_refl. f_equal. apply IH.
Qed.

Lemma sum_numbered :
  forall order l n acc,
    fold_left (fun sum it => (sum + OrderItemRow.subtotal it)%float)
      (Pg.number_items n (Cart.orderItems order l)) acc
    = fold_left (fun sum item => (sum + Cart.line item)%float) l acc.
Proof.
  intros order l. induction l as [|x l IH]; intros n acc; [reflexivity|].
  cbn [Cart.orderItems map Pg.number_items fold_left OrderItemRow.subtotal
         noi_subtotal].
  apply IH.
Qed.

Lemma numbered_lines :
  forall order l n,
    Forall (fun it =>
              OrderItemRow.subtotal it
              = (OrderItemRow.price_at_order it
                 * Js.of_int (OrderItemRow.quantity it))%float)
           (Pg.number_items n (Cart.orderItems order l)).
Proof.
  intros order l. induction l as [|x l IH]; intros n; constructor.
  - reflexivity.
  - apply IH.
Qed.

Lemma numbered_length :
  forall order l n,
    List.length (Pg.number_items n (Cart.orderItems order l)) = List.length l.
Proof.
  intros order l. induction l as [|x l IH]; intros n; [reflexivity|].
  cbn [Cart.orderItems map Pg.number_items List.length]. f_equal. apply IH.
Qed.

(** The order items of the order that a successful checkout creates are
    the rows that this checkout wrote. *)
Lemma items_of_new_order :
  forall uid now net st db db' ev,
    order_ids_drawn db ->
    Cart.handleCheckout (Some uid) now net st db = (db', ev) ->
    succeeded ev = true ->
    let t := Cart.calculateTotal (Cart.cartItems st) in
    let order :=
      OrderRow.mk (next_uuid db) (Cart.orderNumber now) uid "pending"
        (Cart.subtotal t) (Cart.tax t) (Cart.total t) (Cart.paymentMethod st)
        "completed" now now None in
    orders db' = orders db ++ [order]
    /\ items_of (next_uuid db) db'
       = Pg.number_items (N.succ (next_uuid db))
           (Cart.orderItems order (Cart.cartItems st)).
Proof.
  intros uid now net st db db' ev Hdrawn Hrun Hok t order.
  destruct (handleCheckout_success uid now net st db db' ev Hrun Hok)
    as (Horders & Hitems & _).
  split; [exact Horders|].
  unfold items_of. rewrite Hitems, filter_app.
  rewrite (items_of_fresh db Hdrawn). cbn [app].
  apply (filter_numbered order).
Qed.

(** C4 (as the code has it). The totals are computed in doubles.  The
    subtotal of no entries is 0, and the subtotal of a list of cart
    entries followed by one more is the subtotal of the list plus
    unitPrice × quantity of the last entry: the products are added from
    the left, every product and every sum rounded to the nearest double;
    the tax is the rounded product subtotal × 0.05 and the total the
    rounded sum subtotal + tax.  A successful checkout creates one Order
    that stores exactly these three doubles, so its total is the rounded
    sum of its subtotal and its tax; its order items are the rows written
    by this checkout, one per cart entry, each with lineSubtotal = the
    rounded product priceAtOrder × quantity, and the order's subtotal is
    their lineSubtotals added from the left.  (As exact numbers the
    identities can fail.) *)
Theorem totals_of_checkout :
  (Cart.subtotal (Cart.calculateTotal []) = 0%float
   /\ forall (entries : list CartItem.t) (e : CartItem.t),
        Cart.subtotal (Cart.calculateTotal (entries ++ [e]))
        = (Cart.subtotal (Cart.calculateTotal entries)
           + CartItem.price (CartItem.menu_item e)
             * Js.of_int (CartItem.quantity e))%float)
  /\ (forall entries : list CartItem.t,
         let t := Cart.calculateTotal entries in
         Cart.tax t = (Cart.subtotal t * 0.05)%float
         /\ Cart.total t = (Cart.subtotal t + Cart.tax t)%float)
  /\ (forall uid now net st db db' ev,
         order_ids_drawn db ->
         Cart.handleCheckout (Some uid) now net st db = (db', ev) ->
         succeeded ev = true ->
         exists order,
           orders db' = orders db ++ [order]
           /\ OrderRow.subtotal order
              = Cart.subtotal (Cart.calculateTotal (Cart.cartItems st))
           /\ OrderRow.tax order
              = Cart.tax (Cart.calculateTotal (Cart.cartItems st))
           /\ OrderRow.total order
              = Cart.total (Cart.calculateTotal (Cart.cartItems st))
           /\ OrderRow.tax order = (OrderRow.subtotal order * 0.05)%float
           /\ OrderRow.total order
              = (OrderRow.subtotal order + OrderRow.tax order)%float
           /\ List.length (items_of (OrderRow.id order) db')
              = List.length (Cart.cartItems st)
           /\ Forall (fun it =>
                        OrderItemRow.subtotal it
                        = (OrderItemRow.price_at_order it
                           * Js.of_int (OrderItemRow.quantity it))%float)
                     (items_of (OrderRow.id order) db')
           /\ OrderRow.subtotal order
              = sum_subtotals (items_of (OrderRow.id order) db')).
Proof.
  split; [split|split].
  - reflexivity.
  - intros entries e. unfold Cart.calculateTotal. cbn [Cart.subtotal].
    rewrite fold_left_app. reflexivity.
  - intros entries t. subst t. split; reflexivity.
  - intros uid now net st db db' ev Hdrawn Hrun Hok.
    destruct (items_of_new_order uid now net st db db' ev Hdrawn Hrun Hok)
      as (Horders & Hmine).
    eexists. split; [exact Horders|].
    cbn [OrderRow.subtotal OrderRow.tax OrderRow.total OrderRow.id].
    rewrite Hmine. repeat split.
    + apply numbered_length.
    + apply numbered_lines.
    + unfold sum_subtotals. rewrite sum_numbered. reflexivity.
Qed.

Lemma totals_of_checkout_witness :
  Cart.subtotal (Cart.calculateTotal (Cart.cartItems Scenario.page)) = 350%float
  /\ Cart.tax (Cart.calculateTotal (Cart.cartItems Scenario.page)) = 17.5%float
  /\ Cart.total (Cart.calculateTotal (Cart.cartItems Scenario.page))
     = 367.5%float
  /\ exists order,
       orders Scenario.db_ordered = orders Scenario.db_cart ++ [order]
       /\ OrderRow.total order
          = (OrderRow.subtotal order + OrderRow.tax order)%float
       /\ List.length (items_of (OrderRow.id order) Scenario.db_ordered) = 2%nat
       /\ OrderRow.subtotal order
          = sum_subtotals (items_of (OrderRow.id order) Scenario.db_ordered).
Proof.
  destruct totals_of_checkout as (_ & _ & Hcheckout).
  repeat split; try (vm_compute; reflexivity).
  destruct (Hcheckout Scenario.student Scenario.noon Scenario.no_faults
              Scenario.page Scenario.db_cart Scenario.db_ordered
              [ToastSuccess "Order placed successfully!"; Navigate "/orders"])
    as (order & Horders & _ & _ & _ & _ & Htotal & Hlen & _ & Hsum).
  - constructor.
  - vm_compute. reflexivity.
  - reflexivity.
  - exists order. repeat split; assumption.
Defined.

(** C4, the claim as stated, fails: the amounts are doubles, and the
    identities hold only up to rounding.  The student orders one thali at
    101.  The checkout succeeds and stores subtotal 101, tax
    5.050000000000001 (which is not the double 5.05) and total 106.05.
    As exact numbers, the stored tax is not 5% of the stored subtotal and
    the stored total is not the stored subtotal plus the stored tax. *)
Lemma totals_rounding_counterexample :
  map (fun i => (CartItem.price (CartItem.menu_item i), CartItem.quantity i))
    (Cart.cartItems Scenario.page_thali) = [(101%float, 1%Z)]
  /\ snd Scenario.checkout_thali
     = [ToastSuccess "Order placed successfully!"; Navigate "/orders"]
  /\ map (fun o => (OrderRow.subtotal o, OrderRow.tax o, OrderRow.total o))
       (orders (fst Scenario.checkout_thali))
     = [(101, 5.050000000000001, 106.05)%float]
  /\ (5.050000000000001 =? 5.05)%float = false
  /\ map exact_identities (orders (fst Scenario.checkout_thali))
     = [Some (false, false)].
Proof.
  vm_compute. repeat split; reflexivity.
Qed.

(* ------------------------------------------------------------------ *)
(** ** The price snapshot *)

Lemma embed_menu_item_price :
  forall auth db r,
    Forall (fun item =>
              catalog_price auth db (CartItem.mid (CartItem.menu_item item))
                (CartItem.price (CartItem.menu_item item)))
           (Pg.embed_menu_item auth db r).
Proof.
  intros auth db r. unfold Pg.embed_menu_item.
  destruct (Pg.find_menu_item auth (CartRow.menu_item_id r) db) as [m|] eqn:Hfind;
    [|constructor].
  constructor; [|constructor].
  cbn [CartItem.menu_item CartItem.mid CartItem.price].
  exists m. split; [|reflexivity].
  pose proof Hfind as Hm. unfold Pg.find_menu_item in Hm.
  apply find_some in Hm. destruct Hm as [_ Hm].
  apply andb_true_iff in Hm. destruct Hm as [Hid _].
  apply N.eqb_eq in Hid. rewrite Hid. exact Hfind.
Qed.

Lemma loadCart_prices :
  forall uid st0 db,
    Forall (fun item =>
              catalog_price (Some uid) db (CartItem.mid (CartItem.menu_item item))
                (CartItem.price (CartItem.menu_item item)))
           (Cart.cartItems (fst (Cart.loadCart (Some uid) false st0 db))).
Proof.
  intros uid st0 db. unfold Cart.loadCart, Pg.select_cart.
  cbn [fst Cart.cartItems]. apply Forall_flat_map.
  apply Forall_forall. intros r _. apply embed_menu_item_price.
Qed.

Lemma numbered_prices :
  forall order l n,
    map OrderItemRow.price_at_order (Pg.number_items n (Cart.orderItems order l))
    = map (fun item => CartItem.price (CartItem.menu_item item)) l.
Proof.
  intros order l. induction l as [|x l IH]; intros n; [reflexivity|].
  cbn [Cart.orderItems map Pg.number_items OrderItemRow.price_at_order
         noi_price_at_order].
  f_equal. apply IH.
Qed.

Lemma numbered_catalog_prices :
  forall auth db order l n,
    Forall (fun item =>
              catalog_price auth db (CartItem.mid (CartItem.menu_item item))
                (CartItem.price (CartItem.menu_item item))) l ->
    Forall (fun it =>
              catalog_price auth db (OrderItemRow.menu_item_id it)
                (OrderItemRow.price_at_order it))
           (Pg.number_items n (Cart.orderItems order l)).
Proof.
  intros auth db order l. induction l as [|x l IH]; intros n Hl; [constructor|].
  inversion Hl as [|? ? Hx Hrest]; subst.
  cbn [Cart.orderItems map Pg.number_items]. constructor.
  - exact Hx.
  - apply IH, Hrest.
Qed.

Lemma lineTotal_embed :
  forall auth db catalog o,
    map (fun it => (Order.quantity it, Order.price_at_order it,
                    OrdersPage.lineTotal it))
      (Pg.embed_order_items auth (Pg.set_menu_items db catalog) o)
    = map (fun it => (Order.quantity it, Order.price_at_order it,
                      OrdersPage.lineTotal it))
        (Pg.embed_order_items auth db o).
Proof.
  intros auth db catalog o. unfold Pg.embed_order_items.
  cbn [order_items Pg.set_menu_items]. rewrite !map_map.
  apply map_ext. intros it. reflexivity.
Qed.

(** C7 (as the code has it). A successful checkout creates one order
    whose order items carry, in cart order, the prices of the cart
    entries that the Cart page holds: [price_at_order] is the entry's
    menu item price.  That price was read with the cart: when the page
    has loaded its cart from some store, it is the catalog price of the
    menu item in that store, at that time; [handleCheckout] does not read
    the catalog.  Whatever the catalog becomes after the checkout, the
    stored order items are the same rows, and the quantity,
    [price_at_order] and line total that the Orders page shows for every
    order are unchanged. *)
Theorem price_snapshot :
  forall (uid : Uuid) (now : N) (net : Cart.checkout_faults)
         (st : Cart.state) (db db' : Db) (ev : list Event),
    order_ids_drawn db ->
    Cart.handleCheckout (Some uid) now net st db = (db', ev) ->
    succeeded ev = true ->
    exists order,
      orders db' = orders db ++ [order]
      /\ map OrderItemRow.price_at_order (items_of (OrderRow.id order) db')
         = map (fun item => CartItem.price (CartItem.menu_item item))
             (Cart.cartItems st)
      /\ (forall st0 db0,
             st = fst (Cart.loadCart (Some uid) false st0 db0) ->
             Forall (fun it =>
                       catalog_price (Some uid) db0 (OrderItemRow.menu_item_id it)
                         (OrderItemRow.price_at_order it))
                    (items_of (OrderRow.id order) db'))
      /\ (forall catalog,
             order_items (Pg.set_menu_items db' catalog) = order_items db'
             /\ forall auth o,
                 map (fun it => (Order.quantity it, Order.price_at_order it,
                                 OrdersPage.lineTotal it))
                   (Order.order_items
                      (Pg.order_view auth (Pg.set_menu_items db' catalog) o))
                 = map (fun it => (Order.quantity it, Order.price_at_order it,
                                   OrdersPage.lineTotal it))
                     (Order.order_items (Pg.order_view auth db' o))).
Proof.
  intros uid now net st db db' ev Hdrawn Hrun Hok.
  destruct (items_of_new_order uid now net st db db' ev Hdrawn Hrun Hok)
    as (Horders & Hmine).
  eexists. split; [exact Horders|]. cbn [OrderRow.id].
  rewrite Hmine. split; [|split].
  - apply numbered_prices.
  - intros st0 db0 Hst. apply numbered_catalog_prices.
    rewrite Hst. apply loadCart_prices.
  - intros catalog. split; [reflexivity|].
    intros auth o. cbn [Pg.order_view Order.order_items].
    apply lineTotal_embed.
Qed.

Lemma price_snapshot_witness :
  exists order,
    orders Scenario.db_ordered = orders Scenario.db_cart ++ [order]
    /\ map OrderItemRow.price_at_order
         (items_of (OrderRow.id order) Scenario.db_ordered)
       = [100; 150]%float.
Proof.
  destruct (price_snapshot Scenario.student Scenario.noon Scenario.no_faults
              Scenario.page Scenario.db_cart Scenario.db_ordered
              [ToastSuccess "Order placed successfully!"; Navigate "/orders"])
    as (order & Horders & Hsnap & _).
  - constructor.
  - vm_compute. reflexivity.
  - reflexivity.
  - exists order. split; [exact Horders | exact Hsnap].
Defined.

(** C7, the claim as stated, fails in its first part: the price that is
    frozen is not the MenuItem price at checkout time.  The Cart page
    loaded the cart when the biryani cost 100; the price then went to
    120; the student places the order.  At checkout time the catalog
    says 120, the order item carries 100, and the order is billed 350. *)
Lemma stale_price_counterexample :
  map (fun m => (MenuItem.id m, MenuItem.price m)) (menu_items Scenario.db_dearer)
  = [(10%N, 120%float); (11%N, 150%float)]
  /\ map (fun i => (CartItem.mid (CartItem.menu_item i),
                    CartItem.price (CartItem.menu_item i)))
       (Cart.cartItems Scenario.page)
     = [(10%N, 100%float); (11%N, 150%float)]
  /\ snd Scenario.checkout_dearer
     = [ToastSuccess "Order placed successfully!"; Navigate "/orders"]
  /\ map (fun it => (OrderItemRow.menu_item_id it, OrderItemRow.price_at_order it))
       (items_of 102 (fst Scenario.checkout_dearer))
     = [(10%N, 100%float); (11%N, 150%float)]
  /\ map OrderRow.subtotal (orders (fst Scenario.checkout_dearer))
     = [350%float].
Proof.
  vm_compute. repeat split; reflexivity.
Qed.

(* ------------------------------------------------------------------ *)
(** ** Decimal digits and the order number *)

Section Digits.

Local Open Scope N_scope.

Lemma digit_char_inj :
  forall d1 d2, d1 < 10 -> d2 < 10 ->
    Js.digit_char d1 = Js.digit_char d2 -> d1 = d2.
Proof.
  intros d1 d2 H1 H2 Heq. unfold Js.digit_char in Heq.
  apply (f_equal N_of_ascii) in Heq.
  rewrite !N_ascii_embedding in Heq by lia. lia.
Qed.

Lemma digits_le_small :
  forall fuel n, Forall (fun d => d < 10) (Js.digits_le fuel n).
Proof.
  induction fuel as [|fuel IH]; intros n; cbn [Js.digits_le]; [constructor|].
  destruct (N.ltb_spec n 10) as [Hlt|Hge].
  - constructor; [exact Hlt | constructor].
  - constructor; [|apply IH]. apply N.mod_lt. discriminate.
Qed.

Lemma map_digit_char_inj :
  forall l1 l2,
    Forall (fun d => d < 10) l1 -> Forall (fun d => d < 10) l2 ->
    map Js.digit_char l1 = map Js.digit_char l2 -> l1 = l2.
Proof.
  induction l1 as [|d1 l1 IH]; intros [|d2 l2] H1 H2 Heq;
    try discriminate; [reflexivity|].
  inversion H1; subst. inversion H2; subst.
  cbn [map] in Heq. injection Heq as Hd Hl. f_equal.
  - apply digit_char_inj; assumption.
  - apply IH; assumption.
Qed.

(** The printer is right: with the fuel [toString] gives it, the digits
    write the number back. *)
Lemma digits_le_value :
  forall fuel n, n < 10 ^ N.of_nat fuel ->
    Js.value_le (Js.digits_le fuel n) = n.
Proof.
  induction fuel as [|fuel IH]; intros n Hn.
  - cbn in Hn. cbn. lia.
  - cbn [Js.digits_le]. destruct (N.ltb_spec n 10) as [Hlt|Hge].
    + cbn [Js.value_le]. lia.
    + cbn [Js.value_le]. rewrite IH.
      * pose proof (N.div_mod n 10). lia.
      * rewrite Nat2N.inj_succ, N.pow_succ_r' in Hn.
        apply N.Div0.div_lt_upper_bound. exact Hn.
Qed.

Lemma toString_fuel :
  forall n, n < 10 ^ N.of_nat (S (N.to_nat (N.log2 n))).
Proof.
  intros n. rewrite Nat2N.inj_succ, N2Nat.id.
  destruct (N.eq_dec n 0) as [->|Hpos].
  - cbn. lia.
  - destruct (N.log2_spec n) as [_ Hup]; [lia|].
    eapply N.lt_le_trans; [exact Hup|].
    apply N.pow_le_mono_l. lia.
Qed.

Lemma toString_value :
  forall n,
    Js.value_le (Js.digits_le (S (N.to_nat (N.log2 n))) n) = n.
Proof. intros n. apply digits_le_value, toString_fuel. Qed.

(** The first [S k] digits do not depend on the fuel, once the number
    has that many digits. *)
Lemma digits_le_prefix :
  forall k fuel n,
    (S k <= fuel)%nat -> 10 ^ N.of_nat k <= n ->
    firstn (S k) (Js.digits_le fuel n) = Js.digits_le (S k) n.
Proof.
  induction k as [|k IH]; intros fuel n Hfuel Hn.
  - destruct fuel as [|fuel]; [lia|]. cbn [Js.digits_le].
    destruct (n <? 10); reflexivity.
  - destruct fuel as [|fuel]; [lia|].
    rewrite Nat2N.inj_succ, N.pow_succ_r' in Hn.
    assert (H10 : 10 <= n).
    { assert (10 ^ N.of_nat k <> 0) by (apply N.pow_nonzero; discriminate).
      lia. }
    cbn [Js.digits_le]. apply N.ltb_ge in H10. rewrite H10.
    change (firstn (S (S k)) (?d :: ?l)) with (d :: firstn (S k) l).
    f_equal. apply IH; [lia|].
    apply N.div_le_lower_bound; [discriminate | exact Hn].
Qed.

Lemma digits_le_mod :
  forall k n,
    10 ^ N.of_nat k <= n ->
    Js.value_le (Js.digits_le (S k) n) = n mod 10 ^ N.of_nat (S k)
    /\ List.length (Js.digits_le (S k) n) = S k.
Proof.
  induction k as [|k IH]; intros n Hn.
  - cbn [Js.digits_le]. change (10 ^ N.of_nat 1) with 10.
    destruct (N.ltb_spec n 10) as [Hlt|Hge]; cbn [Js.value_le List.length].
    + rewrite N.mod_small by exact Hlt. split; [lia | reflexivity].
    + split; [lia | reflexivity].
  - rewrite Nat2N.inj_succ, N.pow_succ_r' in Hn.
    assert (H1 : 10 ^ N.of_nat k <> 0) by (apply N.pow_nonzero; discriminate).
    assert (H10 : (n <? 10) = false) by (apply N.ltb_ge; lia).
    assert (Hdiv : 10 ^ N.of_nat k <= n / 10).
    { apply N.div_le_lower_bound; [discriminate | exact Hn]. }
    destruct (IH (n / 10) Hdiv) as [Hval Hlen].
    change (Js.digits_le (S (S k)) n)
      with (if n <? 10 then [n] else n mod 10 :: Js.digits_le (S k) (n / 10)).
    rewrite H10. cbn [Js.value_le List.length]. rewrite Hval, Hlen.
    split; [|reflexivity].
    rewrite (Nat2N.inj_succ (S k)), N.pow_succ_r'.
    rewrite N.Div0.mod_mul_r. reflexivity.
Qed.

Lemma value_le_inj :
  forall l1 l2,
    List.length l1 = List.length l2 ->
    Forall (fun d => d < 10) l1 -> Forall (fun d => d < 10) l2 ->
    Js.value_le l1 = Js.value_le l2 -> l1 = l2.
Proof.
  induction l1 as [|d1 l1 IH]; intros [|d2 l2] Hlen H1 H2 Hval;
    try discriminate; [reflexivity|].
  inversion H1; subst. inversion H2; subst.
  cbn [Js.value_le] in Hval. cbn [List.length] in Hlen.
  assert (d1 = d2 /\ Js.value_le l1 = Js.value_le l2) as [-> Hrest] by lia.
  f_equal. apply IH; [lia | assumption | assumption | exact Hrest].
Qed.

End Digits.

Lemma substring_of_list :
  forall (l : list ascii) (n m : nat),
    substring n m (string_of_list_ascii l)
    = string_of_list_ascii (firstn m (skipn n l)).
Proof.
  induction l as [|c l IH]; intros n m.
  - destruct n, m; reflexivity.
  - destruct n as [|n].
    + destruct m as [|m]; [reflexivity|].
      cbn [string_of_list_ascii substring skipn firstn]. f_equal.
      rewrite IH. reflexivity.
    + cbn [string_of_list_ascii substring skipn]. apply IH.
Qed.

Lemma length_of_list :
  forall l : list ascii, String.length (string_of_list_ascii l) = List.length l.
Proof.
  induction l as [|c l IH]; [reflexivity|]. cbn. f_equal. exact IH.
Qed.

Lemma string_of_list_inj :
  forall l1 l2 : list ascii,
    string_of_list_ascii l1 = string_of_list_ascii l2 -> l1 = l2.
Proof.
  intros l1 l2 H. apply (f_equal list_ascii_of_string) in H.
  rewrite !list_ascii_of_string_of_list_ascii in H. exact H.
Qed.

(** [slice(-k)] of a printed list keeps its last [k] characters. *)
Lemma slice_last_of_rev :
  forall (k : nat) (l : list ascii),
    (k <= List.length l)%nat ->
    Js.slice_last k (string_of_list_ascii (rev l))
    = string_of_list_ascii (rev (firstn k l)).
Proof.
  intros k l Hk. unfold Js.slice_last.
  rewrite length_of_list, length_rev, substring_of_list, skipn_rev.
  replace (List.length l - (List.length l - k))%nat with k by lia.
  rewrite firstn_all2; [reflexivity|].
  rewrite length_rev, length_firstn. lia.
Qed.

(** From 100000 on, the order number is "ORD-" followed by the six lowest
    decimal digits of the clock. *)
Lemma orderNumber_six_digits :
  forall now : N,
    (100000 <= now)%N ->
    Cart.orderNumber now
    = ("ORD-" ++ string_of_list_ascii
                   (rev (map Js.digit_char (Js.digits_le 6 now))))%string.
Proof.
  intros now Hnow. unfold Cart.orderNumber, Js.toString. f_equal.
  assert (Hfuel : (6 <= S (N.to_nat (N.log2 now)))%nat).
  { assert (16 <= N.log2 now)%N
      by (change 16%N with (N.log2 100000); apply N.log2_le_mono, Hnow).
    lia. }
  set (fuel := S (N.to_nat (N.log2 now))) in *.
  assert (Hprefix : firstn 6 (Js.digits_le fuel now) = Js.digits_le 6 now)
    by (apply (digits_le_prefix 5); [exact Hfuel | exact Hnow]).
  rewrite slice_last_of_rev.
  - rewrite firstn_map, Hprefix. reflexivity.
  - rewrite length_map.
    rewrite <- (firstn_skipn 6 (Js.digits_le fuel now)), Hprefix, length_app.
    destruct (digits_le_mod 5 now Hnow) as [_ Hlen]. rewrite Hlen. lia.
Qed.

Lemma orderNumber_eq_iff :
  forall t1 t2 : N,
    (100000 <= t1)%N -> (100000 <= t2)%N ->
    (Cart.orderNumber t1 = Cart.orderNumber t2
     <-> (t1 mod 1000000 = t2 mod 1000000)%N).
Proof.
  intros t1 t2 H1 H2.
  rewrite (orderNumber_six_digits t1 H1), (orderNumber_six_digits t2 H2).
  destruct (digits_le_mod 5 t1 H1) as [Hv1 Hl1].
  destruct (digits_le_mod 5 t2 H2) as [Hv2 Hl2].
  change (10 ^ N.of_nat 6)%N with 1000000%N in Hv1, Hv2.
  rewrite <- Hv1, <- Hv2.
  pose proof (digits_le_small 6 t1) as Hs1.
  pose proof (digits_le_small 6 t2) as Hs2.
  clear Hv1 Hv2.
  generalize dependent (Js.digits_le 6 t2).
  generalize dependent (Js.digits_le 6 t1).
  intros d1 Hl1 Hs1 d2 Hl2 Hs2. split.
  - intros Heq. cbn [append] in Heq. injection Heq as Heq.
    apply string_of_list_inj in Heq.
    apply (f_equal (@rev ascii)) in Heq. rewrite !rev_involutive in Heq.
    apply map_digit_char_inj in Heq; [|assumption|assumption].
    rewrite Heq. reflexivity.
  - intros Heq. rewrite (value_le_inj d1 d2); [reflexivity| |assumption|assumption|exact Heq].
    congruence.
Qed.

Lemma NoDup_snoc :
  forall (A : Type) (l : list A) (x : A),
    NoDup l -> ~ In x l -> NoDup (l ++ [x]).
Proof.
  intros A l x Hl Hx. induction Hl as [|y l Hy Hl IH]; cbn [app].
  - constructor; [intros []|constructor].
  - constructor.
    + rewrite in_app_iff. intros [Hin|[Heq|[]]].
      * exact (Hy Hin).
      * apply Hx. left. symmetry. exact Heq.
    + apply IH. intros Hin. apply Hx. right. exact Hin.
Qed.

Lemma number_taken :
  forall num l,
    existsb (fun o => (OrderRow.order_number o =? num)%string) l = true
    <-> In num (map OrderRow.order_number l).
Proof.
  intros num l. rewrite existsb_exists, in_map_iff. split.
  - intros (o & Hin & Heq). apply String.eqb_eq in Heq. exists o. tauto.
  - intros (o & Heq & Hin). exists o. split; [exact Hin|].
    apply String.eqb_eq. exact Heq.
Qed.

Lemma handleCheckout_orders :
  forall user now net st db,
    let db' := fst (Cart.handleCheckout user now net st db) in
    orders db' = orders db
    \/ (exists order,
           orders db' = orders db ++ [order]
           /\ OrderRow.order_number order = Cart.orderNumber now
           /\ ~ In (Cart.orderNumber now) (map OrderRow.order_number (orders db))).
Proof.
  intros user now net st db. cbv zeta. unfold Cart.handleCheckout.
  destruct user as [uid|]; [|left; reflexivity].
  destruct (List.length (Cart.cartItems st) =? 0)%nat; [left; reflexivity|].
  destruct (Pg.insert_order _ _ _ _ _ _ _ _ _ _ _ _) as [[order db1]|e] eqn:Ho;
    [|left; reflexivity].
  apply insert_order_inv in Ho. destruct Ho as (Horder & Hdb1 & _ & _ & Hfree).
  right. exists order.
  assert (Hkept : forall d, orders d = orders db1 ->
                            orders d = orders db ++ [order])
    by (intros d ->; subst db1; reflexivity).
  repeat split.
  - destruct (Pg.insert_order_items _ _ _ _) as [db2|e] eqn:Hi.
    + apply insert_order_items_inv in Hi. destruct Hi as (Hdb2 & _).
      unfold Pg.delete_cart_of.
      destruct (Cart.clearError net); cbn [fst]; apply Hkept; subst db2;
        reflexivity.
    + cbn [fst]. apply Hkept. reflexivity.
  - subst order. reflexivity.
  - intros Hin. apply number_taken in Hin. rewrite Hin in Hfree. discriminate.
Qed.

(** C5 (as the code has it). [handleCheckout] derives the order number
    once from the clock: from 100000 ms on, two readings give the same
    number exactly when they agree modulo 1000000.  There is no retry and
    no Conflict: if the number is already taken, the store's UNIQUE
    constraint refuses the insert and the checkout stops at once with
    "Failed to create order", the store unchanged.  Because the store
    refuses a taken number, the order numbers in the store stay pairwise
    distinct under checkout, and two successful checkouts, the second on
    a store that still holds the first one's number, have distinct order
    numbers. *)
Theorem order_number_single_attempt :
  (forall t1 t2 : N,
      (100000 <= t1)%N -> (100000 <= t2)%N ->
      (Cart.orderNumber t1 = Cart.orderNumber t2
       <-> (t1 mod 1000000 = t2 mod 1000000)%N))
  /\ (forall uid now net st db,
         Cart.cartItems st <> [] ->
         In (Cart.orderNumber now) (map OrderRow.order_number (orders db)) ->
         Cart.handleCheckout (Some uid) now net st db
         = (db, [ToastError "Failed to create order"]))
  /\ (forall user now net st db,
         NoDup (map OrderRow.order_number (orders db)) ->
         NoDup (map OrderRow.order_number
                  (orders (fst (Cart.handleCheckout user now net st db)))))
  /\ (forall uid1 now1 net1 st1 db db1 ev1 uid2 now2 net2 st2 db_mid db2 ev2,
         Cart.handleCheckout (Some uid1) now1 net1 st1 db = (db1, ev1) ->
         succeeded ev1 = true ->
         incl (map OrderRow.order_number (orders db1))
              (map OrderRow.order_number (orders db_mid)) ->
         Cart.handleCheckout (Some uid2) now2 net2 st2 db_mid = (db2, ev2) ->
         succeeded ev2 = true ->
         Cart.orderNumber now1 <> Cart.orderNumber now2).
Proof.
  split; [exact orderNumber_eq_iff|split; [|split]].
  - intros uid now net st db Hcart Htaken.
    apply number_taken in Htaken. unfold Cart.handleCheckout.
    destruct (Cart.cartItems st) as [|x l] eqn:Hitems; [contradiction|].
    cbn [List.length Nat.eqb]. unfold Pg.insert_order. rewrite Htaken.
    destruct (Cart.orderError net); [reflexivity|].
    destruct (negb (Pg.is_uid (Some uid) uid)); [reflexivity|].
    destruct (negb _); reflexivity.
  - intros user now net st db Hnodup.
    destruct (handleCheckout_orders user now net st db)
      as [Hsame|(order & Hnew & Hnum & Hfree)].
    + rewrite Hsame. exact Hnodup.
    + rewrite Hnew, map_app. cbn [map]. rewrite Hnum.
      apply NoDup_snoc; assumption.
  - intros uid1 now1 net1 st1 db db1 ev1 uid2 now2 net2 st2 db_mid db2 ev2
           Hrun1 Hok1 Hkept Hrun2 Hok2 Heq.
    destruct (handleCheckout_success _ _ _ _ _ _ _ Hrun1 Hok1) as (Horders1 & _).
    destruct (handleCheckout_success _ _ _ _ _ _ _ Hrun2 Hok2)
      as (_ & _ & _ & Hfree & _).
    assert (Hin : In (Cart.orderNumber now1)
                     (map OrderRow.order_number (orders db_mid))).
    { apply Hkept. rewrite Horders1, map_app, in_app_iff. right. left.
      reflexivity. }
    rewrite Heq in Hin. apply number_taken in Hin.
    rewrite Hin in Hfree. discriminate.
Qed.

Lemma order_number_single_attempt_witness :
  Cart.orderNumber Scenario.noon = Cart.orderNumber (Scenario.noon + 1000000)
  /\ Cart.handleCheckout (Some Scenario.student) (Scenario.noon + 1000000)
       Scenario.no_faults Scenario.page Scenario.db_uncleared
     = (Scenario.db_uncleared, [ToastError "Failed to create order"]).
Proof.
  destruct order_number_single_attempt as (Hsame & Hstop & _).
  split.
  - apply Hsame; [vm_compute; discriminate | vm_compute; discriminate
                  | vm_compute; reflexivity].
  - apply Hstop; [discriminate | vm_compute; left; reflexivity].
Defined.

(** C5, the claim as stated, fails: the student's first order got number
    "ORD-123456"; the cart could not be cleared, and the student places
    the order again 1000 seconds later.  The clock gives the same six
    digits, the store refuses the number, and the checkout fails with
    "Failed to create order" after this single attempt: no second number
    is tried, the store is unchanged, although the number of the next
    millisecond is free and a checkout then goes through. *)
Lemma order_number_collision_counterexample :
  map OrderRow.order_number (orders Scenario.db_uncleared) = ["ORD-123456"]
  /\ Cart.orderNumber Scenario.later = "ORD-123456"
  /\ snd Scenario.checkout_again = [ToastError "Failed to create order"]
  /\ fst Scenario.checkout_again = Scenario.db_uncleared
  /\ Cart.orderNumber (Scenario.later + 1) = "ORD-123457"
  /\ succeeded (snd (Cart.handleCheckout (Some Scenario.student)
                       (Scenario.later + 1) Scenario.no_faults Scenario.page
                       Scenario.db_uncleared))
     = true.
Proof.
  vm_compute. repeat split; reflexivity.
Qed.

(* ================================================================== *)
(** * More properties of the pages *)

(* ------------------------------------------------------------------ *)
(** ** The Cart page after a change *)

Lemma embed_menu_item_ext :
  forall auth db db' r,
    menu_items db' = menu_items db ->
    Pg.embed_menu_item auth db' r = Pg.embed_menu_item auth db r.
Proof.
  intros auth db db' r Hmenu.
  unfold Pg.embed_menu_item, Pg.find_menu_item. rewrite Hmenu. reflexivity.
Qed.

Lemma embed_menu_item_id :
  forall auth db r i,
    In i (Pg.embed_menu_item auth db r) ->
    CartItem.id i = CartRow.id r /\ CartItem.quantity i = CartRow.quantity r.
Proof.
  intros auth db r i. unfold Pg.embed_menu_item.
  destruct (Pg.find_menu_item auth (CartRow.menu_item_id r) db); cbn [In].
  - intros [<-|[]]. split; reflexivity.
  - intros [].
Qed.

Lemma loadCart_items :
  forall uid st db,
    Cart.cartItems (fst (Cart.loadCart (Some uid) false st db))
    = flat_map (Pg.embed_menu_item (Some uid) db)
        (filter (fun r => Pg.cart_visible (Some uid) r
                          && (CartRow.student_id r =? uid)%N)
                (cart_items db)).
Proof. reflexivity. Qed.

Lemma flat_map_filter_items :
  forall auth db (keep_row : CartRow.row -> bool) (keep : CartItem.t -> bool) rows,
    (forall r i, In r rows -> In i (Pg.embed_menu_item auth db r) ->
                 keep i = keep_row r) ->
    flat_map (Pg.embed_menu_item auth db) (filter keep_row rows)
    = filter keep (flat_map (Pg.embed_menu_item auth db) rows).
Proof.
  intros auth db keep_row keep rows. induction rows as [|r rows IH]; intros Hkeep.
  - reflexivity.
  - cbn [filter flat_map]. rewrite filter_app.
    assert (Hr : filter keep (Pg.embed_menu_item auth db r)
                 = if keep_row r then Pg.embed_menu_item auth db r else []).
    { assert (Hall : forall i, In i (Pg.embed_menu_item auth db r) ->
                               keep i = keep_row r)
        by (intros i Hi; apply (Hkeep r i); [left; reflexivity | exact Hi]).
      revert Hall. generalize (Pg.embed_menu_item auth db r) as l.
      induction l as [|i l IHl]; intros Hall.
      - destruct (keep_row r); reflexivity.
      - cbn [filter]. rewrite (Hall i) by (left; reflexivity).
        rewrite IHl by (intros i' Hi'; apply Hall; right; exact Hi').
        destruct (keep_row r); reflexivity. }
    rewrite Hr, <- IH by (intros r' i Hr' Hi; apply Hkeep; [right|]; assumption).
    destruct (keep_row r); reflexivity.
Qed.

Lemma filter_own_after_delete :
  forall auth uid itemId (l : list CartRow.row),
    filter (fun r => Pg.cart_visible auth r && (CartRow.student_id r =? uid)%N)
      (filter (fun r => negb (Pg.cart_visible auth r
                              && (CartRow.id r =? itemId)%N)) l)
    = filter (fun r => negb (CartRow.id r =? itemId)%N)
        (filter (fun r => Pg.cart_visible auth r
                          && (CartRow.student_id r =? uid)%N) l).
Proof.
  intros auth uid itemId l. induction l as [|r l IH]; [reflexivity|].
  cbn [filter].
  destruct (Pg.cart_visible auth r) eqn:Hv,
           (CartRow.student_id r =? uid)%N eqn:Hs,
           (CartRow.id r =? itemId)%N eqn:Hi;
    cbn [andb negb filter]; rewrite ?Hv, ?Hs, ?Hi; cbn [andb negb filter];
    rewrite ?Hi; cbn [negb]; rewrite IH; reflexivity.
Qed.

(** X1. After [removeItem] went through, the Cart page shows what a load
    of the cart before the removal shows, without the entry removed:
    every other entry is there, in the same order, with the same quantity
    and price.  On a page that showed the cart as the store held it, that
    is the cart it showed before, without the entry.  When the delete
    fails, the store and the page are as before and an error toast is
    raised. *)
Theorem removeItem_shows_the_rest :
  forall (uid itemId : Uuid) (st : Cart.state) (db : Db),
    let loaded := Cart.cartItems (fst (Cart.loadCart (Some uid) false st db)) in
    let shown :=
      Cart.cartItems
        (fst (fst (Cart.removeItem (Some uid) itemId false false st db))) in
    shown = filter (fun i => negb (CartItem.id i =? itemId)%N) loaded
    /\ (Cart.cartItems st = loaded ->
        shown = filter (fun i => negb (CartItem.id i =? itemId)%N)
                  (Cart.cartItems st))
    /\ snd (Cart.removeItem (Some uid) itemId false false st db)
       = [ToastSuccess "Item removed from cart"]
    /\ (forall reload_fault,
           Cart.removeItem (Some uid) itemId true reload_fault st db
           = (st, db, [ToastError "Failed to remove item"])).
Proof.
  intros uid itemId st db loaded shown.
  assert (Hshown : shown = filter (fun i => negb (CartItem.id i =? itemId)%N)
                             loaded).
  { subst shown loaded.
    unfold Cart.removeItem, Pg.delete_cart_item.
    destruct (Cart.loadCart (Some uid) false st
                (Pg.set_cart_items db
                   (filter (fun r => negb (Pg.cart_visible (Some uid) r
                                           && (CartRow.id r =? itemId)%N))
                           (cart_items db)))) as [st' ev] eqn:Hload.
    cbn [fst]. apply (f_equal fst) in Hload. cbn [fst] in Hload. rewrite <- Hload.
    rewrite !loadCart_items. cbn [cart_items Pg.set_cart_items].
    rewrite (flat_map_ext _ (Pg.embed_menu_item (Some uid) db))
      by (intros r; apply embed_menu_item_ext; reflexivity).
    rewrite <- (flat_map_filter_items (Some uid) db
                  (fun r => negb (CartRow.id r =? itemId)%N)).
    - f_equal. apply filter_own_after_delete.
    - intros r i _ Hi. apply embed_menu_item_id in Hi. destruct Hi as [-> _].
      reflexivity. }
  split; [exact Hshown|]. split; [|split; [reflexivity | reflexivity]].
  intros Hsync. rewrite Hsync. exact Hshown.
Qed.

Lemma removeItem_shows_the_rest_witness :
  map CartItem.id
    (Cart.cartItems
       (fst (fst (Cart.removeItem (Some Scenario.student) 100 false false
                    Scenario.page Scenario.db_cart))))
  = [101%N].
Proof.
  destruct (removeItem_shows_the_rest Scenario.student 100 Scenario.page
              Scenario.db_cart) as (_ & Hsync & _).
  rewrite Hsync; reflexivity.
Defined.


Lemma update_cart_quantity_accepts :
  forall auth itemId q now db,
    (1 <= q <= 2147483647)%Z ->
    Pg.update_cart_quantity auth itemId q now false db
    = inl (Pg.set_cart_items db
             (map (fun r => if Pg.cart_visible auth r && (CartRow.id r =? itemId)%N
                            then Pg.set_quantity q now r else r)
                  (cart_items db))).
Proof.
  intros auth itemId q now db Hq. unfold Pg.update_cart_quantity.
  assert (Hrange : Pg.int4_ok q = true).
  { unfold Pg.int4_ok. apply andb_true_iff. split; apply Z.leb_le; lia. }
  assert (Hpos : (0 <? q)%Z = true) by (apply Z.ltb_lt; lia).
  rewrite Hrange, Hpos. cbn [negb]. rewrite andb_false_r. reflexivity.
Qed.



(** X3. Plus then minus: when the rows that [updateQuantity] writes for
    an entry hold quantity [q], from 1 to 2147483646, raising the entry
    to [q + 1] and lowering it back to [q] leaves every cart row with the
    id, owner, dish, quantity and creation time it had, and the rest of
    the store as it was.  Of the rows written, only [updated_at] has
    moved: the trigger has stamped it with the time of the second
    write. *)
Theorem plus_then_minus_restores_store :
  forall (uid : Uuid) (now1 now2 : N) (itemId : Uuid) (q : Z) (st : Cart.state)
         (db : Db),
    (1 <= q < 2147483647)%Z ->
    (forall r, In r (cart_items db) ->
               Pg.cart_visible (Some uid) r = true ->
               CartRow.id r = itemId -> CartRow.quantity r = q) ->
    let r1 := Cart.updateQuantity (Some uid) now1 itemId (q + 1) false false
                st db in
    let r2 := Cart.updateQuantity (Some uid) now2 itemId q false false
                (fst (fst r1)) (snd (fst r1)) in
    let db2 := snd (fst r2) in
    map cart_core (cart_items db2) = map cart_core (cart_items db)
    /\ cart_items db2
       = map (fun r => if Pg.cart_visible (Some uid) r && (CartRow.id r =? itemId)%N
                       then Pg.set_quantity (CartRow.quantity r) now2 r
                       else r)
           (cart_items db)
    /\ profiles db2 = profiles db /\ menu_items db2 = menu_items db
    /\ orders db2 = orders db /\ order_items db2 = order_items db
    /\ next_uuid db2 = next_uuid db.
Proof.
  intros uid now1 now2 itemId q st db Hq Hrows. cbv zeta.
  unfold Cart.updateQuantity.
  assert (Hge1 : (q + 1 <? 1)%Z = false) by (apply Z.ltb_ge; lia).
  assert (Hge : (q <? 1)%Z = false) by (apply Z.ltb_ge; lia).
  rewrite Hge1, (update_cart_quantity_accepts (Some uid) itemId (q + 1) now1 db)
    by lia.
  destruct (Cart.loadCart (Some uid) false st _) as [st1 ev1]. cbn [fst snd].
  rewrite Hge, (update_cart_quantity_accepts (Some uid) itemId q now2 _)
    by lia.
  destruct (Cart.loadCart (Some uid) false st1 _) as [st2 ev2]. cbn [fst snd].
  unfold Pg.set_cart_items.
  cbn [profiles menu_items cart_items orders order_items next_uuid].
  assert (Hcart :
            map (fun r => if Pg.cart_visible (Some uid) r
                             && (CartRow.id r =? itemId)%N
                          then Pg.set_quantity q now2 r else r)
              (map (fun r => if Pg.cart_visible (Some uid) r
                                && (CartRow.id r =? itemId)%N
                             then Pg.set_quantity (q + 1) now1 r else r)
                 (cart_items db))
            = map (fun r => if Pg.cart_visible (Some uid) r
                               && (CartRow.id r =? itemId)%N
                            then Pg.set_quantity (CartRow.quantity r) now2 r
                            else r)
                (cart_items db)).
  { rewrite map_map. apply map_ext_in. intros r Hr.
    destruct (Pg.cart_visible (Some uid) r) eqn:Hvis; cbn [andb].
    - destruct (N.eqb_spec (CartRow.id r) itemId) as [Hid|Hid].
      + unfold Pg.cart_visible, Pg.set_quantity in *.
        cbn [CartRow.student_id CartRow.id]. rewrite Hvis.
        destruct (N.eqb_spec (CartRow.id r) itemId) as [_|Hno]; [|contradiction].
        cbn [andb CartRow.menu_item_id CartRow.created_at].
        rewrite (Hrows r Hr Hvis Hid). reflexivity.
      + rewrite Hvis. destruct (N.eqb_spec (CartRow.id r) itemId); [contradiction|].
        reflexivity.
    - rewrite Hvis. reflexivity. }
  rewrite Hcart. repeat split.
  rewrite map_map. apply map_ext. intros r.
  destruct (Pg.cart_visible (Some uid) r && (CartRow.id r =? itemId)%N);
    reflexivity.
Qed.

Lemma plus_then_minus_restores_store_witness :
  map CartRow.quantity
    (cart_items
       (snd (fst (Cart.updateQuantity (Some Scenario.student)
                    (Scenario.noon + 1000) 100 2 false false
                    (fst (fst (Cart.updateQuantity (Some Scenario.student)
                                 Scenario.noon 100 (2 + 1) false false
                                 Scenario.page Scenario.db_cart)))
                    (snd (fst (Cart.updateQuantity (Some Scenario.student)
                                 Scenario.noon 100 (2 + 1) false false
                                 Scenario.page Scenario.db_cart)))))))
  = [2%Z; 1%Z]
  /\ map CartRow.updated_at
       (cart_items
          (snd (fst (Cart.updateQuantity (Some Scenario.student)
                       (Scenario.noon + 1000) 100 2 false false
                       (fst (fst (Cart.updateQuantity (Some Scenario.student)
                                    Scenario.noon 100 (2 + 1) false false
                                    Scenario.page Scenario.db_cart)))
                       (snd (fst (Cart.updateQuantity (Some Scenario.student)
                                    Scenario.noon 100 (2 + 1) false false
                                    Scenario.page Scenario.db_cart)))))))
     = [(Scenario.noon + 1000)%N; (Scenario.morning + 2000)%N].
Proof.
  destruct (plus_then_minus_restores_store Scenario.student Scenario.noon
              (Scenario.noon + 1000) 100 2 Scenario.page Scenario.db_cart)
    as (_ & Hcart & _).
  - lia.
  - intros r Hr _ Hid. vm_compute in Hr.
    destruct Hr as [<-|[<-|[]]]; [reflexivity | discriminate Hid].
  - rewrite Hcart. split; vm_compute; reflexivity.
Defined.

(** X4. [loadCart] shows the signed-in student's own cart and nothing
    else: every entry shown is a cart row of that student, with the row's
    id, quantity and menu item; every cart row of the student whose menu
    item is in the catalog is shown.  When the read fails, the page keeps
    the entries it had and raises "Failed to load cart". *)
Theorem loadCart_shows_own_rows :
  forall (uid : Uuid) (st : Cart.state) (db : Db),
    (forall i,
        In i (Cart.cartItems (fst (Cart.loadCart (Some uid) false st db))) ->
        exists r,
          In r (cart_items db)
          /\ CartRow.student_id r = uid
          /\ CartRow.id r = CartItem.id i
          /\ CartRow.quantity r = CartItem.quantity i
          /\ CartRow.menu_item_id r = CartItem.mid (CartItem.menu_item i))
    /\ (forall r m,
           In r (cart_items db) -> CartRow.student_id r = uid ->
           In m (menu_items db) -> MenuItem.id m = CartRow.menu_item_id r ->
           exists i,
             In i (Cart.cartItems (fst (Cart.loadCart (Some uid) false st db)))
             /\ CartItem.id i = CartRow.id r
             /\ CartItem.quantity i = CartRow.quantity r)
    /\ Cart.loadCart (Some uid) true st db
       = (Cart.mkState (Cart.cartItems st) false (Cart.paymentMethod st),
          [ToastError "Failed to load cart"]).
Proof.
  intros uid st db. rewrite loadCart_items. split; [|split; [|reflexivity]].
  - intros i Hi. apply in_flat_map in Hi. destruct Hi as (r & Hr & Hi).
    apply filter_In in Hr. destruct Hr as [Hr Hown].
    apply andb_true_iff in Hown. destruct Hown as [_ Hstudent].
    apply N.eqb_eq in Hstudent. exists r.
    unfold Pg.embed_menu_item in Hi.
    destruct (Pg.find_menu_item (Some uid) (CartRow.menu_item_id r) db)
      as [m|] eqn:Hfind; [|destruct Hi].
    destruct Hi as [<-|[]]. cbn [CartItem.id CartItem.quantity CartItem.menu_item
                                   CartItem.mid].
    unfold Pg.find_menu_item in Hfind. apply find_some in Hfind.
    destruct Hfind as [_ Hm]. apply andb_true_iff in Hm. destruct Hm as [Hid _].
    apply N.eqb_eq in Hid. repeat split; congruence.
  - intros r m Hr Hstudent Hm Hid.
    destruct (Pg.find_menu_item (Some uid) (CartRow.menu_item_id r) db)
      as [m'|] eqn:Hfind.
    + eexists. split.
      * apply in_flat_map. exists r. split.
        -- apply filter_In. split; [exact Hr|].
           unfold Pg.cart_visible, Pg.is_uid. rewrite Hstudent, N.eqb_refl.
           reflexivity.
        -- unfold Pg.embed_menu_item. rewrite Hfind. left. reflexivity.
      * split; reflexivity.
    + unfold Pg.find_menu_item in Hfind.
      pose proof (find_none _ _ Hfind m Hm) as Hno. cbv beta in Hno.
      rewrite Hid, N.eqb_refl in Hno. unfold Pg.menu_visible in Hno.
      rewrite orb_true_r in Hno. discriminate.
Qed.

(* ------------------------------------------------------------------ *)
(** ** Amounts *)

Lemma line_nonneg :
  forall item,
    Pg.nonneg (CartItem.price (CartItem.menu_item item)) = true ->
    (0 <= CartItem.quantity item <= 9007199254740991)%Z ->
    (0 <=? Cart.line item)%float = true.
Proof.
  intros item Hp Hq. unfold Cart.line.
  apply mul_of_int_nonneg0; [exact Hp|].
  change (2 ^ 53)%Z with 9007199254740992%Z. lia.
Qed.

Lemma fold_lines_nonneg :
  forall l acc,
    Forall (fun item => (0 <=? Cart.line item)%float = true) l ->
    (0 <=? acc)%float = true ->
    (0 <=? fold_left (fun sum item => (sum + Cart.line item)%float) l acc)%float
    = true.
Proof.
  induction l as [|x l IH]; intros acc Hl Hacc; [exact Hacc|].
  inversion Hl as [|? ? Hx Hrest]; subst. cbn [fold_left].
  apply IH; [exact Hrest|]. apply add_nonneg; assumption.
Qed.

Lemma totals_nonneg :
  forall cartItems : list CartItem.t,
    Forall (fun item => (0 <=? Cart.line item)%float = true) cartItems ->
    (0 <=? Cart.subtotal (Cart.calculateTotal cartItems))%float = true
    /\ (0 <=? Cart.tax (Cart.calculateTotal cartItems))%float = true
    /\ (Cart.subtotal (Cart.calculateTotal cartItems)
        <=? Cart.total (Cart.calculateTotal cartItems))%float = true
    /\ (0 <=? Cart.total (Cart.calculateTotal cartItems))%float = true.
Proof.
  intros cartItems Hall. unfold Cart.calculateTotal.
  cbn [Cart.subtotal Cart.tax Cart.total].
  pose proof (fold_lines_nonneg cartItems 0%float Hall (eq_refl _)) as Hsub.
  set (subtotal := fold_left _ cartItems 0%float) in *.
  pose proof (mul_rate_nonneg subtotal Hsub) as Htax.
  repeat split; try assumption.
  - apply add_ge_left; assumption.
  - apply add_nonneg; assumption.
Qed.

(** X5. With prices that are not negative, as the store holds them, and
    quantities that are not negative, the subtotal, the tax and the total
    that [calculateTotal] gives are not negative, and the total is at
    least the subtotal: the rounding of the doubles does not disturb
    this.  (The quantities are integers that a double holds exactly.) *)
Theorem calculateTotal_nonneg :
  forall cartItems : list CartItem.t,
    Forall (fun item =>
              Pg.nonneg (CartItem.price (CartItem.menu_item item)) = true
              /\ (0 <= CartItem.quantity item <= 9007199254740991)%Z)
           cartItems ->
    let t := Cart.calculateTotal cartItems in
    (0 <=? Cart.subtotal t)%float = true
    /\ (0 <=? Cart.tax t)%float = true
    /\ (Cart.subtotal t <=? Cart.total t)%float = true
    /\ (0 <=? Cart.total t)%float = true.
Proof.
  intros cartItems Hall t. subst t. apply totals_nonneg.
  eapply Forall_impl; [|exact Hall]. cbv beta.
  intros item [Hp Hq]. apply line_nonneg; assumption.
Qed.

Lemma calculateTotal_nonneg_witness :
  (0 <=? Cart.subtotal (Cart.calculateTotal (Cart.cartItems Scenario.page)))%float
  = true
  /\ (Cart.subtotal (Cart.calculateTotal (Cart.cartItems Scenario.page))
      <=? Cart.total (Cart.calculateTotal (Cart.cartItems Scenario.page)))%float
     = true.
Proof.
  destruct (calculateTotal_nonneg (Cart.cartItems Scenario.page))
    as (Hsub & _ & Hle & _).
  - repeat constructor; vm_compute; discriminate.
  - split; assumption.
Defined.

(* ------------------------------------------------------------------ *)
(** ** Checkout: when it goes through, and what it leaves alone *)

(** A subtotal that is finite was added up from lines that are. *)
Lemma fold_lines_finite_inv :
  forall l acc,
    Forall (fun item => (0 <=? Cart.line item)%float = true) l ->
    (0 <=? acc)%float = true ->
    Js.isFinite
      (fold_left (fun sum item => (sum + Cart.line item)%float) l acc) = true ->
    Js.isFinite acc = true
    /\ Forall (fun item => Js.isFinite (Cart.line item) = true) l.
Proof.
  induction l as [|x l IH]; intros acc Hl Hacc Hfin; [split; [exact Hfin|constructor]|].
  inversion Hl as [|? ? Hx Hrest]; subst. cbn [fold_left] in Hfin.
  destruct (IH _ Hrest (add_nonneg _ _ Hacc Hx) Hfin) as [Hsum Hlines].
  destruct (add_finite_inv _ _ Hacc Hx Hsum) as [Hacc' Hx'].
  split; [exact Hacc'|]. constructor; assumption.
Qed.

Lemma int4_quantity :
  forall q, (1 <= q <= 2147483647)%Z -> Pg.int4_ok q = true.
Proof.
  intros q Hq. unfold Pg.int4_ok. apply andb_true_iff.
  split; apply Z.leb_le; lia.
Qed.

Lemma orderItems_checks :
  forall order l,
    Forall (fun item =>
              (0 <=? CartItem.price (CartItem.menu_item item))%float = true
              /\ (1 <= CartItem.quantity item <= 2147483647)%Z) l ->
    Forall (fun item => Js.isFinite (Cart.line item) = true) l ->
    forallb Pg.order_item_checks (Cart.orderItems order l) = true
    /\ forallb (fun x => Pg.int4_ok (noi_quantity x)) (Cart.orderItems order l)
       = true.
Proof.
  intros order l Hl Hfin.
  induction Hl as [|x l [Hp Hq] _ IH]; [split; reflexivity|].
  inversion Hfin as [|? ? Hx Hrest]; subst.
  destruct (IH Hrest) as [IH1 IH2].
  cbn [Cart.orderItems map forallb]. fold (Cart.orderItems order l).
  rewrite IH1, IH2, !andb_true_r. cbn [noi_quantity].
  split; [|apply int4_quantity, Hq].
  assert (Hrange : (1 <= CartItem.quantity x < 2 ^ 53)%Z)
    by (change (2 ^ 53)%Z with 9007199254740992%Z; lia).
  unfold Pg.order_item_checks, Pg.nonneg.
  cbn [noi_quantity noi_price_at_order noi_subtotal].
  rewrite !andb_true_iff. repeat split.
  - apply Z.ltb_lt. lia.
  - apply (mul_of_int_finite_inv _ _ Hrange Hx).
  - exact Hp.
  - exact Hx.
  - apply mul_of_int_nonneg; assumption.
Qed.

Lemma orderItems_allowed :
  forall uid order db1 l,
    In order (orders db1) ->
    OrderRow.student_id order = uid ->
    forallb (Pg.order_item_allowed (Some uid) db1) (Cart.orderItems order l) = true.
Proof.
  intros uid order db1 l Hin Howner. apply forallb_forall. intros x Hx.
  unfold Cart.orderItems in Hx. apply in_map_iff in Hx.
  destruct Hx as (item & <- & _). unfold Pg.order_item_allowed.
  cbn [noi_order_id]. apply existsb_exists. exists order. split; [exact Hin|].
  rewrite N.eqb_refl, Howner. cbn [andb Pg.is_uid]. apply N.eqb_refl.
Qed.

(** The whole run of a checkout that meets no obstacle. *)
Lemma handleCheckout_goes_through :
  forall uid now st db,
    Cart.cartItems st <> [] ->
    Forall (fun item =>
              (0 <=? CartItem.price (CartItem.menu_item item))%float = true
              /\ (1 <= CartItem.quantity item <= 2147483647)%Z)
           (Cart.cartItems st) ->
    Js.isFinite (Cart.total (Cart.calculateTotal (Cart.cartItems st))) = true ->
    ~ In (Cart.orderNumber now) (map OrderRow.order_number (orders db)) ->
    let t := Cart.calculateTotal (Cart.cartItems st) in
    let order :=
      OrderRow.mk (next_uuid db) (Cart.orderNumber now) uid "pending"
        (Cart.subtotal t) (Cart.tax t) (Cart.total t) (Cart.paymentMethod st)
        "completed" now now None in
    let rows := Cart.orderItems order (Cart.cartItems st) in
    Cart.handleCheckout (Some uid) now (Cart.mkFaults false false false) st db
    = (mkDb (profiles db) (menu_items db)
         (filter (fun r => negb (Pg.cart_visible (Some uid) r
                                 && (CartRow.student_id r =? uid)%N))
                 (cart_items db))
         (orders db ++ [order])
         (order_items db ++ Pg.number_items (N.succ (next_uuid db)) rows)
         (N.succ (next_uuid db) + N.of_nat (List.length rows))%N,
       [ToastSuccess "Order placed successfully!"; Navigate "/orders"]).
Proof.
  intros uid now st db Hcart Hall Hfinite Hfree t order rows.
  assert (Hlines : Forall (fun item => (0 <=? Cart.line item)%float = true)
                     (Cart.cartItems st)).
  { eapply Forall_impl; [|exact Hall]. cbv beta. intros item [Hp Hq].
    unfold Cart.line. apply mul_of_int_nonneg; [exact Hp|].
    change (2 ^ 53)%Z with 9007199254740992%Z. lia. }
  destruct (totals_nonneg (Cart.cartItems st) Hlines)
    as (Hsub & Htax & _ & Htot).
  fold t in Hsub, Htax, Htot, Hfinite.
  assert (Hparts : Js.isFinite (Cart.subtotal t) = true
                   /\ Js.isFinite (Cart.tax t) = true)
    by (apply add_finite_inv; assumption).
  destruct Hparts as [Hsubfin Htaxfin].
  assert (Hlinesfin : Forall (fun item => Js.isFinite (Cart.line item) = true)
                        (Cart.cartItems st))
    by (apply (fold_lines_finite_inv _ 0%float Hlines (eq_refl _) Hsubfin)).
  assert (Hlen : (List.length (Cart.cartItems st) =? 0)%nat = false)
    by (destruct (Cart.cartItems st); [contradiction | reflexivity]).
  unfold Cart.handleCheckout. rewrite Hlen.
  cbn [Cart.orderError Cart.itemsError Cart.clearError]. fold t.
  unfold Pg.insert_order, Pg.nonneg. cbn [Pg.is_uid]. rewrite N.eqb_refl.
  cbn [negb].
  rewrite Hsub, Htax, Htot, Hsubfin, Htaxfin, Hfinite.
  change (Pg.status_ok "pending") with true.
  change (Pg.payment_status_ok "completed") with true. cbn [andb negb].
  destruct (existsb _ (orders db)) eqn:Htaken;
    [apply number_taken in Htaken; contradiction|].
  fold order. unfold Pg.insert_order_items.
  destruct (orderItems_checks order (Cart.cartItems st) Hall Hlinesfin)
    as [Hchecks Hrange].
  rewrite Hrange, (orderItems_allowed uid order _ (Cart.cartItems st)), Hchecks.
  - reflexivity.
  - cbn [orders]. apply in_or_app. right. left. reflexivity.
  - reflexivity.
Qed.

Lemma cart_cleared :
  forall uid (l : list CartRow.row),
    filter (fun r => (CartRow.student_id r =? uid)%N)
      (filter (fun r => negb (Pg.cart_visible (Some uid) r
                              && (CartRow.student_id r =? uid)%N)) l) = []
    /\ filter (fun r => negb (CartRow.student_id r =? uid)%N)
         (filter (fun r => negb (Pg.cart_visible (Some uid) r
                                 && (CartRow.student_id r =? uid)%N)) l)
       = filter (fun r => negb (CartRow.student_id r =? uid)%N) l.
Proof.
  intros uid l. unfold Pg.cart_visible, Pg.is_uid.
  induction l as [|r l [IH1 IH2]]; [split; reflexivity|].
  cbn [filter]. rewrite (N.eqb_sym uid).
  destruct (CartRow.student_id r =? uid)%N eqn:Hs; cbn [andb negb filter];
    rewrite ?Hs; cbn [negb].
  - split; [exact IH1 | exact IH2].
  - split; [exact IH1 | f_equal; exact IH2].
Qed.

(** X6. A checkout goes through when nothing stands in its way: a
    signed-in student, a cart on the page that is not empty and holds
    prices that are not negative and quantities from 1 to 2147483647, a
    total that is a finite number, an order number that is not taken, and
    a backend without faults.  It then raises the success toast and goes
    to the orders page, adds one order, empties the student's cart in the
    store and leaves the cart rows of every other student as they
    were. *)
Theorem checkout_goes_through :
  forall (uid : Uuid) (now : N) (st : Cart.state) (db : Db),
    Cart.cartItems st <> [] ->
    Forall (fun item =>
              (0 <=? CartItem.price (CartItem.menu_item item))%float = true
              /\ (1 <= CartItem.quantity item <= 2147483647)%Z)
           (Cart.cartItems st) ->
    Js.isFinite (Cart.total (Cart.calculateTotal (Cart.cartItems st))) = true ->
    ~ In (Cart.orderNumber now) (map OrderRow.order_number (orders db)) ->
    let r := Cart.handleCheckout (Some uid) now (Cart.mkFaults false false false)
               st db in
    snd r = [ToastSuccess "Order placed successfully!"; Navigate "/orders"]
    /\ List.length (orders (fst r)) = S (List.length (orders db))
    /\ filter (fun row => (CartRow.student_id row =? uid)%N) (cart_items (fst r))
       = []
    /\ filter (fun row => negb (CartRow.student_id row =? uid)%N)
         (cart_items (fst r))
       = filter (fun row => negb (CartRow.student_id row =? uid)%N)
           (cart_items db).
Proof.
  intros uid now st db Hcart Hall Hfinite Hfree r. subst r.
  rewrite (handleCheckout_goes_through uid now st db Hcart Hall Hfinite Hfree).
  cbn [fst snd orders cart_items].
  destruct (cart_cleared uid (cart_items db)) as [Hmine Hothers].
  repeat split; try assumption.
  rewrite length_app. cbn [List.length]. lia.
Qed.

Lemma checkout_goes_through_witness :
  snd (Cart.handleCheckout (Some Scenario.student) Scenario.noon
         (Cart.mkFaults false false false) Scenario.page Scenario.db_cart)
  = [ToastSuccess "Order placed successfully!"; Navigate "/orders"].
Proof.
  apply (checkout_goes_through Scenario.student Scenario.noon Scenario.page
           Scenario.db_cart).
  - discriminate.
  - repeat constructor; vm_compute; reflexivity || discriminate.
  - vm_compute. reflexivity.
  - intros [].
Defined.

(** X7. Apart from the failure to write the order items, a checkout that
    raises an error toast has changed nothing: after "Your cart is empty"
    and after "Failed to create order" the store is the one before the
    call. *)
Theorem checkout_error_leaves_store :
  forall (user : option Uuid) (now : N) (net : Cart.checkout_faults)
         (st : Cart.state) (db : Db),
    reported_error (snd (Cart.handleCheckout user now net st db)) = true ->
    snd (Cart.handleCheckout user now net st db)
    <> [ToastError "Failed to create order items"] ->
    fst (Cart.handleCheckout user now net st db) = db.
Proof.
  intros user now net st db. unfold Cart.handleCheckout.
  destruct user as [uid|]; [|reflexivity].
  destruct (List.length (Cart.cartItems st) =? 0)%nat; [reflexivity|].
  destruct (Pg.insert_order _ _ _ _ _ _ _ _ _ _ _ _) as [[order db1]|e];
    [|reflexivity].
  destruct (Pg.insert_order_items _ _ _ _) as [db2|e].
  - destruct (Pg.delete_cart_of _ _ _ _); cbn; discriminate.
  - cbn [snd]. intros _ Hnot. contradiction Hnot. reflexivity.
Qed.

Lemma checkout_error_leaves_store_witness :
  fst Scenario.checkout_again = Scenario.db_uncleared.
Proof.
  apply (checkout_error_leaves_store (Some Scenario.student) Scenario.later
           Scenario.no_faults Scenario.page Scenario.db_uncleared).
  - vm_compute. reflexivity.
  - vm_compute. discriminate.
Defined.

Lemma handleCheckout_frame :
  forall (user : option Uuid) (now : N) (net : Cart.checkout_faults)
         (st : Cart.state) (db : Db),
    let db' := fst (Cart.handleCheckout user now net st db) in
    profiles db' = profiles db
    /\ menu_items db' = menu_items db
    /\ (exists added, orders db' = orders db ++ added
                      /\ (List.length added <= 1)%nat)
    /\ (exists added, order_items db' = order_items db ++ added)
    /\ (forall r, In r (cart_items db') -> In r (cart_items db))
    /\ (forall r, In r (cart_items db) -> Pg.cart_visible user r = false ->
                  In r (cart_items db')).
Proof.
  intros user now net st db. cbv zeta.
  assert (Hsame : forall d, d = db ->
            profiles d = profiles db /\ menu_items d = menu_items db
            /\ (exists added, orders d = orders db ++ added
                              /\ (List.length added <= 1)%nat)
            /\ (exists added, order_items d = order_items db ++ added)
            /\ (forall r, In r (cart_items d) -> In r (cart_items db))
            /\ (forall r, In r (cart_items db) -> Pg.cart_visible user r = false ->
                          In r (cart_items d))).
  { intros d ->. repeat split; try (exists []; rewrite app_nil_r; split; auto);
      try (exists []; rewrite app_nil_r; reflexivity); auto. }
  unfold Cart.handleCheckout.
  destruct user as [uid|]; [|apply Hsame; reflexivity].
  destruct (List.length (Cart.cartItems st) =? 0)%nat; [apply Hsame; reflexivity|].
  destruct (Pg.insert_order _ _ _ _ _ _ _ _ _ _ _ _) as [[order db1]|e] eqn:Ho;
    [|apply Hsame; reflexivity].
  apply insert_order_inv in Ho. destruct Ho as (_ & Hdb1 & _).
  destruct (Pg.insert_order_items _ _ _ _) as [db2|e] eqn:Hi.
  - apply insert_order_items_inv in Hi. destruct Hi as (Hdb2 & _).
    unfold Pg.delete_cart_of. destruct (Cart.clearError net); cbn [fst];
      subst db2 db1; cbn [profiles menu_items orders order_items cart_items
                            Pg.set_cart_items];
      (repeat split;
       [ exists [order]; split; [reflexivity | cbn; lia]
       | eexists; reflexivity
       | intros r Hr; try (apply filter_In in Hr; destruct Hr as [Hr _]); exact Hr
       | intros r Hr Hvis; try (apply filter_In; split; [exact Hr|]);
         try rewrite Hvis; try reflexivity; try exact Hr ]).
  - cbn [fst]. subst db1. cbn [profiles menu_items orders order_items cart_items].
    repeat split; auto.
    + exists [order]. split; [reflexivity | cbn; lia].
    + exists []. rewrite app_nil_r. reflexivity.
Qed.

(** X8. What no checkout does, successful or not: it never changes the
    profiles or the catalog, never edits or deletes an order or an order
    item that was there (it appends at most one order), never adds a cart
    row, and never removes a cart row that the signed-in student does not
    own. *)
Theorem checkout_leaves_the_rest :
  forall (user : option Uuid) (now : N) (net : Cart.checkout_faults)
         (st : Cart.state) (db : Db),
    let db' := fst (Cart.handleCheckout user now net st db) in
    profiles db' = profiles db
    /\ menu_items db' = menu_items db
    /\ (exists added, orders db' = orders db ++ added
                      /\ (List.length added <= 1)%nat)
    /\ (exists added, order_items db' = order_items db ++ added)
    /\ (forall r, In r (cart_items db') -> In r (cart_items db))
    /\ (forall r, In r (cart_items db) -> Pg.cart_visible user r = false ->
                  In r (cart_items db')).
Proof.
  intros user now net st db. apply handleCheckout_frame.
Qed.

Lemma numbered_mirror :
  forall order l n,
    map (fun it => (OrderItemRow.menu_item_id it, OrderItemRow.quantity it))
      (Pg.number_items n (Cart.orderItems order l))
    = map (fun i => (CartItem.mid (CartItem.menu_item i), CartItem.quantity i)) l.
Proof.
  intros order l. induction l as [|x l IH]; intros n; [reflexivity|].
  cbn [Cart.orderItems map Pg.number_items OrderItemRow.menu_item_id
         OrderItemRow.quantity noi_menu_item_id noi_quantity].
  f_equal. apply IH.
Qed.

(** X9. The order that a successful checkout creates is the student's:
    it is owned by the signed-in student, pending, paid ("completed")
    with the payment method chosen on the page, numbered from the clock
    and not completed; and its order items name, in cart order, the menu
    items and quantities of the cart entries on the page. *)
Theorem checkout_order_mirrors_cart :
  forall (uid : Uuid) (now : N) (net : Cart.checkout_faults)
         (st : Cart.state) (db db' : Db) (ev : list Event),
    order_ids_drawn db ->
    Cart.handleCheckout (Some uid) now net st db = (db', ev) ->
    succeeded ev = true ->
    exists order,
      orders db' = orders db ++ [order]
      /\ OrderRow.student_id order = uid
      /\ OrderRow.status order = "pending"
      /\ OrderRow.payment_status order = "completed"
      /\ OrderRow.payment_method order = Cart.paymentMethod st
      /\ OrderRow.order_number order = Cart.orderNumber now
      /\ OrderRow.completed_at order = None
      /\ map (fun it => (OrderItemRow.menu_item_id it, OrderItemRow.quantity it))
           (items_of (OrderRow.id order) db')
         = map (fun i => (CartItem.mid (CartItem.menu_item i), CartItem.quantity i))
             (Cart.cartItems st).
Proof.
  intros uid now net st db db' ev Hdrawn Hrun Hok.
  destruct (handleCheckout_success uid now net st db db' ev Hrun Hok)
    as (Horders & Hitems & _).
  eexists. split; [exact Horders|].
  cbn [OrderRow.student_id OrderRow.status OrderRow.payment_status
         OrderRow.payment_method OrderRow.order_number OrderRow.completed_at
         OrderRow.id].
  repeat split.
  unfold items_of. rewrite Hitems, filter_app.
  rewrite (items_of_fresh db Hdrawn). cbn [app].
  rewrite (filter_numbered (OrderRow.mk (next_uuid db) _ _ _ _ _ _ _ _ _ _ _)).
  apply numbered_mirror.
Qed.

Lemma checkout_order_mirrors_cart_witness :
  exists order,
    orders Scenario.db_ordered = orders Scenario.db_cart ++ [order]
    /\ OrderRow.student_id order = Scenario.student
    /\ map (fun it => (OrderItemRow.menu_item_id it, OrderItemRow.quantity it))
         (items_of (OrderRow.id order) Scenario.db_ordered)
       = [(10%N, 2%Z); (11%N, 1%Z)].
Proof.
  destruct (checkout_order_mirrors_cart Scenario.student Scenario.noon
              Scenario.no_faults Scenario.page Scenario.db_cart
              Scenario.db_ordered
              [ToastSuccess "Order placed successfully!"; Navigate "/orders"])
    as (order & Horders & Howner & _ & _ & _ & _ & _ & Hitems).
  - constructor.
  - vm_compute. reflexivity.
  - reflexivity.
  - exists order. repeat split; assumption.
Defined.

Lemma handleCheckout_success_cart :
  forall uid now net st db db' ev,
    Cart.handleCheckout (Some uid) now net st db = (db', ev) ->
    succeeded ev = true ->
    Cart.clearError net = false ->
    cart_items db'
    = filter (fun r => negb (Pg.cart_visible (Some uid) r
                             && (CartRow.student_id r =? uid)%N))
        (cart_items db).
Proof.
  intros uid now net st db db' ev. unfold Cart.handleCheckout.
  destruct (List.length (Cart.cartItems st) =? 0)%nat;
    [intros H; injection H as <- <-; discriminate|].
  destruct (Pg.insert_order _ _ _ _ _ _ _ _ _ _ _ _) as [[order db1]|e] eqn:Ho;
    [|intros H; injection H as <- <-; discriminate].
  destruct (Pg.insert_order_items _ _ _ _) as [db2|e] eqn:Hi;
    [|intros H; injection H as <- <-; discriminate].
  apply insert_order_inv in Ho. destruct Ho as (_ & Hdb1 & _).
  apply insert_order_items_inv in Hi. destruct Hi as (Hdb2 & _).
  intros Hrun _ Hclear. rewrite Hclear in Hrun. unfold Pg.delete_cart_of in Hrun.
  injection Hrun as <- _. subst db2 db1. reflexivity.
Qed.

Lemma loadCart_no_rows :
  forall uid st0 db,
    filter (fun r => (CartRow.student_id r =? uid)%N) (cart_items db) = [] ->
    Cart.cartItems (fst (Cart.loadCart (Some uid) false st0 db)) = [].
Proof.
  intros uid st0 db Hnone. rewrite loadCart_items.
  induction (cart_items db) as [|r l IH]; [reflexivity|].
  cbn [filter] in Hnone |- *.
  destruct (CartRow.student_id r =? uid)%N; [discriminate|].
  rewrite andb_false_r. apply IH, Hnone.
Qed.

(** X10. After a checkout that succeeded and cleared the cart, the Cart
    page reloads to an empty cart, and a second checkout from that page
    is refused with "Your cart is empty" and writes nothing: the same
    cart is not ordered twice. *)
Theorem checkout_then_reload_is_empty :
  forall (uid : Uuid) (now : N) (net : Cart.checkout_faults)
         (st : Cart.state) (db db' : Db) (ev : list Event),
    Cart.handleCheckout (Some uid) now net st db = (db', ev) ->
    succeeded ev = true ->
    Cart.clearError net = false ->
    forall st0,
      Cart.cartItems (fst (Cart.loadCart (Some uid) false st0 db')) = []
      /\ forall now2 net2,
          Cart.handleCheckout (Some uid) now2 net2
            (fst (Cart.loadCart (Some uid) false st0 db')) db'
          = (db', [ToastError "Your cart is empty"]).
Proof.
  intros uid now net st db db' ev Hrun Hok Hclear st0.
  pose proof (handleCheckout_success_cart _ _ _ _ _ _ _ Hrun Hok Hclear) as Hcart.
  assert (Hnone : filter (fun r => (CartRow.student_id r =? uid)%N)
                    (cart_items db') = [])
    by (rewrite Hcart; apply cart_cleared).
  split.
  - apply loadCart_no_rows, Hnone.
  - intros now2 net2. apply checkout_after_loading_no_rows, Hnone.
Qed.

Lemma checkout_then_reload_is_empty_witness :
  Cart.cartItems
    (fst (Cart.loadCart (Some Scenario.student) false Scenario.page
            Scenario.db_ordered)) = [].
Proof.
  apply (checkout_then_reload_is_empty Scenario.student Scenario.noon
           Scenario.no_faults Scenario.page Scenario.db_cart Scenario.db_ordered
           [ToastSuccess "Order placed successfully!"; Navigate "/orders"]).
  - vm_compute. reflexivity.
  - reflexivity.
  - reflexivity.
Defined.

(* ------------------------------------------------------------------ *)
(** ** The Orders page: what it lists *)

Lemma insert_newest_sorted :
  forall o l, Sorted newer_view l -> Sorted newer_view (Pg.insert_newest o l).
Proof.
  intros o l Hl. induction Hl as [|x l Hl IH Hhd]; cbn [Pg.insert_newest].
  - repeat constructor.
  - destruct (N.ltb_spec (Order.created_at x) (Order.created_at o)) as [Hlt|Hge].
    + constructor; [constructor; assumption|].
      constructor. unfold newer_view. lia.
    + constructor; [exact IH|].
      destruct l as [|y l]; cbn [Pg.insert_newest].
      * constructor. exact Hge.
      * destruct (Order.created_at y <? Order.created_at o)%N.
        -- constructor. exact Hge.
        -- inversion Hhd; subst. constructor. assumption.
Qed.

Lemma newest_first_sorted : forall l, Sorted newer_view (Pg.newest_first l).
Proof.
  induction l as [|o l IH]; [constructor|].
  cbn [Pg.newest_first fold_right]. fold (Pg.newest_first l).
  apply insert_newest_sorted, IH.
Qed.

Lemma shown_ids :
  forall auth db l,
    Permutation
      (map Order.id (Pg.newest_first (map (Pg.order_view auth db) l)))
      (map OrderRow.id l).
Proof.
  intros auth db l.
  eapply Permutation_trans; [apply Permutation_map, newest_first_perm|].
  rewrite map_map. apply Permutation_refl.
Qed.

(** X11. For a user who is not an admin, [loadOrders] lists that user's
    own orders, each exactly once, newest first, and no order of anybody
    else; this does not depend on what the page believes about the user
    being an admin.  When the read fails the page keeps its list and
    raises "Failed to load orders". *)
Theorem loadOrders_student_sees_own :
  forall (uid : Uuid) (isAdminUser : bool) (st : OrdersPage.state) (db : Db),
    Pg.is_admin (Some uid) db = false ->
    let shown :=
      OrdersPage.orders
        (fst (OrdersPage.loadOrders (Some uid) isAdminUser false st db)) in
    Sorted newer_view shown
    /\ Permutation (map Order.id shown)
         (map OrderRow.id
            (filter (fun o => (OrderRow.student_id o =? uid)%N) (orders db)))
    /\ OrdersPage.loadOrders (Some uid) isAdminUser true st db
       = (OrdersPage.mkState (OrdersPage.orders st) false (OrdersPage.isAdmin st),
          [ToastError "Failed to load orders"]).
Proof.
  intros uid isAdminUser st db Hadmin shown. subst shown.
  rewrite loadOrders_shown. split; [apply newest_first_sorted|].
  split; [|reflexivity].
  eapply Permutation_trans; [apply shown_ids|].
  erewrite filter_ext; [apply Permutation_refl|].
  intros o. unfold Pg.order_visible, Pg.is_uid. rewrite Hadmin, orb_false_r.
  rewrite (N.eqb_sym uid).
  destruct isAdminUser; destruct (OrderRow.student_id o =? uid)%N; reflexivity.
Qed.

Lemma loadOrders_student_sees_own_witness :
  map Order.id
    (OrdersPage.orders
       (fst (OrdersPage.loadOrders (Some Scenario.student) true false
               Scenario.orders_page Scenario.db_ordered)))
  = [102%N].
Proof.
  destruct (loadOrders_student_sees_own Scenario.student true
              Scenario.orders_page Scenario.db_ordered) as (_ & Hperm & _).
  - reflexivity.
  - vm_compute in Hperm. apply Permutation_length_1_inv.
    apply Permutation_sym. exact Hperm.
Defined.

(** X12. For an admin whose page knows it, [loadOrders] lists every order
    of the store, each exactly once, newest first. *)
Theorem loadOrders_admin_sees_all :
  forall (uid : Uuid) (st : OrdersPage.state) (db : Db),
    Pg.is_admin (Some uid) db = true ->
    let shown :=
      OrdersPage.orders (fst (OrdersPage.loadOrders (Some uid) true false st db)) in
    Sorted newer_view shown
    /\ Permutation (map Order.id shown) (map OrderRow.id (orders db)).
Proof.
  intros uid st db Hadmin shown. subst shown.
  rewrite loadOrders_shown. split; [apply newest_first_sorted|].
  eapply Permutation_trans; [apply shown_ids|].
  rewrite (filter_ext _ (fun _ => true)), filter_true; [apply Permutation_refl|].
  intros o. unfold Pg.order_visible. rewrite Hadmin, orb_true_r. reflexivity.
Qed.

Lemma loadOrders_admin_sees_all_witness :
  List.length
    (OrdersPage.orders
       (fst (OrdersPage.loadOrders (Some Scenario.admin) true false
               Scenario.orders_page Scenario.db_ordered)))
  = 1%nat.
Proof.
  destruct (loadOrders_admin_sees_all Scenario.admin Scenario.orders_page
              Scenario.db_ordered) as (_ & Hperm).
  - reflexivity.
  - apply Permutation_length in Hperm. rewrite !length_map in Hperm. exact Hperm.
Defined.

(* ------------------------------------------------------------------ *)
(** ** The Orders page: what a status update does *)

Lemma db_eta :
  forall db,
    mkDb (profiles db) (menu_items db) (cart_items db) (orders db)
         (order_items db) (next_uuid db) = db.
Proof. intros []. reflexivity. Qed.

Lemma update_order_status_inv :
  forall auth orderId newStatus now fault db db',
    Pg.update_order_status auth orderId newStatus now fault db = inl db' ->
    db' = mkDb (profiles db) (menu_items db) (cart_items db)
            (map (fun o => if Pg.is_admin auth db && (OrderRow.id o =? orderId)%N
                           then Pg.set_status newStatus now o else o)
                 (orders db))
            (order_items db) (next_uuid db)
    /\ (existsb (fun o => Pg.is_admin auth db && (OrderRow.id o =? orderId)%N)
          (orders db) = true ->
        Pg.status_ok newStatus = true).
Proof.
  intros auth orderId newStatus now fault db db'. unfold Pg.update_order_status.
  destruct fault; [discriminate|].
  destruct (existsb _ (orders db)) eqn:Hhit; cbn [andb].
  - destruct (Pg.status_ok newStatus); cbn [negb]; [|discriminate].
    intros H. injection H as <-. split; reflexivity.
  - intros H. injection H as <-. split; [reflexivity | discriminate].
Qed.

(** X13. A status update by a user who is not an admin writes nothing:
    the policy hides every order from the update, the store stays as it
    was, and the page still raises "Order status updated". *)
Theorem updateOrderStatus_non_admin_writes_nothing :
  forall (user : option Uuid) (now : N) (orderId : Uuid) (newStatus : string)
         (reload_fault : bool) (st : OrdersPage.state) (db : Db),
    Pg.is_admin user db = false ->
    let r := OrdersPage.updateOrderStatus user now orderId newStatus false
               reload_fault st db in
    snd (fst r) = db
    /\ hd_error (snd r) = Some (ToastSuccess "Order status updated").
Proof.
  intros user now orderId newStatus reload_fault st db Hadmin r. subst r.
  unfold OrdersPage.updateOrderStatus, Pg.update_order_status.
  rewrite Hadmin. cbn [andb].
  assert (Hnone : existsb (fun _ : OrderRow.row => false) (orders db) = false)
    by (induction (orders db); [reflexivity | assumption]).
  rewrite Hnone. cbn [andb]. rewrite map_id, db_eta.
  destruct (OrdersPage.loadOrders _ _ _ _ _). split; reflexivity.
Qed.

Lemma updateOrderStatus_non_admin_writes_nothing_witness :
  snd (fst (OrdersPage.updateOrderStatus (Some Scenario.student) Scenario.noon 102
              "completed" false false Scenario.orders_page Scenario.db_ordered))
  = Scenario.db_ordered.
Proof.
  apply (updateOrderStatus_non_admin_writes_nothing (Some Scenario.student)
           Scenario.noon 102 "completed" false Scenario.orders_page
           Scenario.db_ordered).
  reflexivity.
Defined.

(** X14. A status update for an order id that the store does not hold
    writes nothing and still raises "Order status updated"; a status
    update by an admin to a value outside the five statuses, for an order
    that is there, is refused by the store: the page raises "Failed to
    update order status" and nothing changes. *)
Theorem updateOrderStatus_edge_cases :
  forall (user : option Uuid) (now : N) (orderId : Uuid) (newStatus : string)
         (reload_fault : bool) (st : OrdersPage.state) (db : Db),
    (~ In orderId (map OrderRow.id (orders db)) ->
     snd (fst (OrdersPage.updateOrderStatus user now orderId newStatus false
                 reload_fault st db)) = db
     /\ hd_error (snd (OrdersPage.updateOrderStatus user now orderId newStatus
                         false reload_fault st db))
        = Some (ToastSuccess "Order status updated"))
    /\ (In orderId (map OrderRow.id (orders db)) ->
        Pg.is_admin user db = true ->
        Pg.status_ok newStatus = false ->
        OrdersPage.updateOrderStatus user now orderId newStatus false
          reload_fault st db
        = (st, db, [ToastError "Failed to update order status"])).
Proof.
  intros user now orderId newStatus reload_fault st db. split.
  - intros Hmissing.
    unfold OrdersPage.updateOrderStatus, Pg.update_order_status.
    assert (Hno : forall o, In o (orders db) ->
                            (Pg.is_admin user db && (OrderRow.id o =? orderId)%N)
                            = false).
    { intros o Ho. destruct (N.eqb_spec (OrderRow.id o) orderId) as [E|E].
      - exfalso. apply Hmissing. rewrite <- E. apply in_map, Ho.
      - apply andb_false_r. }
    assert (Hnone : existsb (fun o => Pg.is_admin user db
                                      && (OrderRow.id o =? orderId)%N)
                      (orders db) = false).
    { destruct (existsb _ (orders db)) eqn:Hex; [|reflexivity].
      apply existsb_exists in Hex. destruct Hex as (o & Ho & Hhit).
      rewrite (Hno o Ho) in Hhit. discriminate. }
    rewrite Hnone. cbn [andb].
    rewrite (map_ext_in _ (fun o => o)), map_id, db_eta.
    + destruct (OrdersPage.loadOrders _ _ _ _ _). split; reflexivity.
    + intros o Ho. rewrite (Hno o Ho). reflexivity.
  - intros Hthere Hadmin Hbad.
    unfold OrdersPage.updateOrderStatus, Pg.update_order_status.
    rewrite Hadmin, Hbad. cbn [andb negb].
    assert (Hsome : existsb (fun o => (OrderRow.id o =? orderId)%N) (orders db)
                    = true).
    { apply in_map_iff in Hthere. destruct Hthere as (o & Hid & Ho).
      apply existsb_exists. exists o. split; [exact Ho|]. apply N.eqb_eq, Hid. }
    rewrite Hsome. reflexivity.
Qed.

Lemma updateOrderStatus_edge_cases_witness :
  OrdersPage.updateOrderStatus (Some Scenario.admin) Scenario.noon 102 "done"
    false false Scenario.orders_page Scenario.db_ordered
  = (Scenario.orders_page, Scenario.db_ordered,
     [ToastError "Failed to update order status"]).
Proof.
  destruct (updateOrderStatus_edge_cases (Some Scenario.admin) Scenario.noon 102
              "done" false Scenario.orders_page Scenario.db_ordered)
    as [_ Hrefused].
  apply Hrefused.
  - vm_compute. left. reflexivity.
  - reflexivity.
  - reflexivity.
Defined.

(** X15. Whoever calls [updateOrderStatus], with whatever arguments and
    faults: in every order the id, the order number, the owner, the three
    amounts, the payment method and status, [created_at] and
    [completed_at] stay as they were, every order with another id stays
    the same row, and the order items, the carts, the catalog and the
    profiles are untouched.  Only [status] and [updated_at] of the orders
    with the given id can change. *)
Theorem updateOrderStatus_touches_only_status :
  forall (user : option Uuid) (now : N) (orderId : Uuid) (newStatus : string)
         (fault reload_fault : bool) (st : OrdersPage.state) (db : Db),
    let db' := snd (fst (OrdersPage.updateOrderStatus user now orderId newStatus
                           fault reload_fault st db)) in
    map order_core (orders db') = map order_core (orders db)
    /\ (forall o, In o (orders db) -> OrderRow.id o <> orderId ->
                  In o (orders db'))
    /\ order_items db' = order_items db
    /\ cart_items db' = cart_items db
    /\ menu_items db' = menu_items db
    /\ profiles db' = profiles db.
Proof.
  intros user now orderId newStatus fault reload_fault st db. cbv zeta.
  unfold OrdersPage.updateOrderStatus.
  destruct (Pg.update_order_status user orderId newStatus now fault db)
    as [db'|e] eqn:Hupd.
  - destruct (OrdersPage.loadOrders _ _ _ _ _) as [st' ev]. cbn [fst snd].
    apply update_order_status_inv in Hupd. destruct Hupd as [-> _].
    cbn [orders order_items cart_items menu_items profiles].
    repeat split.
    + rewrite map_map. apply map_ext. intros o.
      destruct (Pg.is_admin user db && (OrderRow.id o =? orderId)%N); reflexivity.
    + intros o Ho Hid. apply in_map_iff. exists o. split; [|exact Ho].
      destruct (N.eqb_spec (OrderRow.id o) orderId) as [E|_]; [contradiction|].
      rewrite andb_false_r. reflexivity.
  - cbn [fst snd]. repeat split. intros o Ho _. exact Ho.
Qed.

Lemma status_ok_pending : Pg.status_ok "pending" = true.
Proof. reflexivity. Qed.

(** X16. The stored statuses stay among the five values: when every order
    has one of the statuses pending, preparing, ready, completed,
    cancelled, that is still so after any [updateOrderStatus] and after
    any [handleCheckout]. *)
Theorem statuses_stay_valid :
  forall db : Db,
    statuses_ok db ->
    (forall user now orderId newStatus fault reload_fault st,
        statuses_ok
          (snd (fst (OrdersPage.updateOrderStatus user now orderId newStatus
                       fault reload_fault st db))))
    /\ (forall user now net st,
           statuses_ok (fst (Cart.handleCheckout user now net st db))).
Proof.
  intros db Hok. split.
  - intros user now orderId newStatus fault reload_fault st.
    unfold OrdersPage.updateOrderStatus.
    destruct (Pg.update_order_status user orderId newStatus now fault db)
      as [db'|e] eqn:Hupd; [|exact Hok].
    destruct (OrdersPage.loadOrders _ _ _ _ _) as [st' ev]. cbn [fst snd].
    apply update_order_status_inv in Hupd. destruct Hupd as [-> Hchecked].
    unfold statuses_ok in *. cbn [orders]. rewrite Forall_forall in *.
    intros o' Ho'. apply in_map_iff in Ho'. destruct Ho' as (o & <- & Ho).
    destruct (Pg.is_admin user db && (OrderRow.id o =? orderId)%N) eqn:Hhit.
    + cbn [Pg.set_status OrderRow.status]. apply Hchecked.
      apply existsb_exists. exists o. split; assumption.
    + apply Hok, Ho.
  - intros user now net st.
    destruct (handleCheckout_orders user now net st db)
      as [Hsame|(order & Hnew & _)]; unfold statuses_ok in *.
    + rewrite Hsame. exact Hok.
    + rewrite Hnew. apply Forall_app. split; [exact Hok|].
      constructor; [|constructor].
      (* the appended order is the one the page built: pending *)
      revert Hnew. unfold Cart.handleCheckout.
      destruct user as [uid|];
        [|intros H; apply (f_equal (@List.length _)) in H;
          rewrite length_app in H; cbn in H; lia].
      destruct (List.length (Cart.cartItems st) =? 0)%nat;
        [intros H; apply (f_equal (@List.length _)) in H;
         rewrite length_app in H; cbn in H; lia|].
      destruct (Pg.insert_order _ _ _ _ _ _ _ _ _ _ _ _) as [[o db1]|e] eqn:Ho;
        [|intros H; apply (f_equal (@List.length _)) in H;
          rewrite length_app in H; cbn in H; lia].
      apply insert_order_inv in Ho. destruct Ho as (Horder & Hdb1 & _).
      assert (Hsame_order : forall d, orders d = orders db1 ->
                                      orders d = orders db ++ [order] ->
                                      order = o).
      { intros d Hd Hnew. rewrite Hd in Hnew. subst db1. cbn [orders] in Hnew.
        apply app_inv_head in Hnew. injection Hnew as ->. reflexivity. }
      intros Hnew.
      assert (Heq : order = o).
      { destruct (Pg.insert_order_items _ _ _ _) as [db2|e] eqn:Hi.
        - apply insert_order_items_inv in Hi. destruct Hi as (Hdb2 & _).
          unfold Pg.delete_cart_of in Hnew.
          destruct (Cart.clearError net); cbn [fst] in Hnew;
            apply (Hsame_order _ (eq_refl _)); subst db2; exact Hnew.
        - cbn [fst] in Hnew. apply (Hsame_order db1 (eq_refl _) Hnew). }
      rewrite Heq, Horder. reflexivity.
Qed.

Lemma statuses_stay_valid_witness :
  statuses_ok
    (snd (fst (OrdersPage.updateOrderStatus (Some Scenario.admin) Scenario.noon
                 102 "ready" false false Scenario.orders_page
                 Scenario.db_ordered))).
Proof.
  destruct (statuses_stay_valid Scenario.db_ordered) as [Hupdate _].
  - repeat constructor.
  - apply Hupdate.
Defined.

(* ------------------------------------------------------------------ *)
(** ** The Orders page: runs of status buttons *)

Section Buttons.

Let rank (status : string) : nat :=
  if status =? "pending" then 3
  else if status =? "preparing" then 2
  else if status =? "ready" then 1
  else if (status =? "completed") || (status =? "cancelled") then 0
  else 1.

Lemma button_targets :
  forall from to,
    In to (OrdersPage.statusButtons true from) ->
    (from = "pending" /\ to = "preparing")
    \/ (from = "preparing" /\ to = "ready")
    \/ (from = "ready" /\ to = "completed")
    \/ (to = "cancelled" /\ from <> "completed" /\ from <> "cancelled").
Proof.
  intros from to. unfold OrdersPage.statusButtons. cbn [andb].
  destruct (String.eqb_spec from "completed") as [Hc|Hc]; [intros []|].
  destruct (String.eqb_spec from "cancelled") as [Hx|Hx]; [intros []|].
  cbn [negb andb].
  destruct (String.eqb_spec from "pending") as [Hp|Hp];
    destruct (String.eqb_spec from "preparing") as [Hq|Hq];
    destruct (String.eqb_spec from "ready") as [Hr|Hr];
    cbn [app In]; intuition congruence.
Qed.

Lemma button_lowers_rank :
  forall from to,
    In to (OrdersPage.statusButtons true from) -> (rank to < rank from)%nat.
Proof.
  intros from to Hin.
  destruct (button_targets from to Hin)
    as [[-> ->]|[[-> ->]|[[-> ->]|(-> & Hc & Hx)]]]; try (cbn; lia).
  unfold rank. change ("cancelled" =? "pending") with false.
  change ("cancelled" =? "preparing") with false.
  change ("cancelled" =? "ready") with false.
  change (("cancelled" =? "completed") || ("cancelled" =? "cancelled")) with true.
  cbv iota.
  destruct (from =? "pending"); [lia|].
  destruct (from =? "preparing"); [lia|].
  destruct (from =? "ready"); [lia|].
  apply String.eqb_neq in Hc, Hx. rewrite Hc, Hx. cbn. lia.
Qed.

Lemma rank_at_most_three : forall status, (rank status <= 3)%nat.
Proof.
  intros status. unfold rank.
  repeat match goal with |- context [if ?c then _ else _] => destruct c end; lia.
Qed.

Lemma pressed_offered :
  forall (to : string) (l : list string),
    existsb (String.eqb to) l = true -> In to l.
Proof.
  intros to l H. apply existsb_exists in H. destruct H as (b & Hb & Heq).
  apply String.eqb_eq in Heq. subst b. exact Hb.
Qed.

Lemma button_target_ok :
  forall from to,
    In to (OrdersPage.statusButtons true from) -> Pg.status_ok to = true.
Proof.
  intros from to Hin.
  destruct (button_targets from to Hin)
    as [[_ ->]|[[_ ->]|[[_ ->]|(-> & _)]]]; reflexivity.
Qed.

(** What the page shows for an order after an admin's press: the status
    written, unless the reload no longer lists the order. *)
Lemma press_shows :
  forall uid now orderId newStatus st db,
    Pg.is_admin (Some uid) db = true ->
    Pg.status_ok newStatus = true ->
    let r := OrdersPage.updateOrderStatus (Some uid) now orderId newStatus
               false false st db in
    Pg.is_admin (Some uid) (snd (fst r)) = true
    /\ OrdersPage.isAdmin (fst (fst r)) = OrdersPage.isAdmin st
    /\ (shownStatus orderId (fst (fst r)) = None
        \/ shownStatus orderId (fst (fst r)) = Some newStatus).
Proof.
  intros uid now orderId newStatus st db Hadm Hok r. subst r.
  unfold OrdersPage.updateOrderStatus, Pg.update_order_status.
  rewrite Hok. cbn [negb]. rewrite andb_false_r.
  set (db' := mkDb _ _ _ _ _ _).
  assert (Hadm' : Pg.is_admin (Some uid) db' = true) by exact Hadm.
  pose proof (loadOrders_shown uid (OrdersPage.isAdmin st) st db') as Hlist.
  assert (Hflag : OrdersPage.isAdmin
                    (fst (OrdersPage.loadOrders (Some uid) (OrdersPage.isAdmin st)
                            false st db')) = OrdersPage.isAdmin st)
    by reflexivity.
  destruct (OrdersPage.loadOrders (Some uid) (OrdersPage.isAdmin st) false st db')
    as [st' ev]. cbn [fst snd] in *.
  split; [exact Hadm'|]. split; [exact Hflag|].
  unfold shownStatus. rewrite Hlist.
  destruct (find _ _) as [v|] eqn:Hfind; [right | left; reflexivity].
  apply find_some in Hfind. destruct Hfind as [Hin Hid].
  apply N.eqb_eq in Hid.
  apply shown_order in Hin. destruct Hin as (o & Ho & ->).
  apply filter_In in Ho. destruct Ho as [Ho _].
  subst db'. cbn [orders] in Ho. apply in_map_iff in Ho.
  destruct Ho as (o0 & Heq & _). cbn [Pg.order_view Order.id] in Hid.
  cbn [option_map Pg.order_view Order.status]. f_equal.
  rewrite Hadm in Heq. cbn [andb] in Heq.
  destruct (OrderRow.id o0 =? orderId)%N eqn:Hhit; subst o.
  - reflexivity.
  - apply N.eqb_neq in Hhit. contradiction.
Qed.

(** One press of a run, taken apart. *)
Lemma pressAll_cons :
  forall uid orderId now to rest st db,
    Pg.is_admin (Some uid) db = true ->
    pressAll (Some uid) orderId ((now, to) :: rest) st db <> None ->
    let r := OrdersPage.updateOrderStatus (Some uid) now orderId to
               false false st db in
    exists from,
      shownStatus orderId st = Some from
      /\ OrdersPage.isAdmin st = true
      /\ In to (OrdersPage.statusButtons true from)
      /\ pressAll (Some uid) orderId rest (fst (fst r)) (snd (fst r)) <> None
      /\ Pg.is_admin (Some uid) (snd (fst r)) = true
      /\ (shownStatus orderId (fst (fst r)) = None
          \/ shownStatus orderId (fst (fst r)) = Some to).
Proof.
  intros uid orderId now to rest st db Hadm Hrun r.
  cbn [pressAll] in Hrun.
  destruct (shownStatus orderId st) as [from|] eqn:Hshown; [|contradiction].
  destruct (existsb _ _) eqn:Hbutton; [|contradiction].
  apply pressed_offered in Hbutton.
  assert (Hflag : OrdersPage.isAdmin st = true).
  { destruct (OrdersPage.isAdmin st); [reflexivity|destruct Hbutton]. }
  rewrite Hflag in Hbutton.
  destruct (press_shows uid now orderId to st db Hadm
              (button_target_ok _ _ Hbutton)) as (Hadm' & _ & Hnext).
  exists from. repeat split; assumption.
Qed.

Lemma pressAll_bound :
  forall presses uid orderId st db,
    Pg.is_admin (Some uid) db = true ->
    pressAll (Some uid) orderId presses st db <> None ->
    (List.length presses
     <= match shownStatus orderId st with
        | Some from => rank from
        | None => 0
        end)%nat.
Proof.
  induction presses as [|[now to] rest IH]; intros uid orderId st db Hadm Hrun;
    [cbn; lia|].
  destruct (pressAll_cons uid orderId now to rest st db Hadm Hrun)
    as (from & Hshown & _ & Hbutton & Hrest & Hadm' & Hnext).
  specialize (IH uid orderId _ _ Hadm' Hrest).
  pose proof (button_lowers_rank from to Hbutton) as Hlower.
  rewrite Hshown. cbn [List.length].
  destruct Hnext as [Hnext|Hnext]; rewrite Hnext in IH; lia.
Qed.

(** X17. Pressing the status buttons that the Orders page offers under an
    order, one after the other, ends.  Each press runs [updateOrderStatus]
    for an admin of the store on a backend that answers, and the reload
    gives the page of the next press.  Under any order at most three
    buttons can be pressed in a row; while the page displays the order as
    completed or cancelled none can; and a run of three presses that
    starts where the page displays "pending" is preparing, ready and then
    completed or cancelled. *)
Theorem status_buttons_run_out :
  forall (uid orderId : Uuid) (presses : list (N * string))
         (st : OrdersPage.state) (db : Db),
    Pg.is_admin (Some uid) db = true ->
    pressAll (Some uid) orderId presses st db <> None ->
    (List.length presses <= 3)%nat
    /\ (shownStatus orderId st = Some "completed"
        \/ shownStatus orderId st = Some "cancelled" ->
        presses = [])
    /\ (shownStatus orderId st = Some "pending" ->
        List.length presses = 3%nat ->
        map snd presses = ["preparing"; "ready"; "completed"]
        \/ map snd presses = ["preparing"; "ready"; "cancelled"]).
Proof.
  intros uid orderId presses st db Hadm Hrun.
  pose proof (pressAll_bound presses uid orderId st db Hadm Hrun) as Hbound.
  split; [|split].
  - destruct (shownStatus orderId st) as [from|]; [|lia].
    pose proof (rank_at_most_three from). lia.
  - intros [Hshown|Hshown]; rewrite Hshown in Hbound;
      destruct presses; try reflexivity; cbn in Hbound; lia.
  - intros Hshown Hlen.
    destruct presses as [|[t1 a] [|[t2 b] [|[t3 c] [|d rest]]]];
      try discriminate.
    cbn [map snd].
    destruct (pressAll_cons uid orderId t1 a _ st db Hadm Hrun)
      as (from1 & Hs1 & _ & Ha & Hrun1 & Hadm1 & Hnext1).
    rewrite Hshown in Hs1. injection Hs1 as <-.
    pose proof (pressAll_bound _ uid orderId _ _ Hadm1 Hrun1) as Hb1.
    destruct Hnext1 as [Hnext1|Hnext1]; rewrite Hnext1 in Hb1;
      [cbn in Hb1; lia|].
    apply button_targets in Ha.
    destruct Ha as [[_ ->]|[[? _]|[[? _]|(-> & _ & _)]]]; try discriminate;
      [|cbn in Hb1; lia].
    destruct (pressAll_cons uid orderId t2 b _ _ _ Hadm1 Hrun1)
      as (from2 & Hs2 & _ & Hb & Hrun2 & Hadm2 & Hnext2).
    rewrite Hnext1 in Hs2. injection Hs2 as <-.
    pose proof (pressAll_bound _ uid orderId _ _ Hadm2 Hrun2) as Hb2.
    destruct Hnext2 as [Hnext2|Hnext2]; rewrite Hnext2 in Hb2;
      [cbn in Hb2; lia|].
    apply button_targets in Hb.
    destruct Hb as [[? _]|[[_ ->]|[[? _]|(-> & _ & _)]]]; try discriminate;
      [|cbn in Hb2; lia].
    destruct (pressAll_cons uid orderId t3 c _ _ _ Hadm2 Hrun2)
      as (from3 & Hs3 & _ & Hc & _).
    rewrite Hnext2 in Hs3. injection Hs3 as <-.
    apply button_targets in Hc.
    destruct Hc as [[? _]|[[? _]|[[_ ->]|(-> & _ & _)]]]; try discriminate.
    + left. reflexivity.
    + right. reflexivity.
Qed.

Lemma status_buttons_run_out_witness :
  pressAll (Some Scenario.admin) 102
    [(Scenario.noon + 60000, "preparing"); (Scenario.noon + 900000, "ready");
     (Scenario.completion_time, "completed")]%N
    Scenario.orders_page Scenario.db_ordered <> None
  /\ (List.length
        [(Scenario.noon + 60000, "preparing"); (Scenario.noon + 900000, "ready");
         (Scenario.completion_time, "completed")]%N <= 3)%nat.
Proof.
  assert (Hrun : pressAll (Some Scenario.admin) 102
                   [(Scenario.noon + 60000, "preparing");
                    (Scenario.noon + 900000, "ready");
                    (Scenario.completion_time, "completed")]%N
                   Scenario.orders_page Scenario.db_ordered <> None)
    by (vm_compute; discriminate).
  split; [exact Hrun|].
  apply (status_buttons_run_out Scenario.admin 102 _ Scenario.orders_page
           Scenario.db_ordered); [vm_compute; reflexivity | exact Hrun].
Defined.

End Buttons.

(* ------------------------------------------------------------------ *)
(** ** The admin dashboard *)






(* ------------------------------------------------------------------ *)
(** ** The student dashboard *)

Lemma insert_newest_row_perm :
  forall o l, Permutation (PgRead.insert_newest_row o l) (o :: l).
Proof.
  intros o l. induction l as [|x l IH]; cbn [PgRead.insert_newest_row].
  - apply Permutation_refl.
  - destruct (OrderRow.created_at x <? OrderRow.created_at o)%N.
    + apply Permutation_refl.
    + eapply Permutation_trans; [apply perm_skip, IH | apply perm_swap].
Qed.

Lemma newest_rows_first_perm :
  forall l, Permutation (PgRead.newest_rows_first l) l.
Proof.
  induction l as [|o l IH]; [apply Permutation_refl|].
  cbn [PgRead.newest_rows_first fold_right]. fold (PgRead.newest_rows_first l).
  eapply Permutation_trans; [apply insert_newest_row_perm | apply perm_skip, IH].
Qed.

Lemma insert_newest_row_sorted :
  forall o l, Sorted newer_row l -> Sorted newer_row (PgRead.insert_newest_row o l).
Proof.
  intros o l Hl. induction Hl as [|x l Hl IH Hhd]; cbn [PgRead.insert_newest_row].
  - repeat constructor.
  - destruct (N.ltb_spec (OrderRow.created_at x) (OrderRow.created_at o))
      as [Hlt|Hge].
    + constructor; [constructor; assumption|].
      constructor. unfold newer_row. lia.
    + constructor; [exact IH|].
      destruct l as [|y l]; cbn [PgRead.insert_newest_row].
      * constructor. exact Hge.
      * destruct (OrderRow.created_at y <? OrderRow.created_at o)%N.
        -- constructor. exact Hge.
        -- inversion Hhd; subst. constructor. assumption.
Qed.

Lemma newest_rows_first_sorted :
  forall l, Sorted newer_row (PgRead.newest_rows_first l).
Proof.
  induction l as [|o l IH]; [constructor|].
  cbn [PgRead.newest_rows_first fold_right]. fold (PgRead.newest_rows_first l).
  apply insert_newest_row_sorted, IH.
Qed.

Lemma sorted_firstn :
  forall (A : Type) (R : A -> A -> Prop) (n : nat) (l : list A),
    Sorted R l -> Sorted R (firstn n l).
Proof.
  intros A R n. induction n as [|n IH]; intros l Hl; [constructor|].
  destruct l as [|x l]; [constructor|].
  inversion Hl as [|? ? Hrest Hhd]; subst. cbn [firstn]. constructor.
  - apply IH, Hrest.
  - destruct n; [constructor|]. destruct l as [|y l]; [constructor|].
    inversion Hhd; subst. cbn [firstn]. constructor. assumption.
Qed.

(** X20. The student dashboard shows at most three recent orders; they
    are orders of the store that belong to the signed-in student, newest
    first, and when the student has three orders or fewer all of them are
    shown.  A read that fails shows none. *)
Theorem dashboard_recent_orders :
  forall (uid : Uuid) (cart_fault : bool) (st : StudentDashboard.state) (db : Db),
    let recent :=
      StudentDashboard.recentOrders
        (StudentDashboard.loadDashboardData (Some uid) cart_fault false st db) in
    (List.length recent <= 3)%nat
    /\ Sorted newer_row recent
    /\ (forall o, In o recent -> In o (orders db) /\ OrderRow.student_id o = uid)
    /\ ((List.length (filter (fun o => (OrderRow.student_id o =? uid)%N)
                        (orders db)) <= 3)%nat ->
        Permutation recent
          (filter (fun o => (OrderRow.student_id o =? uid)%N) (orders db)))
    /\ StudentDashboard.recentOrders
         (StudentDashboard.loadDashboardData (Some uid) cart_fault true st db)
       = [].
Proof.
  intros uid cart_fault st db recent. subst recent.
  unfold StudentDashboard.loadDashboardData, PgRead.select_recent_orders.
  cbn [StudentDashboard.recentOrders].
  set (own := filter (fun o => Pg.order_visible (Some uid) db o
                               && (OrderRow.student_id o =? uid)%N) (orders db)).
  assert (Hown : own = filter (fun o => (OrderRow.student_id o =? uid)%N)
                         (orders db)).
  { subst own. apply filter_ext. intros o.
    unfold Pg.order_visible, Pg.is_uid. rewrite (N.eqb_sym uid).
    destruct (OrderRow.student_id o =? uid)%N; [reflexivity|].
    apply andb_false_r. }
  split; [|split; [|split; [|split; [|reflexivity]]]].
  - rewrite length_firstn. lia.
  - apply sorted_firstn, newest_rows_first_sorted.
  - intros o Ho.
    assert (Hin : In o own).
    { apply (Permutation_in o (newest_rows_first_perm own)).
      rewrite <- (firstn_skipn 3 (PgRead.newest_rows_first own)).
      apply in_or_app. left. exact Ho. }
    rewrite Hown in Hin. apply filter_In in Hin. destruct Hin as [Hin Hs].
    split; [exact Hin | apply N.eqb_eq, Hs].
  - intros Hfew. rewrite <- Hown in *.
    rewrite firstn_all2; [apply newest_rows_first_perm|].
    rewrite (Permutation_length (newest_rows_first_perm own)). exact Hfew.
Qed.

Lemma dashboard_recent_orders_witness :
  map OrderRow.id
    (StudentDashboard.recentOrders
       (StudentDashboard.loadDashboardData (Some Scenario.student) false false
          (StudentDashboard.mkState 0 [] true) Scenario.db_ordered))
  = [102%N].
Proof.
  destruct (dashboard_recent_orders Scenario.student false
              (StudentDashboard.mkState 0 [] true) Scenario.db_ordered)
    as (_ & _ & _ & Hall & _).
  assert (Hperm := Hall ltac:(vm_compute; lia)).
  apply (Permutation_map OrderRow.id) in Hperm. vm_compute in Hperm.
  apply Permutation_length_1_inv. apply Permutation_sym.
  vm_compute. exact Hperm.
Defined.

(* ------------------------------------------------------------------ *)
(** ** Adding to the cart: the rest of the store *)

(** What a call of [handleAddToCart] can have done to the cart table:
    rewritten quantities in place, or appended the entry of a pair that
    had none. *)
Lemma handleAddToCart_cart :
  forall isAuthenticated user now item lookup_fault write_fault db,
    let r := Menu.handleAddToCart isAuthenticated user now item lookup_fault
               write_fault db in
    profiles (fst r) = profiles db
    /\ menu_items (fst r) = menu_items db
    /\ orders (fst r) = orders db
    /\ order_items (fst r) = order_items db
    /\ ((exists (q : Z) (hit : CartRow.row -> bool),
            cart_items (fst r)
            = map (fun x => if hit x then Pg.set_quantity q now x else x)
                (cart_items db)
            /\ (forall x, hit x = true ->
                          exists e, In e (cart_items db)
                                    /\ CartRow.id x = CartRow.id e
                                    /\ Some (CartRow.student_id e) = user
                                    /\ CartRow.menu_item_id e = MenuItem.id item))
        \/ (exists uid,
               user = Some uid
               /\ existsb (fun x => (CartRow.student_id x =? uid)%N
                                    && (CartRow.menu_item_id x =? MenuItem.id item)%N)
                    (cart_items db) = false
               /\ cart_items (fst r)
                  = cart_items db
                    ++ [CartRow.mk (next_uuid db) uid (MenuItem.id item) 1 now now]
               /\ succeeded (snd r) = true)).
Proof.
  intros isAuthenticated user now item lookup_fault write_fault db. cbv zeta.
  assert (Hsame : forall ev,
            profiles db = profiles db /\ menu_items db = menu_items db
            /\ orders db = orders db /\ order_items db = order_items db
            /\ ((exists (q : Z) (hit : CartRow.row -> bool),
                    cart_items db
                    = map (fun x => if hit x then Pg.set_quantity q now x else x)
                        (cart_items db)
                    /\ (forall x, hit x = true ->
                          exists e, In e (cart_items db)
                                    /\ CartRow.id x = CartRow.id e
                                    /\ Some (CartRow.student_id e) = user
                                    /\ CartRow.menu_item_id e = MenuItem.id item))
                \/ (exists uid,
                       user = Some uid
                       /\ existsb (fun x => (CartRow.student_id x =? uid)%N
                                            && (CartRow.menu_item_id x
                                                =? MenuItem.id item)%N)
                            (cart_items db) = false
                       /\ cart_items db
                          = cart_items db
                            ++ [CartRow.mk (next_uuid db) uid (MenuItem.id item) 1
                                  now now]
                       /\ succeeded ev = true))).
  { intros ev. repeat split. left. exists 0%Z, (fun _ => false). split.
    - rewrite <- (map_id (cart_items db)) at 1. apply map_ext.
      intros x. reflexivity.
    - intros x Hx. discriminate. }
  unfold Menu.handleAddToCart.
  destruct (negb isAuthenticated); [apply Hsame|].
  destruct user as [uid|]; [|apply Hsame].
  unfold Menu.writeCart, Menu.lookupExisting.
  destruct (Pg.select_cart_single (Some uid) uid (MenuItem.id item) lookup_fault db)
    as [existingItem|e] eqn:Hsel.
  - destruct (Pg.update_cart_quantity _ _ _ _ _ _) as [db'|e] eqn:Hupd;
      [|apply Hsame].
    apply update_cart_quantity_inv in Hupd. destruct Hupd as (-> & _ & _).
    cbn [fst snd profiles menu_items orders order_items cart_items
           Pg.set_cart_items].
    repeat split. left. eexists. eexists. split; [reflexivity|].
    intros x Hx. cbv beta in Hx. apply andb_true_iff in Hx.
    destruct Hx as [_ Hid]. apply N.eqb_eq in Hid.
    unfold Pg.select_cart_single in Hsel.
    destruct lookup_fault; [discriminate|].
    destruct (filter _ (cart_items db)) as [|e0 [|e1 l]] eqn:Hrows;
      try discriminate.
    injection Hsel as <-.
    assert (Hin : In e0 (filter (fun r => Pg.cart_visible (Some uid) r
                                          && (CartRow.student_id r =? uid)%N
                                          && (CartRow.menu_item_id r
                                              =? MenuItem.id item)%N)
                           (cart_items db)))
      by (rewrite Hrows; left; reflexivity).
    apply filter_In in Hin. destruct Hin as [Hin Hmine].
    apply andb_true_iff in Hmine. destruct Hmine as [Hmine Hitem].
    apply andb_true_iff in Hmine. destruct Hmine as [_ Hstudent].
    apply N.eqb_eq in Hitem, Hstudent.
    exists e0. repeat split; congruence.
  - destruct (Pg.insert_cart_item _ _ _ _ _ _ _) as [db'|e'] eqn:Hins;
      [|apply Hsame].
    apply insert_cart_item_inv in Hins. destruct Hins as (-> & _ & Htaken).
    cbn [fst snd profiles menu_items orders order_items cart_items].
    repeat split. right. exists uid. repeat split. exact Htaken.
Qed.

(** X21. [handleAddToCart] keeps to the cart: it never changes the
    orders, the order items, the catalog or the profiles, and it never
    removes a cart row or changes a row's id, owner or menu item.  When
    the ids of the cart rows are unique, a call for one (student, menu
    item) pair leaves every row of another pair exactly as it was. *)
Theorem addToCart_keeps_to_the_cart :
  forall (isAuthenticated : bool) (uid : Uuid) (now : N) (item : MenuItem.row)
         (lookup_fault write_fault : bool) (db : Db),
    let db' := fst (Menu.handleAddToCart isAuthenticated (Some uid) now item
                      lookup_fault write_fault db) in
    orders db' = orders db
    /\ order_items db' = order_items db
    /\ menu_items db' = menu_items db
    /\ profiles db' = profiles db
    /\ (List.length (cart_items db) <= List.length (cart_items db'))%nat
    /\ (cart_ids_unique db ->
        forall r, In r (cart_items db) ->
                  (CartRow.student_id r <> uid
                   \/ CartRow.menu_item_id r <> MenuItem.id item) ->
                  In r (cart_items db')).
Proof.
  intros isAuthenticated uid now item lookup_fault write_fault db. cbv zeta.
  pose proof (handleAddToCart_cart isAuthenticated (Some uid) now item
                lookup_fault write_fault db) as Hshape.
  cbv zeta in Hshape.
  destruct Hshape as (Hp & Hm & Ho & Hi & Hcart).
  repeat split; try assumption.
  - destruct Hcart as [(q & hit & -> & _)|(u & _ & _ & -> & _)].
    + rewrite length_map. lia.
    + rewrite length_app. lia.
  - intros Hunique r Hr Hother.
    destruct Hcart as [(q & hit & -> & Hhit)|(u & _ & _ & -> & _)].
    + apply in_map_iff. exists r. split; [|exact Hr].
      destruct (hit r) eqn:Hr_hit; [|reflexivity].
      exfalso. destruct (Hhit r Hr_hit) as (e & He & Hid & Howner & Hitem).
      assert (r = e).
      { unfold cart_ids_unique in Hunique.
        clear -Hunique Hr He Hid. induction (cart_items db) as [|x l IH];
          [destruct Hr|].
        cbn [map] in Hunique. inversion Hunique as [|? ? Hnotin Hrest]; subst.
        destruct Hr as [->|Hr], He as [->|He].
        - reflexivity.
        - exfalso. apply Hnotin. rewrite Hid. apply in_map, He.
        - exfalso. apply Hnotin. rewrite <- Hid. apply in_map, Hr.
        - apply IH; assumption. }
      subst e. injection Howner as Howner. destruct Hother; congruence.
    + apply in_or_app. left. exact Hr.
Qed.

Lemma addToCart_keeps_to_the_cart_witness :
  In (CartRow.mk 100 Scenario.student 10 2 Scenario.morning
        (Scenario.morning + 1000))
     (cart_items
        (fst (Menu.handleAddToCart true (Some Scenario.student) Scenario.noon
                Scenario.pizza false false Scenario.db_cart))).
Proof.
  destruct (addToCart_keeps_to_the_cart true Scenario.student Scenario.noon
              Scenario.pizza false false Scenario.db_cart)
    as (_ & _ & _ & _ & _ & Hkept).
  apply Hkept.
  - vm_compute. repeat constructor; cbn; intuition discriminate.
  - vm_compute. left. reflexivity.
  - right. discriminate.
Defined.

Lemma filter_own_map :
  forall (p hit : CartRow.row -> bool) q now (l : list CartRow.row),
    (forall x, p (Pg.set_quantity q now x) = p x) ->
    List.length
      (filter p (map (fun x => if hit x then Pg.set_quantity q now x else x) l))
    = List.length (filter p l).
Proof.
  intros p hit q now l Hp. rewrite filter_map_same; [apply length_map|].
  intros x. destruct (hit x); [apply Hp | reflexivity].
Qed.

(** X22. The cart badge of the student dashboard counts entries, not
    units: a successful "Add to Cart" for a dish that is already in the
    student's cart leaves the count as it is, and one for a dish that is
    not raises it by one. *)
Theorem dashboard_cart_count_counts_entries :
  forall (uid : Uuid) (now : N) (item : MenuItem.row)
         (lookup_fault write_fault : bool)
         (st : StudentDashboard.state) (db : Db),
    let r := Menu.handleAddToCart true (Some uid) now item lookup_fault
               write_fault db in
    let before :=
      StudentDashboard.cartCount
        (StudentDashboard.loadDashboardData (Some uid) false false st db) in
    let after :=
      StudentDashboard.cartCount
        (StudentDashboard.loadDashboardData (Some uid) false false st (fst r)) in
    succeeded (snd r) = true ->
    after = if existsb (fun x => (CartRow.student_id x =? uid)%N
                                 && (CartRow.menu_item_id x =? MenuItem.id item)%N)
                 (cart_items db)
            then before else S before.
Proof.
  intros uid now item lookup_fault write_fault st db. cbv zeta. intros Hok.
  pose proof (handleAddToCart_cart true (Some uid) now item lookup_fault
                write_fault db) as Hshape.
  cbv zeta in Hshape. destruct Hshape as (_ & _ & _ & _ & Hcart).
  unfold StudentDashboard.loadDashboardData, PgRead.select_cart_rows.
  cbn [StudentDashboard.cartCount].
  destruct Hcart as [(q & hit & Hmap & Hhit)|(u & Hu & Hfree & Happ & _)].
  - rewrite Hmap, filter_own_map by reflexivity.
    destruct (existsb _ (cart_items db)) eqn:Htaken; [reflexivity|].
    (* no entry, yet a success: the call must have appended *)
    exfalso. revert Hok Hmap.
    unfold Menu.handleAddToCart, Menu.writeCart, Menu.lookupExisting.
    cbn [negb]. unfold Pg.select_cart_single.
    assert (Hnone : filter (fun r => Pg.cart_visible (Some uid) r
                                     && (CartRow.student_id r =? uid)%N
                                     && (CartRow.menu_item_id r =? MenuItem.id item)%N)
                      (cart_items db) = []).
    { clear -Htaken. induction (cart_items db) as [|x l IH]; [reflexivity|].
      cbn [existsb] in Htaken. apply orb_false_iff in Htaken.
      destruct Htaken as [Hx Hl]. cbn [filter].
      rewrite <- andb_assoc, Hx, andb_false_r. apply IH, Hl. }
    rewrite Hnone. unfold Pg.insert_cart_item. cbn [Pg.is_uid].
    rewrite N.eqb_refl, Htaken. change (Pg.int4_ok 1) with true.
    cbn [negb Z.ltb Z.compare].
    destruct lookup_fault, write_fault; cbn [fst snd cart_items];
      intros Hok Hmap;
      try discriminate Hok;
      apply (f_equal (@List.length _)) in Hmap;
      rewrite length_map, length_app in Hmap; cbn in Hmap; lia.
  - injection Hu as <-. rewrite Hfree, Happ, filter_app, length_app.
    cbn [filter Pg.cart_visible Pg.is_uid CartRow.student_id].
    rewrite N.eqb_refl. cbn [andb List.length]. lia.
Qed.

Lemma dashboard_cart_count_counts_entries_witness :
  StudentDashboard.cartCount
    (StudentDashboard.loadDashboardData (Some Scenario.student) false false
       (StudentDashboard.mkState 0 [] true)
       (fst (Menu.handleAddToCart true (Some Scenario.student) Scenario.noon
               Scenario.pizza false false Scenario.db_cart)))
  = 2%nat.
Proof.
  rewrite (dashboard_cart_count_counts_entries Scenario.student Scenario.noon
             Scenario.pizza false false (StudentDashboard.mkState 0 [] true)
             Scenario.db_cart).
  - reflexivity.
  - reflexivity.
Defined.

(* ------------------------------------------------------------------ *)
(** ** One cart entry per student and dish *)

Lemma NoDup_map_filter :
  forall (A B : Type) (g : A -> B) (p : A -> bool) (l : list A),
    NoDup (map g l) -> NoDup (map g (filter p l)).
Proof.
  intros A B g p l. induction l as [|x l IH]; intros Hl; [constructor|].
  cbn [map] in Hl. inversion Hl as [|? ? Hnotin Hrest]; subst.
  cbn [filter]. destruct (p x); [|apply IH, Hrest].
  cbn [map]. constructor; [|apply IH, Hrest].
  intros Hin. apply Hnotin. apply in_map_iff in Hin.
  destruct Hin as (y & Hy & Hin). apply filter_In in Hin.
  rewrite <- Hy. apply in_map. tauto.
Qed.

Lemma pairs_after_rewrite :
  forall (hit : CartRow.row -> bool) q now (l : list CartRow.row),
    map (fun r => (CartRow.student_id r, CartRow.menu_item_id r))
      (map (fun x => if hit x then Pg.set_quantity q now x else x) l)
    = map (fun r => (CartRow.student_id r, CartRow.menu_item_id r)) l.
Proof.
  intros hit q now l. rewrite map_map. apply map_ext. intros x.
  destruct (hit x); reflexivity.
Qed.

Lemma update_cart_quantity_pairs :
  forall auth itemId q now fault db db',
    cart_pairs_unique db ->
    Pg.update_cart_quantity auth itemId q now fault db = inl db' ->
    cart_pairs_unique db'.
Proof.
  intros auth itemId q now fault db db' Hu Hupd.
  apply update_cart_quantity_inv in Hupd. destruct Hupd as (-> & _).
  unfold cart_pairs_unique in *.
  cbn [cart_items Pg.set_cart_items]. rewrite pairs_after_rewrite. exact Hu.
Qed.

(** X23. The cart never holds two entries for the same student and dish:
    when that is so before, it is so after [handleAddToCart],
    [updateQuantity], [removeItem] and [handleCheckout], whatever their
    arguments and faults. *)
Theorem cart_pairs_stay_unique :
  forall db : Db,
    cart_pairs_unique db ->
    (forall isAuthenticated user now item lf wf,
        cart_pairs_unique
          (fst (Menu.handleAddToCart isAuthenticated user now item lf wf db)))
    /\ (forall user now itemId q f rf st,
           cart_pairs_unique
             (snd (fst (Cart.updateQuantity user now itemId q f rf st db))))
    /\ (forall user itemId f rf st,
           cart_pairs_unique (snd (fst (Cart.removeItem user itemId f rf st db))))
    /\ (forall user now net st,
           cart_pairs_unique (fst (Cart.handleCheckout user now net st db))).
Proof.
  intros db Hu. split; [|split; [|split]].
  - intros isAuthenticated user now item lf wf.
    pose proof (handleAddToCart_cart isAuthenticated user now item lf wf db)
      as Hshape.
    cbv zeta in Hshape. destruct Hshape as (_ & _ & _ & _ & Hcart).
    unfold cart_pairs_unique in *.
    destruct Hcart as [(q & hit & -> & _)|(uid & _ & Hfree & -> & _)].
    + rewrite pairs_after_rewrite. exact Hu.
    + rewrite map_app. cbn [map CartRow.student_id CartRow.menu_item_id].
      apply NoDup_snoc; [exact Hu|].
      intros Hin. apply in_map_iff in Hin. destruct Hin as (x & Hx & Hin).
      injection Hx as Hs Hm.
      assert (Htaken : existsb (fun x => (CartRow.student_id x =? uid)%N
                                         && (CartRow.menu_item_id x
                                             =? MenuItem.id item)%N)
                         (cart_items db) = true).
      { apply existsb_exists. exists x. split; [exact Hin|].
        rewrite Hs, Hm, !N.eqb_refl. reflexivity. }
      rewrite Htaken in Hfree. discriminate.
  - intros user now itemId q f rf st. unfold Cart.updateQuantity.
    destruct (q <? 1)%Z; [exact Hu|].
    destruct (Pg.update_cart_quantity user itemId q now f db) as [db'|e] eqn:Hupd;
      [|exact Hu].
    destruct (Cart.loadCart user rf st db'). cbn [fst snd].
    eapply update_cart_quantity_pairs; eassumption.
  - intros user itemId f rf st. unfold Cart.removeItem, Pg.delete_cart_item.
    destruct f; [exact Hu|].
    destruct (Cart.loadCart _ _ _ _). cbn [fst snd].
    unfold cart_pairs_unique in *. cbn [cart_items Pg.set_cart_items].
    apply NoDup_map_filter, Hu.
  - intros user now net st.
    unfold Cart.handleCheckout.
    destruct user as [uid|]; [|exact Hu].
    destruct (List.length (Cart.cartItems st) =? 0)%nat; [exact Hu|].
    destruct (Pg.insert_order _ _ _ _ _ _ _ _ _ _ _ _) as [[order db1]|e] eqn:Ho;
      [|exact Hu].
    apply insert_order_inv in Ho. destruct Ho as (_ & Hdb1 & _).
    destruct (Pg.insert_order_items _ _ _ _) as [db2|e] eqn:Hi;
      [|subst db1; exact Hu].
    apply insert_order_items_inv in Hi. destruct Hi as (Hdb2 & _).
    unfold Pg.delete_cart_of. destruct (Cart.clearError net); cbn [fst];
      subst db2 db1; unfold cart_pairs_unique in *;
      cbn [cart_items Pg.set_cart_items]; [exact Hu|].
    apply NoDup_map_filter, Hu.
Qed.

Lemma cart_pairs_stay_unique_witness :
  cart_pairs_unique
    (fst (Menu.handleAddToCart true (Some Scenario.student) Scenario.noon
            Scenario.pizza false false Scenario.db_cart)).
Proof.
  destruct (cart_pairs_stay_unique Scenario.db_cart) as [Hadd _].
  - vm_compute. repeat constructor; cbn; intuition discriminate.
  - apply Hadd.
Defined.

(* ------------------------------------------------------------------ *)
(** ** The menu list: search and categories *)

Lemma prefix_spec :
  forall sub s : string,
    String.prefix sub s = true <-> exists after, s = (sub ++ after)%string.
Proof.
  induction sub as [|a sub IH]; intros s.
  - destruct s; cbn; split; try reflexivity; intros _; eexists; reflexivity.
  - destruct s as [|b s]; cbn.
    + split; [discriminate | intros (after & H); discriminate H].
    + destruct (ascii_dec a b) as [->|Hab].
      * rewrite IH. split; intros (after & H); exists after.
        -- rewrite H. reflexivity.
        -- injection H as H. exact H.
      * split; [discriminate|]. intros (after & H). injection H as H _.
        symmetry in H. contradiction.
Qed.

Lemma includes_spec :
  forall s sub : string, JsString.includes s sub = true <-> contains s sub.
Proof.
  induction s as [|c s IH]; intros sub; cbn [JsString.includes];
    rewrite orb_true_iff, prefix_spec.
  - split.
    + intros [(after & H)|H]; [|discriminate]. exists "", after. exact H.
    + intros (before & after & H). left.
      destruct before as [|b before]; [exists after; exact H | discriminate H].
  - rewrite IH. split.
    + intros [(after & H)|(before & after & H)].
      * exists "", after. exact H.
      * exists (String c before), after. rewrite H. reflexivity.
    + intros (before & after & H). destruct before as [|b before].
      * left. exists after. exact H.
      * right. injection H as _ H. exists before, after. exact H.
Qed.

Section FilterItems.

Variable toLowerCase : string -> string.

Let keeps (selectedCategory searchQuery : string) (item : MenuItem.row) : bool :=
  ((selectedCategory =? "All") || (MenuItem.category item =? selectedCategory))
  && ((searchQuery =? "")
      || MenuList.matches toLowerCase searchQuery item).

Lemma filterItems_filter :
  forall menuItems selectedCategory searchQuery,
    MenuList.filterItems toLowerCase menuItems selectedCategory searchQuery
    = filter (keeps selectedCategory searchQuery) menuItems.
Proof.
  intros menuItems selectedCategory searchQuery.
  unfold MenuList.filterItems, keeps.
  destruct (selectedCategory =? "All"), (searchQuery =? ""); cbn [negb orb andb].
  - symmetry. apply filter_true.
  - apply filter_ext. reflexivity.
  - apply filter_ext. intros item. rewrite andb_true_r. reflexivity.
  - induction menuItems as [|x l IH]; [reflexivity|]. cbn [filter].
    destruct (MenuItem.category x =? selectedCategory); cbn [filter andb];
      [destruct (MenuList.matches toLowerCase searchQuery x)|];
      rewrite IH; reflexivity.
Qed.

(** X24. What the menu search keeps: a dish stays in the list exactly
    when it is on the menu that was loaded, its category is the selected
    one (or "All" is selected), and the lower-cased query occurs in its
    lower-cased name or description (or the query is empty).  With "All"
    and an empty query the whole menu is shown. *)
Theorem filterItems_keeps :
  forall (menuItems : list MenuItem.row) (selectedCategory searchQuery : string)
         (item : MenuItem.row),
    (In item (MenuList.filterItems toLowerCase menuItems selectedCategory
                searchQuery)
     <-> In item menuItems
         /\ (selectedCategory = "All" \/ MenuItem.category item = selectedCategory)
         /\ (searchQuery = ""
             \/ contains (toLowerCase (MenuItem.name item))
                  (toLowerCase searchQuery)
             \/ contains (toLowerCase (MenuItem.description item))
                  (toLowerCase searchQuery)))
    /\ MenuList.filterItems toLowerCase menuItems "All" "" = menuItems.
Proof.
  intros menuItems selectedCategory searchQuery item. split; [|reflexivity].
  rewrite filterItems_filter, filter_In. unfold keeps, MenuList.matches.
  rewrite andb_true_iff, !orb_true_iff, !String.eqb_eq, !includes_spec.
  tauto.
Qed.

(** X25. The menu search only narrows and is stable: the list it gives
    is the loaded menu with some dishes left out, in the same order, and
    searching the result again with the same category and query changes
    nothing. *)
Theorem filterItems_narrows :
  forall (menuItems : list MenuItem.row) (selectedCategory searchQuery : string),
    let shown := MenuList.filterItems toLowerCase menuItems selectedCategory
                   searchQuery in
    (exists keep, shown = filter keep menuItems)
    /\ (List.length shown <= List.length menuItems)%nat
    /\ MenuList.filterItems toLowerCase shown selectedCategory searchQuery = shown.
Proof.
  intros menuItems selectedCategory searchQuery shown. subst shown.
  rewrite !filterItems_filter. split; [|split].
  - eexists. reflexivity.
  - apply filter_length_le.
  - induction menuItems as [|x l IH]; [reflexivity|]. cbn [filter].
    destruct (keeps selectedCategory searchQuery x) eqn:Hx; [|exact IH].
    cbn [filter]. rewrite Hx, IH. reflexivity.
Qed.

End FilterItems.

Lemma filterItems_keeps_witness :
  MenuList.filterItems JsString.toLowerCaseAscii
    [Scenario.biryani; Scenario.pizza] "Fast Food" "PIZZA"
  = [Scenario.pizza]
  /\ In Scenario.pizza
       (MenuList.filterItems JsString.toLowerCaseAscii
          [Scenario.biryani; Scenario.pizza] "All" "Margherita").
Proof.
  split; [reflexivity|].
  apply (filterItems_keeps JsString.toLowerCaseAscii
           [Scenario.biryani; Scenario.pizza] "All" "Margherita" Scenario.pizza).
  split; [right; left; reflexivity|]. split; [left; reflexivity|].
  right. left. exists "pizza ", "". reflexivity.
Defined.

(* ------------------------------------------------------------------ *)
(** ** The menu list: what is offered *)

Lemma insert_by_category_perm :
  forall m l, Permutation (PgRead.insert_by_category m l) (m :: l).
Proof.
  intros m l. induction l as [|x l IH]; cbn [PgRead.insert_by_category].
  - apply Permutation_refl.
  - destruct (String.leb (MenuItem.category m) (MenuItem.category x)).
    + apply Permutation_refl.
    + eapply Permutation_trans; [apply perm_skip, IH | apply perm_swap].
Qed.

Lemma by_category_perm : forall l, Permutation (PgRead.by_category l) l.
Proof.
  induction l as [|m l IH]; [apply Permutation_refl|].
  cbn [PgRead.by_category fold_right]. fold (PgRead.by_category l).
  eapply Permutation_trans; [apply insert_by_category_perm | apply perm_skip, IH].
Qed.

Lemma insert_by_category_sorted :
  forall m l, Sorted category_le l -> Sorted category_le (PgRead.insert_by_category m l).
Proof.
  intros m l Hl. induction Hl as [|x l Hl IH Hhd]; cbn [PgRead.insert_by_category].
  - repeat constructor.
  - destruct (String.leb (MenuItem.category m) (MenuItem.category x)) eqn:Hle.
    + constructor; [constructor; assumption|]. constructor. exact Hle.
    + assert (Hxm : category_le x m).
      { unfold category_le.
        destruct (String.leb_total (MenuItem.category m) (MenuItem.category x))
          as [H|H]; [rewrite H in Hle; discriminate | exact H]. }
      constructor; [exact IH|].
      destruct l as [|y l]; cbn [PgRead.insert_by_category].
      * constructor. exact Hxm.
      * destruct (String.leb (MenuItem.category m) (MenuItem.category y)).
        -- constructor. exact Hxm.
        -- inversion Hhd; subst. constructor. assumption.
Qed.

Lemma by_category_sorted : forall l, Sorted category_le (PgRead.by_category l).
Proof.
  induction l as [|m l IH]; [constructor|].
  cbn [PgRead.by_category fold_right]. fold (PgRead.by_category l).
  apply insert_by_category_sorted, IH.
Qed.

(** X26. The Menu page offers available dishes only.  [loadMenuItems]
    lists the dishes of the catalog that are available, each as often as
    the catalog holds it, ordered by category, for a visitor signed in or
    not; whatever category and query are then chosen, every dish shown,
    hence every dish that "Add to Cart" can be pressed for, is an
    available dish of the catalog.  When the read fails the page keeps
    its lists and raises "Failed to load menu". *)
Theorem menu_offers_available_dishes :
  forall (toLowerCase : string -> string) (session : option Uuid)
         (st : MenuList.state) (db : Db),
    let loaded := fst (MenuList.loadMenuItems session false st db) in
    Permutation (MenuList.menuItems loaded)
      (filter MenuItem.is_available (menu_items db))
    /\ Sorted category_le (MenuList.menuItems loaded)
    /\ MenuList.filteredItems loaded = MenuList.menuItems loaded
    /\ (forall selectedCategory searchQuery item,
           In item (MenuList.filterItems toLowerCase (MenuList.menuItems loaded)
                      selectedCategory searchQuery) ->
           In item (menu_items db) /\ MenuItem.is_available item = true)
    /\ MenuList.loadMenuItems session true st db
       = (MenuList.mkState (MenuList.menuItems st) (MenuList.filteredItems st)
            (MenuList.searchQuery st) (MenuList.selectedCategory st) false,
          [ToastError "Failed to load menu"]).
Proof.
  intros toLowerCase session st db loaded. subst loaded.
  unfold MenuList.loadMenuItems, PgRead.select_available_menu.
  cbn [fst MenuList.menuItems MenuList.filteredItems].
  assert (Hfilter : filter (fun m => Pg.menu_visible session m
                                     && Bool.eqb (MenuItem.is_available m) true)
                      (menu_items db)
                    = filter MenuItem.is_available (menu_items db)).
  { apply filter_ext. intros m. unfold Pg.menu_visible.
    destruct (MenuItem.is_available m); [reflexivity|]. apply andb_false_r. }
  rewrite Hfilter.
  split; [apply by_category_perm|].
  split; [apply by_category_sorted|].
  split; [reflexivity|]. split; [|reflexivity].
  intros selectedCategory searchQuery item Hin.
  rewrite filterItems_filter in Hin. apply filter_In in Hin.
  destruct Hin as [Hin _].
  apply (Permutation_in item (by_category_perm _)) in Hin.
  apply filter_In in Hin. exact Hin.
Qed.

(* ------------------------------------------------------------------ *)
(** ** Who is sent where *)

(** X27. The sign-in page and the two dashboards agree on where a user
    belongs.  For a signed-in user whose profile is read and has one of
    the two roles, [checkSession] sends an admin to "/admin", where the
    admin dashboard lets them stay and the student dashboard would send
    them back to "/admin"; it sends a student to "/student", where the
    student dashboard lets them stay and the admin dashboard would send
    them back to "/student".  A user whose profile cannot be read is sent
    to "/student", and neither dashboard redirects them; without a
    session both dashboards send to "/auth". *)
Theorem routing_agrees :
  forall (uid : Uuid) (db : Db),
    (forall profile,
        PgRead.select_profile uid false db = inl profile ->
        Profile.role profile = "student" \/ Profile.role profile = "admin" ->
        (Profile.role profile = "admin"
         /\ Mount.checkSession (Some uid) false db = [Navigate "/admin"]
         /\ snd (Mount.adminCheckAuth (Some uid) false db) = []
         /\ snd (Mount.studentCheckAuth (Some uid) false db) = [Navigate "/admin"])
        \/ (Profile.role profile = "student"
            /\ Mount.checkSession (Some uid) false db = [Navigate "/student"]
            /\ snd (Mount.studentCheckAuth (Some uid) false db) = []
            /\ snd (Mount.adminCheckAuth (Some uid) false db)
               = [Navigate "/student"]))
    /\ (forall fault e,
           PgRead.select_profile uid fault db = inr e ->
           Mount.checkSession (Some uid) fault db = [Navigate "/student"]
           /\ snd (Mount.studentCheckAuth (Some uid) fault db) = []
           /\ snd (Mount.adminCheckAuth (Some uid) fault db) = [])
    /\ (forall fault,
           Mount.checkSession None fault db = []
           /\ snd (Mount.studentCheckAuth None fault db) = [Navigate "/auth"]
           /\ snd (Mount.adminCheckAuth None fault db) = [Navigate "/auth"]).
Proof.
  intros uid db. split; [|split].
  - intros profile Hread Hrole.
    unfold Mount.checkSession, Mount.studentCheckAuth, Mount.adminCheckAuth,
      AuthLib.getCurrentProfile.
    rewrite Hread. destruct Hrole as [Hrole|Hrole]; rewrite Hrole.
    + right. repeat split.
    + left. repeat split.
  - intros fault e Hread.
    unfold Mount.checkSession, Mount.studentCheckAuth, Mount.adminCheckAuth,
      AuthLib.getCurrentProfile.
    rewrite Hread. repeat split.
  - intros fault. repeat split.
Qed.

Lemma routing_agrees_witness :
  Mount.checkSession (Some Scenario.admin) false Scenario.empty_db
  = [Navigate "/admin"]
  /\ snd (Mount.adminCheckAuth (Some Scenario.admin) false Scenario.empty_db) = [].
Proof.
  destruct (routing_agrees Scenario.admin Scenario.empty_db) as [Hread _].
  destruct (Hread (Profile.mk Scenario.admin "admin"))
    as [(_ & Hsession & Hadmin & _)|(Hrole & _)].
  - reflexivity.
  - right. reflexivity.
  - split; assumption.
  - discriminate Hrole.
Defined.

(** X28. The Orders page offers status buttons only to users whom the
    store treats as admins: after [checkAuthAndLoadOrders], when any
    status button is rendered under any order, the signed-in user has a
    profile with role "admin".  Without a session the page only goes to
    "/auth". *)
Theorem orders_buttons_only_for_admins :
  forall (session : option Uuid) (profile_fault fault : bool)
         (st : OrdersPage.state) (db : Db),
    let st' := fst (Mount.checkAuthAndLoadOrders session profile_fault fault st db) in
    (forall status,
        session <> None ->
        OrdersPage.statusButtons (OrdersPage.isAdmin st') status <> [] ->
        Pg.is_admin session db = true)
    /\ (session = None ->
        Mount.checkAuthAndLoadOrders session profile_fault fault st db
        = (st, [Navigate "/auth"])).
Proof.
  intros session profile_fault fault st db. cbv zeta. split.
  - intros status Hsession Hbuttons.
    destruct session as [uid|]; [|contradiction].
    unfold Mount.checkAuthAndLoadOrders in Hbuttons.
    set (admin := match AuthLib.getCurrentProfile (Some uid) profile_fault db with
                  | Some p => Profile.role p =? "admin"
                  | None => false
                  end) in *.
    assert (Hflag : OrdersPage.isAdmin
                      (fst (OrdersPage.loadOrders (Some uid) admin fault
                              (OrdersPage.mkState (OrdersPage.orders st)
                                 (OrdersPage.loading st) admin) db)) = admin).
    { unfold OrdersPage.loadOrders.
      destruct (Pg.select_orders _ _ _ _); reflexivity. }
    rewrite Hflag in Hbuttons.
    destruct admin eqn:Hadmin; [|contradiction Hbuttons; reflexivity].
    subst admin. unfold AuthLib.getCurrentProfile, PgRead.select_profile in Hadmin.
    destruct profile_fault; [discriminate|].
    destruct (filter (fun p => (Profile.id p =? uid)%N) (profiles db))
      as [|p [|p2 l]] eqn:Hrows; try discriminate.
    assert (Hin : In p (filter (fun p => (Profile.id p =? uid)%N) (profiles db)))
      by (rewrite Hrows; left; reflexivity).
    apply filter_In in Hin. destruct Hin as [Hin Hid].
    unfold Pg.is_admin. apply existsb_exists. exists p. split; [exact Hin|].
    cbn [Pg.is_uid]. rewrite N.eqb_sym, Hid, Hadmin. reflexivity.
  - intros ->. reflexivity.
Qed.

Lemma orders_buttons_only_for_admins_witness :
  OrdersPage.statusButtons
    (OrdersPage.isAdmin
       (fst (Mount.checkAuthAndLoadOrders (Some Scenario.student) false false
               Scenario.orders_page Scenario.db_ordered)))
    "pending"
  = [].
Proof.
  destruct (orders_buttons_only_for_admins (Some Scenario.student) false false
              Scenario.orders_page Scenario.db_ordered) as [Honly _].
  destruct (OrdersPage.statusButtons _ "pending") as [|b l] eqn:Hb;
    [reflexivity|].
  exfalso.
  assert (Hadmin : Pg.is_admin (Some Scenario.student) Scenario.db_ordered = true).
  { apply (Honly "pending"); [discriminate|]. rewrite Hb. discriminate. }
  vm_compute in Hadmin. discriminate.
Defined.

(* ------------------------------------------------------------------ *)
(** ** From the cart to the Orders page *)

Lemma numbered_lines_view :
  forall auth db order l n,
    map (fun it =>
           Order.mkItem (OrderItemRow.quantity it) (OrderItemRow.price_at_order it)
             (option_map (fun m => Order.mkMenuItem (MenuItem.name m)
                                     (MenuItem.is_vegetarian m))
                (Pg.find_menu_item auth (OrderItemRow.menu_item_id it) db)))
      (Pg.number_items n (Cart.orderItems order l))
    = map (fun i =>
             Order.mkItem (CartItem.quantity i)
               (CartItem.price (CartItem.menu_item i))
               (option_map (fun m => Order.mkMenuItem (MenuItem.name m)
                                       (MenuItem.is_vegetarian m))
                  (Pg.find_menu_item auth (CartItem.mid (CartItem.menu_item i)) db)))
        l.
Proof.
  intros auth db order l. induction l as [|x l IH]; intros n; [reflexivity|].
  cbn [Cart.orderItems map Pg.number_items OrderItemRow.quantity
         OrderItemRow.price_at_order OrderItemRow.menu_item_id noi_quantity
         noi_price_at_order noi_menu_item_id].
  f_equal. apply IH.
Qed.

Lemma fold_view_lines :
  forall (F : CartItem.t -> option Order.menu_item_t) (l : list CartItem.t)
         (acc : float),
    fold_left (fun sum line => (sum + OrdersPage.lineTotal line)%float)
      (map (fun i => Order.mkItem (CartItem.quantity i)
                       (CartItem.price (CartItem.menu_item i)) (F i)) l)
      acc
    = fold_left (fun sum item => (sum + Cart.line item)%float) l acc.
Proof.
  intros F l. induction l as [|x l IH]; intros acc; [reflexivity|].
  cbn [map fold_left]. rewrite IH. reflexivity.
Qed.

(** X29. A successful checkout shows on the student's Orders page: the
    list that [loadOrders] gives then holds the new order, pending, with
    one line per cart entry carrying the entry's quantity and price, in
    cart order; and the total shown for the order is the double that
    comes from adding up the line totals shown from 0, top to bottom, and
    then adding that sum times 0.05, every step rounded. *)
Theorem checkout_shows_on_orders_page :
  forall (uid : Uuid) (now : N) (net : Cart.checkout_faults) (st : Cart.state)
         (db db' : Db) (ev : list Event) (isAdminUser : bool)
         (page : OrdersPage.state),
    order_ids_drawn db ->
    Cart.handleCheckout (Some uid) now net st db = (db', ev) ->
    succeeded ev = true ->
    exists shown,
      In shown
         (OrdersPage.orders
            (fst (OrdersPage.loadOrders (Some uid) isAdminUser false page db')))
      /\ Order.id shown = next_uuid db
      /\ Order.order_number shown = Cart.orderNumber now
      /\ Order.status shown = "pending"
      /\ map (fun line => (Order.quantity line, Order.price_at_order line))
           (Order.order_items shown)
         = map (fun i => (CartItem.quantity i,
                          CartItem.price (CartItem.menu_item i)))
             (Cart.cartItems st)
      /\ (let lines :=
            fold_left (fun sum line => (sum + OrdersPage.lineTotal line)%float)
              (Order.order_items shown) 0%float in
          Order.total shown = (lines + lines * 0.05)%float).
Proof.
  intros uid now net st db db' ev isAdminUser page Hdrawn Hrun Hok.
  destruct (handleCheckout_success uid now net st db db' ev Hrun Hok)
    as (Horders & Hitems & _).
  set (order := OrderRow.mk (next_uuid db) (Cart.orderNumber now) uid "pending"
                  (Cart.subtotal (Cart.calculateTotal (Cart.cartItems st)))
                  (Cart.tax (Cart.calculateTotal (Cart.cartItems st)))
                  (Cart.total (Cart.calculateTotal (Cart.cartItems st)))
                  (Cart.paymentMethod st) "completed" now now None) in *.
  exists (Pg.order_view (Some uid) db' order). split.
  - rewrite loadOrders_shown.
    apply (Permutation_in _ (Permutation_sym (newest_first_perm _))).
    apply in_map. apply filter_In. split.
    + rewrite Horders. apply in_or_app. right. left. reflexivity.
    + unfold Pg.order_visible. subst order.
      destruct isAdminUser; cbn [OrderRow.student_id Pg.is_uid];
        rewrite !N.eqb_refl; reflexivity.
  - assert (Hlines :
              Order.order_items (Pg.order_view (Some uid) db' order)
              = map (fun i =>
                       Order.mkItem (CartItem.quantity i)
                         (CartItem.price (CartItem.menu_item i))
                         (option_map
                            (fun m => Order.mkMenuItem (MenuItem.name m)
                                        (MenuItem.is_vegetarian m))
                            (Pg.find_menu_item (Some uid)
                               (CartItem.mid (CartItem.menu_item i)) db')))
                  (Cart.cartItems st)).
    { cbn [Pg.order_view Order.order_items]. unfold Pg.embed_order_items.
      rewrite Hitems, filter_app.
      change (OrderRow.id order) with (next_uuid db).
      rewrite (items_of_fresh db Hdrawn). cbn [app].
      rewrite (filter_numbered order). apply numbered_lines_view. }
    rewrite Hlines. repeat split.
    + rewrite map_map. reflexivity.
    + cbv zeta. rewrite fold_view_lines. reflexivity.
Qed.

Lemma checkout_shows_on_orders_page_witness :
  exists shown,
    In shown
       (OrdersPage.orders
          (fst (OrdersPage.loadOrders (Some Scenario.student) false false
                  Scenario.orders_page Scenario.db_ordered)))
    /\ Order.id shown = 102%N
    /\ Order.status shown = "pending".
Proof.
  destruct (checkout_shows_on_orders_page Scenario.student Scenario.noon
              Scenario.no_faults Scenario.page Scenario.db_cart
              Scenario.db_ordered
              [ToastSuccess "Order placed successfully!"; Navigate "/orders"]
              false Scenario.orders_page)
    as (shown & Hin & Hid & _ & Hstatus & _).
  - constructor.
  - vm_compute. reflexivity.
  - reflexivity.
  - exists shown. repeat split; assumption.
Defined.
